(** * pashuthalam-medical: the recommendation claim workflow

    A shallow embedding of the claim workflow of [src/db.py] and
    [src/app.py]: the recommendation store ([claim_recommendation],
    [create_recommendation], [update_recommendation_item_dates], the
    read queries), the notification dispatcher ([send_whatsapp_message])
    and the claim endpoint ([claim_recommendation_route]); besides the
    workflow, the [total_claims] count of [get_shop_statistics] and the
    paging of [get_claimed_recommendations].

    Modelling conventions.
    - A table is a [gmap] from the primary key [id] to its row; the
      AUTO_INCREMENT counter of [medicine_recommendations] is a field of
      the database state.
    - A nullable column, and a Python value that may be [None], is an
      [option].
    - Each request is served by one worker; what the other workers
      write while it runs is the list [concurrent] of its environment,
      committed between its reads and its UPDATE.
    - Python exceptions are values of [exn]; code that may raise returns
      a [pyresult], and effectful code runs in the monad [M] over the
      [World] (database, gateway requests issued, sleeps taken).
    - The messaging gateway is an oracle: the outcome of the [n]-th
      [requests.post] of a request.
    - The database connection itself is assumed healthy: no query raises
      [pymysql] errors. *)

From Stdlib Require Import ZArith QArith Qcanon String Ascii DecimalString.
From stdpp Require Import gmap strings list fin_maps sorting numbers.

Local Open Scope string_scope.
Local Open Scope Z_scope.

(** ** Python values and exceptions *)

(** The exception classes the workflow can meet.  [Timeout] and
    [ConnectionError] are the [requests.exceptions] classes, both
    subclasses of [RequestException]. *)
Inductive exn_class : Type :=
  | Timeout
  | ConnectionError
  | RequestException
  | TypeError
  | ValueError
  | OverflowError
  | OtherException.

Record exn : Type := mk_exn { exn_cls : exn_class; exn_str : string }.

Inductive pyresult (A : Type) : Type :=
  | Ok (a : A)
  | Raise (e : exn).
Arguments Ok {A} a.
Arguments Raise {A} e.

Definition is_Timeout (e : exn) : bool :=
  match exn_cls e with Timeout => true | _ => false end.

Definition is_ConnectionError (e : exn) : bool :=
  match exn_cls e with ConnectionError => true | _ => false end.

Definition is_RequestException (e : exn) : bool :=
  match exn_cls e with
  | Timeout | ConnectionError | RequestException => true
  | _ => false
  end.

(** [str(n)] for an integer. *)
Definition str_of_Z (n : Z) : string := NilZero.string_of_int (Z.to_int n).

(** [", ".join(l)]. *)
Fixpoint join (sep : string) (l : list string) : string :=
  match l with
  | [] => ""
  | [x] => x
  | x :: rest => x +:+ sep +:+ join sep rest
  end.

(** ** Calendar dates ([datetime.date] and [timedelta])

    A date is its year, month and day; arithmetic goes through the
    proleptic Gregorian ordinal, as in CPython's [datetime]. *)
Module Date.

Record date : Type := mk_date { year : Z; month : Z; day : Z }.

#[global] Instance date_eq_dec : EqDecision date.
Proof. solve_decision. Defined.

Definition MINYEAR : Z := 1.
Definition MAXYEAR : Z := 9999.
Definition MAXORDINAL : Z := 3652059.

Definition is_leap (y : Z) : bool :=
  (y mod 4 =? 0) && (negb (y mod 100 =? 0) || (y mod 400 =? 0)).

Definition days_before_year (y : Z) : Z :=
  let y' := y - 1 in y' * 365 + y' / 4 - y' / 100 + y' / 400.

Definition DAYS_IN_MONTH (m : Z) : Z :=
  match m with
  | 1 => 31 | 2 => 28 | 3 => 31 | 4 => 30 | 5 => 31 | 6 => 30
  | 7 => 31 | 8 => 31 | 9 => 30 | 10 => 31 | 11 => 30 | 12 => 31
  | _ => -1
  end.

Definition DAYS_BEFORE_MONTH (m : Z) : Z :=
  match m with
  | 1 => 0 | 2 => 31 | 3 => 59 | 4 => 90 | 5 => 120 | 6 => 151
  | 7 => 181 | 8 => 212 | 9 => 243 | 10 => 273 | 11 => 304 | 12 => 334
  | _ => -1
  end.

Definition days_in_month (y m : Z) : Z :=
  if (m =? 2) && is_leap y then 29 else DAYS_IN_MONTH m.

Definition days_before_month (y m : Z) : Z :=
  DAYS_BEFORE_MONTH m + (if (2 <? m) && is_leap y then 1 else 0).

Definition ymd2ord (y m d : Z) : Z :=
  days_before_year y + days_before_month y m + d.

Definition toordinal (dt : date) : Z := ymd2ord (year dt) (month dt) (day dt).

Definition DI400Y : Z := days_before_year 401.
Definition DI100Y : Z := days_before_year 101.
Definition DI4Y : Z := days_before_year 5.

Definition ord2ymd (n0 : Z) : date :=
  let n := n0 - 1 in
  let n400 := n / DI400Y in let n := n mod DI400Y in
  let y := n400 * 400 + 1 in
  let n100 := n / DI100Y in let n := n mod DI100Y in
  let n4 := n / DI4Y in let n := n mod DI4Y in
  let n1 := n / 365 in let n := n mod 365 in
  let y := y + n100 * 100 + n4 * 4 + n1 in
  if (n1 =? 4) || (n100 =? 4) then mk_date (y - 1) 12 31
  else
    let leapyear := (n1 =? 3) && (negb (n4 =? 24) || (n100 =? 3)) in
    let m := Z.shiftr (n + 50) 5 in
    let preceding :=
      DAYS_BEFORE_MONTH m + (if (2 <? m) && leapyear then 1 else 0) in
    if n <? preceding then
      let m' := m - 1 in
      let preceding' :=
        preceding
        - (DAYS_IN_MONTH m' + (if (m' =? 2) && leapyear then 1 else 0)) in
      mk_date y m' (n - preceding' + 1)
    else mk_date y m (n - preceding + 1).

(** [date(y, m, d)]: [ValueError] outside the calendar. *)
Definition make (y m d : Z) : pyresult date :=
  if (MINYEAR <=? y) && (y <=? MAXYEAR) then
    if (1 <=? m) && (m <=? 12) then
      if (1 <=? d) && (d <=? days_in_month y m) then Ok (mk_date y m d)
      else Raise (mk_exn ValueError "day is out of range for month")
    else Raise (mk_exn ValueError "month must be in 1..12")
  else Raise (mk_exn ValueError "year is out of range").

(** [dt + timedelta(days=n)]: a [timedelta] holds at most 999999999
    days, and the sum must stay within years 1..9999. *)
Definition add_days (dt : date) (n : Z) : pyresult date :=
  if (-999999999 <=? n) && (n <=? 999999999) then
    let o := toordinal dt + n in
    if (0 <? o) && (o <=? MAXORDINAL) then Ok (ord2ymd o)
    else Raise (mk_exn OverflowError "date value out of range")
  else
    Raise (mk_exn OverflowError
             "days=%d; must have magnitude <= 999999999").

Definition pad2 (n : Z) : string :=
  if n <? 10 then "0" +:+ str_of_Z n else str_of_Z n.

Definition pad4 (n : Z) : string :=
  if n <? 10 then "000" +:+ str_of_Z n
  else if n <? 100 then "00" +:+ str_of_Z n
  else if n <? 1000 then "0" +:+ str_of_Z n
  else str_of_Z n.

(** [dt.isoformat()], YYYY-MM-DD. *)
Definition isoformat (dt : date) : string :=
  pad4 (year dt) +:+ "-" +:+ pad2 (month dt) +:+ "-" +:+ pad2 (day dt).

(** [dt.strftime("%d/%m/%Y")]: the day and the month in two digits,
    the year as the C library prints %Y, in as many digits as it has
    (the year 5 is "5"). *)
Definition strftime_dmy (dt : date) : string :=
  pad2 (day dt) +:+ "/" +:+ pad2 (month dt) +:+ "/" +:+ str_of_Z (year dt).

(** *** [datetime.strptime(s, '%Y-%m-%d').date()] *)

Definition digit_val (c : ascii) : option Z :=
  let n := Z.of_nat (nat_of_ascii c) in
  if (48 <=? n) && (n <=? 57) then Some (n - 48) else None.

Fixpoint digits_val (acc : Z) (l : list ascii) : option Z :=
  match l with
  | [] => Some acc
  | c :: rest =>
      match digit_val c with
      | Some v => digits_val (acc * 10 + v) rest
      | None => None
      end
  end.

(** A field of one to [maxlen] decimal digits. *)
Definition field (maxlen : nat) (l : list ascii) : option Z :=
  match l with
  | [] => None
  | _ => if (length l <=? maxlen)%nat then digits_val 0 l else None
  end.

Fixpoint split_dash (cur : list ascii) (l : list ascii) : list (list ascii) :=
  match l with
  | [] => [rev cur]
  | c :: rest =>
      if Ascii.eqb c "-"%char then rev cur :: split_dash [] rest
      else split_dash (c :: cur) rest
  end.

(** The day field of %d: one or two digits, or a space and a digit. *)
Definition day_field (l : list ascii) : option Z :=
  match l with
  | [sp; c] => if Ascii.eqb sp " "%char then digit_val c else field 2 l
  | _ => field 2 l
  end.

(** %Y takes exactly four digits, %m one or two with a value from 1 to
    12, %d a value from 1 to 31; the three fields are then checked by
    the [date] constructor. *)
Definition strptime_ymd (s : string) : pyresult date :=
  let bad :=
    Raise (mk_exn ValueError
             "time data does not match format '%Y-%m-%d'") in
  match split_dash [] (list_ascii_of_string s) with
  | [ys; ms; ds] =>
      if (length ys =? 4)%nat then
        match field 4 ys, field 2 ms, day_field ds with
        | Some y, Some m, Some d =>
            if (1 <=? m) && (m <=? 12) && (1 <=? d) && (d <=? 31)
            then make y m d else bad
        | _, _, _ => bad
        end
      else bad
  | _ => bad
  end.

End Date.
Export Date.

(** ** The database ([src/db.py])

    Rows are keyed by their primary key [id].  Timestamps are instants
    of the server clock, as integers.  The DDL is not among the sources:
    a column that an INSERT leaves out starts at NULL. *)

(** A row of [medicine_recommendations]. *)
Record Recommendation : Type := mk_recommendation {
  farmer_id : Z;
  doctor_id : Z;
  is_claimed : bool;
  claimed_by_shop_id : option Z;
  claimed_at : option Z;
  claim_notes : option string;
  rec_updated_at : option Z
}.

(** A row of [recommendation_items]; of the dosage columns only those
    the workflow reads.  [total_daily_dosage_ml] is a DECIMAL, kept as
    the text that [str] renders. *)
Record Item : Type := mk_item {
  recommendation_id : Z;
  antibiotic_name : option string;
  treatment_days : option Z;
  daily_frequency : option Z;
  total_daily_dosage_ml : option string;
  start_date : option date;
  end_date : option date;
  item_updated_at : option Z
}.

(** A row of [farmers]. *)
Record Farmer : Type := mk_farmer {
  name : string;
  mobile_no : option string
}.

Record Db : Type := mk_db {
  recommendations : gmap Z Recommendation;
  recommendations_auto_increment : Z;
  items : gmap Z Item;
  farmers : gmap Z Farmer
}.

Definition set_recommendations (db : Db) (t : gmap Z Recommendation) : Db :=
  mk_db t (recommendations_auto_increment db) (items db) (farmers db).

Definition set_items (db : Db) (t : gmap Z Item) : Db :=
  mk_db (recommendations db) (recommendations_auto_increment db) t (farmers db).

Definition empty_db : Db := mk_db ∅ 1 ∅ ∅.

Module Store.

(** SELECT ... FROM medicine_recommendations WHERE id = %s *)
Definition get_recommendation_by_id (db : Db) (recommendation_id : Z)
  : option Recommendation :=
  recommendations db !! recommendation_id.

(** SELECT ... FROM farmers WHERE id = %s *)
Definition get_farmer_by_id (db : Db) (farmer_id : Z) : option Farmer :=
  farmers db !! farmer_id.

(** The row that the UPDATE of [claim_recommendation] writes. *)
Definition claimed_row (r : Recommendation) (shop_id : Z)
    (notes : option string) (now : Z) : Recommendation :=
  mk_recommendation (farmer_id r) (doctor_id r) true
    (Some shop_id) (Some now) notes (Some now).

(** UPDATE medicine_recommendations SET is_claimed = 1, ...
    WHERE id = %s AND is_claimed = 0; the result is the new database
    and the number of affected rows. *)
Definition claim_update (recommendation_id shop_id : Z)
    (notes : option string) (now : Z) (db : Db) : Db * Z :=
  match recommendations db !! recommendation_id with
  | Some r =>
      if is_claimed r then (db, 0)
      else
        (set_recommendations db
           (<[recommendation_id := claimed_row r shop_id notes now]>
              (recommendations db)), 1)
  | None => (db, 0)
  end.

(** [claim_recommendation]: [now] is the reading of [datetime.now()]. *)
Definition claim_recommendation (recommendation_id shop_id : Z)
    (claim_notes : option string) (now : Z) (db : Db) : Db * bool :=
  let '(db', affected_rows) :=
    claim_update recommendation_id shop_id claim_notes now db in
  (db', 0 <? affected_rows).

(** Modelled from the spec: the DDL of [medicine_recommendations] is
    not among the sources.  The columns that the INSERT of
    [create_recommendation] leaves out are the nullable claimedByShopId,
    claimedAt and claimNotes of the data model; they start at NULL. *)
Definition inserted_recommendation (farmer doctor : Z) : Recommendation :=
  mk_recommendation farmer doctor false None None None None.

(** [create_recommendation]: INSERT ... VALUES (%s, %s, 0); returns
    [cursor.lastrowid], the key that AUTO_INCREMENT handed out. *)
Definition create_recommendation (farmer doctor : Z) (db : Db) : Db * Z :=
  let id := recommendations_auto_increment db in
  (mk_db
     (<[id := inserted_recommendation farmer doctor]> (recommendations db))
     (id + 1) (items db) (farmers db),
   id).

Definition item_id_le (a b : Z * Item) : Prop := a.1 ≤ b.1.

#[global] Instance item_id_le_dec : RelDecision item_id_le.
Proof. intros a b. unfold item_id_le. apply _. Defined.

(** SELECT ... FROM recommendation_items WHERE recommendation_id = %s
    ORDER BY id; a result row is the pair of its [id] and its other
    columns. *)
Definition get_recommendation_items_by_recommendation_id
    (db : Db) (rid : Z) : list (Z * Item) :=
  merge_sort item_id_le
    (filter (λ kv : Z * Item, recommendation_id kv.2 = rid)
       (map_to_list (items db))).

Definition dated_item (it : Item) (s e : date) (now : Z) : Item :=
  mk_item (recommendation_id it) (antibiotic_name it) (treatment_days it)
    (daily_frequency it) (total_daily_dosage_ml it)
    (Some s) (Some e) (Some now).

(** [update_recommendation_item_dates]: UPDATE recommendation_items
    SET start_date, end_date, updated_at WHERE id = %s.  The boolean
    tells whether a row matched; the endpoint ignores it. *)
Definition update_recommendation_item_dates (item_id : Z) (s e : date)
    (now : Z) (db : Db) : Db * bool :=
  match items db !! item_id with
  | Some it =>
      (set_items db (<[item_id := dated_item it s e now]> (items db)), true)
  | None => (db, false)
  end.

End Store.
Export Store.

(** The write operations of the recommendation store, as the steps of a
    transition system. *)
Inductive store_op : Type :=
  | OpCreate (farmer doctor : Z)
  | OpClaim (recommendation_id shop_id : Z) (notes : option string) (now : Z).

Definition run_op (op : store_op) (db : Db) : Db :=
  match op with
  | OpCreate f d => (create_recommendation f d db).1
  | OpClaim rid sid notes now => (claim_recommendation rid sid notes now db).1
  end.

Definition run_ops (ops : list store_op) (db : Db) : Db :=
  foldl (λ acc op, run_op op acc) db ops.

(** States of the store reachable from the empty database. *)
Inductive reachable : Db → Prop :=
  | reachable_empty : reachable empty_db
  | reachable_step op db : reachable db → reachable (run_op op db).

(** The data-model invariant of a recommendation row. *)
Definition claim_fields_consistent (r : Recommendation) : Prop :=
  is_claimed r = false ↔ claimed_by_shop_id r = None ∧ claimed_at r = None.

(** Keys handed out so far lie below the AUTO_INCREMENT counter. *)
Definition ids_below_counter (db : Db) : Prop :=
  ∀ id r, recommendations db !! id = Some r →
          id < recommendations_auto_increment db.

Definition store_inv (db : Db) : Prop :=
  ids_below_counter db ∧
  ∀ id r, recommendations db !! id = Some r → claim_fields_consistent r.

(** ** Effects: the world of a request and the monad over it *)

(** The JSON body posted to the gateway. *)
Record Payload : Type := mk_payload {
  token : string;
  phone : string;
  template_name : string;
  template_language : string;
  text1 : string;
  text2 : string;
  text3 : string;
  text4 : string;
  text5 : string;
  text6 : string
}.

(** What the worker has done so far: the database, the gateway requests
    issued (oldest first) and the [time.sleep] durations in seconds. *)
Record World : Type := mk_world {
  w_db : Db;
  w_posted : list Payload;
  w_slept : list Qc
}.

Definition M (A : Type) : Type := World → pyresult A * World.

#[global] Instance M_ret : MRet M := λ A a w, (Ok a, w).

#[global] Instance M_bind : MBind M := λ A B f m w,
  match m w with
  | (Ok a, w') => f a w'
  | (Raise e, w') => (Raise e, w')
  end.

Definition raise {A : Type} (e : exn) : M A := λ w, (Raise e, w).

(** A pure computation that may raise. *)
Definition lift {A : Type} (r : pyresult A) : M A := λ w, (r, w).

(** [try: body  except ...: handler]; [handler e = None] when no
    [except] clause matches [e], which then propagates. *)
Definition try_except {A : Type} (body : M A) (handler : exn → option (M A))
  : M A := λ w,
  match body w with
  | (Ok a, w') => (Ok a, w')
  | (Raise e, w') =>
      match handler e with
      | Some h => h w'
      | None => (Raise e, w')
      end
  end.

Definition db_read {A : Type} (q : Db → A) : M A := λ w, (Ok (q (w_db w)), w).

Definition db_write {A : Type} (q : Db → Db * A) : M A := λ w,
  let '(db', a) := q (w_db w) in
  (Ok a, mk_world db' (w_posted w) (w_slept w)).

Definition time_sleep (seconds : Qc) : M unit := λ w,
  (Ok (), mk_world (w_db w) (w_posted w) (w_slept w ++ [seconds])).

(** Outcome of one [requests.post]. *)
Inductive post_outcome : Type :=
  | Response (status_code : Z) (text : string)
  | PostRaises (e : exn).

(** The gateway: the outcome of the [n]-th request of this worker. *)
Definition Gateway : Type := nat → post_outcome.

Definition requests_post (gw : Gateway) (payload : Payload) : M (Z * string) :=
  λ w,
  let w' := mk_world (w_db w) (w_posted w ++ [payload]) (w_slept w) in
  match gw (length (w_posted w)) with
  | Response status_code text => (Ok (status_code, text), w')
  | PostRaises e => (Raise e, w')
  end.

(** Python truthiness of an optional integer and of an optional string. *)
Definition truthy_Z (o : option Z) : option Z :=
  match o with
  | Some z => if z =? 0 then None else Some z
  | None => None
  end.

Definition truthy_str (o : option string) : option string :=
  match o with
  | Some s => if String.eqb s "" then None else Some s
  | None => None
  end.

(** [str(x)] of a nullable value. *)
Definition str_opt (o : option string) : string := default "None" o.

Definition str_opt_Z (o : option Z) : string :=
  match o with Some z => str_of_Z z | None => "None" end.

(** ** The notification dispatcher ([send_whatsapp_message]) *)

Record WhatsAppConfig : Type := mk_config {
  WHATSAPP_API_TOKEN : string;
  WHATSAPP_TIMEOUT : Z;
  WHATSAPP_MAX_RETRIES : Z;
  WHATSAPP_ENABLED : bool
}.

(** The defaults of [app.py]. *)
Definition default_config : WhatsAppConfig :=
  mk_config "fKyd6nTfOloQt5gpyBMIwDq7S1tNtk4xeGtH5LK18a569deb" 30 3 true.

Module Dispatcher.

Definition is_digit (c : ascii) : bool :=
  let n := nat_of_ascii c in ((48 <=? n) && (n <=? 57))%nat.

(** [re.sub(r'[^\d+]', '', farmer_mobile)], then one leading [+]
    removed. *)
Definition clean_mobile (farmer_mobile : string) : string :=
  let kept :=
    filter (λ c, is_digit c || Ascii.eqb c "+"%char = true)
      (list_ascii_of_string farmer_mobile) in
  match kept with
  | c :: rest =>
      if Ascii.eqb c "+"%char then string_of_list_ascii rest
      else string_of_list_ascii kept
  | [] => ""
  end.

Definition make_payload (cfg : WhatsAppConfig)
    (farmer_mobile farmer_name : string)
    (recommendation_items : list (Z * Item)) (s e : date) : Payload :=
  let antibiotics_info :=
    map (λ kv : Z * Item, str_opt (antibiotic_name kv.2))
      recommendation_items in
  let total_dosages :=
    map (λ kv : Z * Item, str_opt (total_daily_dosage_ml kv.2) +:+ "ml")
      recommendation_items in
  let frequency :=
    match recommendation_items with
    | kv :: _ => str_opt_Z (daily_frequency kv.2)
    | [] => "1"
    end in
  mk_payload (WHATSAPP_API_TOKEN cfg) (clean_mobile farmer_mobile)
    "agri_safe" "en"
    farmer_name (join ", " antibiotics_info) (join ", " total_dosages)
    frequency (strftime_dmy s) (strftime_dmy e).

(** How one pass through the body of the [for] loop ends: with a
    [return], or by going on to the next attempt with the retry delay
    it leaves behind. *)
Inductive loop_step : Type :=
  | Return (v : bool * string)
  | NextAttempt (retry_delay : Qc).

Section Loop.
Context (gw : Gateway) (payload : Payload) (max_retries : Z).

(** The [try]/[except] of one attempt (lines 136-179). *)
Definition attempt_body (attempt : Z) (retry_delay : Qc) : M loop_step :=
  try_except
    ('(status_code, _) ← requests_post gw payload;
     if status_code =? 200 then
       mret (Return
               (true,
                "WhatsApp message sent successfully (attempt "
                +:+ str_of_Z (attempt + 1) +:+ ")"))
     else if status_code =? 429 then
       if attempt <? max_retries - 1 then
         time_sleep (retry_delay * 2)%Qc;;
         mret (NextAttempt retry_delay)
       else (* no [return] here: the pass just ends *)
         mret (NextAttempt retry_delay)
     else
       mret (Return
               (false,
                "Failed to send WhatsApp message: HTTP "
                +:+ str_of_Z status_code)))
    (λ e,
       if is_Timeout e then
         Some
           (if attempt <? max_retries - 1 then
              time_sleep retry_delay;;
              mret (NextAttempt (retry_delay * Q2Qc 1.5)%Qc)
            else
              mret (Return
                      (false,
                       "WhatsApp API timeout after "
                       +:+ str_of_Z max_retries +:+ " attempts")))
       else if is_ConnectionError e then
         Some
           (if attempt <? max_retries - 1 then
              time_sleep retry_delay;;
              mret (NextAttempt retry_delay)
            else
              mret (Return
                      (false,
                       "WhatsApp API connection failed after "
                       +:+ str_of_Z max_retries +:+ " attempts")))
       else None).

(** [for attempt in range(max_retries)], from [attempt] on with
    [remaining] passes left.  When the range is exhausted the
    function runs off its end, which in Python returns [None]. *)
Fixpoint retry_loop (remaining : nat) (attempt : Z) (retry_delay : Qc)
  : M (option (bool * string)) :=
  match remaining with
  | O => mret None
  | S k =>
      step ← attempt_body attempt retry_delay;
      match step with
      | Return v => mret (Some v)
      | NextAttempt retry_delay' => retry_loop k (attempt + 1) retry_delay'
      end
  end.
End Loop.

(** [send_whatsapp_message]; the result [None] is Python's [None]. *)
Definition send_whatsapp_message (cfg : WhatsAppConfig) (gw : Gateway)
    (farmer_mobile farmer_name : string)
    (recommendation_items : list (Z * Item)) (s e : date)
  : M (option (bool * string)) :=
  try_except
    (let payload :=
       make_payload cfg farmer_mobile farmer_name recommendation_items s e in
     if negb (WHATSAPP_ENABLED cfg) then
       mret (Some (false, "WhatsApp messaging is disabled in configuration"))
     else
       let max_retries := WHATSAPP_MAX_RETRIES cfg in
       retry_loop gw payload max_retries (Z.to_nat max_retries) 0 (Q2Qc 2))
    (λ e,
       if is_RequestException e then
         Some (mret (Some (false, "Network error: " +:+ exn_str e)))
       else
         Some (mret (Some (false, "Unexpected error: " +:+ exn_str e)))).

End Dispatcher.
Export Dispatcher.

(** ** The claim endpoint ([claim_recommendation_route]) *)

(** The JSON body of the request: [start_date], and [notes] when the
    key is present. *)
Record ClaimJson : Type := mk_json {
  json_start_date : option string;
  json_notes : option string
}.

(** What a request brings with it.  [concurrent] lists the writes that
    other workers commit between this worker's reads of the
    recommendation and its own UPDATE; it is empty when the request
    runs alone. *)
Record Env : Type := mk_env {
  session_shop_id : option Z;
  request_json : option ClaimJson;
  now : Z;
  config : WhatsAppConfig;
  gateway : Gateway;
  concurrent : list store_op
}.

(** [request.get_json() or {}]. *)
Definition request_data (env : Env) : ClaimJson :=
  default (mk_json None None) (request_json env).

(** [data.get('notes', '')]. *)
Definition request_notes (env : Env) : string :=
  default "" (json_notes (request_data env)).

(** The same request against another dispatcher configuration and
    another behaviour of the gateway. *)
Definition with_notifier (env : Env) (cfg : WhatsAppConfig) (gw : Gateway)
  : Env :=
  mk_env (session_shop_id env) (request_json env) (now env) cfg gw
    (concurrent env).

(** The fields of the success response. *)
Record ClaimResult : Type := mk_result {
  res_message : string;
  res_recommendation_id : Z;
  res_shop_id : Z;
  res_claimed_at : Z;
  res_start_date : string;
  res_end_date : string;
  res_max_treatment_days : Z;
  res_notes : string;
  whatsapp_sent : bool;
  whatsapp_message : string
}.

Inductive Body : Type :=
  | ErrorBody (error : string)
  | ResultBody (r : ClaimResult).

Record HttpResponse : Type := mk_response { status : Z; body : Body }.

Module Route.

(** [item['treatment_days'] for item in items if item['treatment_days']] *)
Definition usable_treatment_days (recommendation_items : list (Z * Item))
  : list Z :=
  omap (λ kv : Z * Item, truthy_Z (treatment_days kv.2)) recommendation_items.

(** The builtin [max] over a sequence. *)
Definition py_max (l : list Z) : pyresult Z :=
  match l with
  | [] => Raise (mk_exn ValueError "max() arg is an empty sequence")
  | x :: rest => Ok (foldl Z.max x rest)
  end.

(** [item['treatment_days'] - 1]. *)
Definition days_minus_one (d : option Z) : pyresult Z :=
  match d with
  | Some d => Ok (d - 1)
  | None =>
      Raise (mk_exn TypeError
               "unsupported operand type(s) for -: 'NoneType' and 'int'")
  end.

(** The loop of lines 766-768: each item gets the start date and its
    own end date. *)
Fixpoint update_item_dates (recommendation_items : list (Z * Item))
    (s : date) (now : Z) : M unit :=
  match recommendation_items with
  | [] => mret ()
  | item :: rest =>
      n ← lift (days_minus_one (treatment_days item.2));
      item_end_date ← lift (add_days s n);
      db_write (update_recommendation_item_dates item.1 s item_end_date now);;
      update_item_dates rest s now
  end.

(** Lines 771-810: the notification, with both of its [except
    Exception] guards.  The result is [(whatsapp_success,
    whatsapp_message)]. *)
Definition notify_farmer (env : Env) (recommendation : Recommendation)
    (recommendation_items : list (Z * Item)) (s e : date)
  : M (bool * string) :=
  try_except
    (farmer ← db_read (λ db, get_farmer_by_id db (farmer_id recommendation));
     match farmer with
     | Some f =>
         match truthy_str (mobile_no f) with
         | Some mobile =>
             try_except
               (r ← send_whatsapp_message (config env) (gateway env)
                      mobile (name f) recommendation_items s e;
                match r with
                | Some (success, message) => mret (success, message)
                | None =>
                    raise (mk_exn TypeError
                             "cannot unpack non-iterable NoneType object")
                end)
               (λ whatsapp_error,
                  Some (mret (false,
                              "WhatsApp failed: "
                              +:+ exn_str whatsapp_error)))
         | None => mret (false, "Farmer mobile number not available")
         end
     | None => mret (false, "Farmer mobile number not available")
     end)
    (λ e',
       Some (mret (false, "WhatsApp preparation error: " +:+ exn_str e'))).

(** Writes of other workers that commit before this worker's UPDATE. *)
Definition others_commit (ops : list store_op) : M unit := λ w,
  (Ok (), mk_world (run_ops ops (w_db w)) (w_posted w) (w_slept w)).

Definition error_response (code : Z) (msg : string) : HttpResponse :=
  mk_response code (ErrorBody msg).

(** Lines 759-826: claim, store the item dates, notify and answer.
    The writes of the other workers land just before the UPDATE. *)
Definition claim_scheduled (env : Env) (recommendation_id shop_id : Z)
    (recommendation : Recommendation) (notes : string)
    (recommendation_items : list (Z * Item)) (s : date)
    (max_treatment_days : Z) (e : date)
  : M HttpResponse :=
  others_commit (concurrent env);;
  claim_success ←
    db_write
      (claim_recommendation recommendation_id shop_id (Some notes) (now env));
  if negb claim_success then
    mret (error_response 500 "Failed to claim recommendation")
  else
  update_item_dates recommendation_items s (now env);;
  '(whatsapp_success, whatsapp_msg) ←
    notify_farmer env recommendation recommendation_items s e;
  updated_recommendation ←
    db_read (λ db, get_recommendation_by_id db recommendation_id);
  match updated_recommendation with
  | None =>
      raise (mk_exn TypeError "'NoneType' object is not subscriptable")
  | Some updated =>
      mret
        (mk_response 200
           (ResultBody
              (mk_result "Recommendation claimed successfully"
                 recommendation_id shop_id
                 (default (now env) (claimed_at updated))
                 (isoformat s) (isoformat e) max_treatment_days notes
                 whatsapp_success whatsapp_msg)))
  end.

(** Lines 749-757: with the request validated, load the items and
    compute the end date of the recommendation. *)
Definition claim_validated (env : Env) (recommendation_id shop_id : Z)
    (recommendation : Recommendation) (notes : string) (s : date)
  : M HttpResponse :=
  recommendation_items ←
    db_read (λ db,
               get_recommendation_items_by_recommendation_id
                 db recommendation_id);
  match recommendation_items with
  | [] => mret (error_response 404 "No recommendation items found")
  | _ :: _ =>
  max_treatment_days ←
    lift (py_max (usable_treatment_days recommendation_items));
  e ← lift (add_days s (max_treatment_days - 1));
  claim_scheduled env recommendation_id shop_id recommendation notes
    recommendation_items s max_treatment_days e
  end.

(** The body of the outer [try] (lines 720-826): lines 720-747 check
    the session, the recommendation and the start date. *)
Definition route_body (env : Env) (recommendation_id : Z) : M HttpResponse :=
  match truthy_Z (session_shop_id env) with
  | None => mret (error_response 401 "Shop not logged in")
  | Some shop_id =>
  recommendation ←
    db_read (λ db, get_recommendation_by_id db recommendation_id);
  match recommendation with
  | None => mret (error_response 404 "Recommendation not found")
  | Some recommendation =>
  if is_claimed recommendation then
    mret (error_response 400 "Recommendation already claimed")
  else
  let data := request_data env in
  let notes := default "" (json_notes data) in
  match truthy_str (json_start_date data) with
  | None => mret (error_response 400 "Start date is required")
  | Some start_date_str =>
  match strptime_ymd start_date_str with
  | Raise e =>
      match exn_cls e with
      | ValueError =>
          mret (error_response 400 "Invalid date format. Use YYYY-MM-DD")
      | _ => raise e
      end
  | Ok s =>
      claim_validated env recommendation_id shop_id recommendation notes s
  end end end end.

(** The outer [except Exception] (lines 828-829): whatever escapes the
    body becomes a 500. *)
Definition except_Exception (r : pyresult HttpResponse * World)
  : HttpResponse * World :=
  match r with
  | (Ok response, w') => (response, w')
  | (Raise e, w') =>
      (error_response 500
         ("Failed to claim recommendation: " +:+ exn_str e), w')
  end.

(** [claim_recommendation_route]. *)
Definition claim_recommendation_route (env : Env) (recommendation_id : Z)
  : World → HttpResponse * World := λ w,
  except_Exception (route_body env recommendation_id w).

End Route.
Export Route.

(** [m] is the greatest [treatment_days] among the items. *)
Definition greatest_treatment_days (its : list (Z * Item)) (m : Z) : Prop :=
  (∃ id it, (id, it) ∈ its ∧ treatment_days it = Some m) ∧
  ∀ id it d, (id, it) ∈ its → treatment_days it = Some d → d ≤ m.

(** A fresh worker over a database. *)
Definition start (db : Db) : World := mk_world db [] [].

(** ** A sample clinic

    Recommendation 1 of farmer 7 carries three items, of 5, 10 and 3
    treatment days; recommendation 2 has one item; recommendation 3 has
    none.  The examples and instances below run on it. *)
Module Sample.

Definition item_of (rid : Z) (nm : string) (d : option Z) : Item :=
  mk_item rid (Some nm) d (Some 2) (Some "4.50") None None None.

Definition unclaimed (farmer doctor : Z) : Recommendation :=
  inserted_recommendation farmer doctor.

Definition clinic_items : gmap Z Item :=
  <[10 := item_of 1 "Amoxicillin" (Some 5)]>
    (<[12 := item_of 1 "Tylosin" (Some 3)]>
       (<[11 := item_of 1 "Oxytetracycline" (Some 10)]>
          (<[13 := item_of 2 "Enrofloxacin" (Some 7)]> ∅))).

Definition clinic : Db :=
  mk_db
    (<[1 := unclaimed 7 3]>
       (<[2 := unclaimed 8 3]> (<[3 := unclaimed 7 3]> ∅)))
    4 clinic_items
    (<[7 := mk_farmer "Ravi" (Some "+91 98765-43210")]>
       (<[8 := mk_farmer "Meena" None]> ∅)).

(** The same clinic with other treatment days on the items 10 and 12
    of recommendation 1 (item 11 is dropped). *)
Definition clinic_with_days (d10 d12 : option Z) : Db :=
  set_items clinic
    (<[10 := item_of 1 "Amoxicillin" d10]>
       (<[12 := item_of 1 "Tylosin" d12]> ∅)).

(** The same clinic with a second item on recommendation 2, whose
    farmer has no mobile number: item 14 has no treatment days. *)
Definition clinic_null_days_no_mobile : Db :=
  set_items clinic (<[14 := item_of 2 "Tylosin" None]> clinic_items).

Definition gateway_ok : Gateway := λ _, Response 200 "ok".
Definition gateway_status (code : Z) : Gateway := λ _, Response code "".
Definition gateway_timeout : Gateway :=
  λ _, PostRaises (mk_exn Timeout "Read timed out.").
Definition gateway_broken : Gateway :=
  λ _, PostRaises (mk_exn OtherException "boom").

(** Shop 42 claims from 2024-01-01. *)
Definition request (gw : Gateway) (others : list store_op) : Env :=
  mk_env (Some 42) (Some (mk_json (Some "2024-01-01") (Some "collected")))
    1000 default_config gw others.

End Sample.

(** * Further definitions

    Used by the further properties of the dispatcher, the endpoint and
    the store. *)

(** The retry delays of [k] timeouts in a row, from the delay [d] on:
    each one and a half times the one before. *)
Fixpoint backoff_delays (d : Qc) (k : nat) : list Qc :=
  match k with
  | O => []
  | S k' => d :: backoff_delays (d * Q2Qc 1.5)%Qc k'
  end.

(** Several shops claim the same recommendation one after the other:
    the claims that go through [claim_recommendation] in turn, with the
    result of each. *)
Fixpoint claims_in_turn (recommendation_id : Z)
    (attempts : list (Z * option string * Z)) (db : Db) : Db * list bool :=
  match attempts with
  | [] => (db, [])
  | (shop_id, notes, now) :: rest =>
      let '(db1, won) :=
        claim_recommendation recommendation_id shop_id notes now db in
      let '(db2, results) := claims_in_turn recommendation_id rest db1 in
      (db2, won :: results)
  end.

(** A string of ASCII characters only.  The model reads a string byte
    by byte; on ASCII it agrees with Python's view of the characters
    ([\d], [len]). *)
Definition ascii_only (s : string) : Prop :=
  Forall (λ c, (nat_of_ascii c < 128)%nat) (list_ascii_of_string s).

(** [total_claims] of [get_shop_statistics], which is also the [total]
    of [get_recommendations_by_shop_id] without filters:
    SELECT COUNT( * ) FROM medicine_recommendations
    WHERE claimed_by_shop_id = %s AND is_claimed = 1. *)
Definition total_claims (db : Db) (shop_id : Z) : Z :=
  Z.of_nat
    (length
       (filter (λ kr : Z * Recommendation,
                  claimed_by_shop_id kr.2 = Some shop_id ∧
                  is_claimed kr.2 = true)
          (map_to_list (recommendations db)))).

(** ** Paging of the claimed recommendations
    ([get_claimed_recommendations], [get_recommendations_by_shop_id])

    [matching] stands for the rows that the WHERE clause of
    [get_recommendations_by_shop_id] selects, in the order in which
    the query of this request returns them; the count and the page are
    read from the same state of the table.  The ORDER BY is on
    [claimed_at] alone: rows that share it may come in another order
    in the query of another request. *)

(** The greatest row count that MySQL takes after LIMIT and OFFSET. *)
Definition MAX_LIMIT : Z := 18446744073709551615.

(** LIMIT %s OFFSET %s: both are written into the statement as
    literals, and the server takes unsigned integer constants only. *)
Definition limit_offset {A : Type} (rows : list A) (limit offset : Z)
  : pyresult (list A) :=
  if (0 <=? limit) && (limit <=? MAX_LIMIT)
     && (0 <=? offset) && (offset <=? MAX_LIMIT)
  then Ok (take (Z.to_nat limit) (drop (Z.to_nat offset) rows))
  else Raise (mk_exn OtherException "You have an error in your SQL syntax").

(** [get_recommendations_by_shop_id]: the page and the total. *)
Definition get_recommendations_by_shop_id {A : Type} (matching : list A)
    (page per_page : Z) : pyresult (list A * Z) :=
  let total := Z.of_nat (length matching) in
  let offset := (page - 1) * per_page in
  match limit_offset matching per_page offset with
  | Ok recommendations => Ok (recommendations, total)
  | Raise e => Raise e
  end.

(** [a // b] on integers. *)
Definition floordiv (a b : Z) : pyresult Z :=
  if b =? 0
  then Raise (mk_exn OtherException "integer division or modulo by zero")
  else Ok (a / b).

(** The [pagination] object of the response. *)
Record Pagination : Type := mk_pagination {
  pg_page : Z;
  pg_per_page : Z;
  pg_total : Z;
  pg_pages : Z;
  has_prev : bool;
  has_next : bool
}.

(** The paging of [get_claimed_recommendations]: the rows of the page
    and the pagination details; an exception is answered by 500. *)
Definition claimed_recommendations_page {A : Type} (matching : list A)
    (page per_page : Z) : pyresult (list A * Pagination) :=
  let per_page := Z.min per_page 50 in
  match get_recommendations_by_shop_id matching page per_page with
  | Ok (recommendations, total) =>
      match floordiv (total + per_page - 1) per_page with
      | Ok total_pages =>
          Ok (recommendations,
              mk_pagination page per_page total total_pages
                (1 <? page) (page <? total_pages))
      | Raise e => Raise e
      end
  | Raise e => Raise e
  end.

(** The answer of [get_claimed_recommendations]: 200 with the page,
    or the 500 of its [except Exception] clause with the text of the
    exception.  Rendering a row (lines 505 to 589) reads other tables
    and raises nothing of its own. *)
Inductive PageBody (A : Type) : Type :=
  | PageFound (recommendations : list A) (pagination : Pagination)
  | PageError (error : string).
Arguments PageFound {A} recommendations pagination.
Arguments PageError {A} error.

Definition get_claimed_recommendations {A : Type} (matching : list A)
    (page per_page : Z) : Z * PageBody A :=
  match claimed_recommendations_page matching page per_page with
  | Ok (recommendations, pagination) =>
      (200, PageFound recommendations pagination)
  | Raise e =>
      (500,
       PageError
         ("Failed to fetch claimed recommendations: " +:+ exn_str e))
  end.

(** ** Checking the calendar over one 400-year cycle *)

(** A date of the calendar, in any year from 1 on. *)
Definition calendar_date (dt : date) : bool :=
  (1 <=? year dt) && (1 <=? month dt) && (month dt <=? 12)
  && (1 <=? day dt) && (day dt <=? days_in_month (year dt) (month dt)).

(** [ord2ymd n] is a date of the calendar whose ordinal is [n]; it
    lies in the first 400 years, and before the last of them up to the
    ordinal of 31 December 399. *)
Definition ordinal_ok (n : Z) : bool :=
  let dt := ord2ymd n in
  calendar_date dt && (toordinal dt =? n)
  && (year dt <=? 400) && ((145731 <? n) || (year dt <=? 399)).

(** [f] holds of the [n] integers from [start] on. *)
Fixpoint all_from (f : Z → bool) (start : Z) (n : nat) : bool :=
  match n with
  | O => true
  | S k => f start && all_from f (start + 1) k
  end.

(** If [y]-[m]-[d] is a date of the calendar, it is the date of its
    own ordinal, and the ordinal lies in the first 400 years -- before
    the last of them when [y] does. *)
Definition date_ok (y m d : Z) : bool :=
  let dt := mk_date y m d in
  negb (calendar_date dt)
  || (bool_decide (ord2ymd (toordinal dt) = dt)
      && (1 <=? toordinal dt) && (toordinal dt <=? DI400Y)
      && ((400 <=? y) || (toordinal dt <=? 145731))).

(** [isoformat] writes a year as four characters without a dash that
    %Y reads back. *)
Definition year_field_ok (y : Z) : bool :=
  let l := list_ascii_of_string (pad4 y) in
  (length l =? 4)%nat
  && forallb (λ c, negb (Ascii.eqb c "-"%char)) l
  && bool_decide (field 4 l = Some y).

(** [isoformat] writes a month or a day as characters without a dash
    that %m and %d read back. *)
Definition short_field_ok (v : Z) : bool :=
  let l := list_ascii_of_string (pad2 v) in
  forallb (λ c, negb (Ascii.eqb c "-"%char)) l
  && bool_decide (field 2 l = Some v)
  && bool_decide (day_field l = Some v).

(** * Properties *)

(** ** Dates: the examples of the specification *)

Example strftime_dmy_year_5 :
  strftime_dmy (mk_date 5 1 1) = "01/01/5"
  ∧ strftime_dmy (mk_date 2024 1 10) = "10/01/2024".
Proof. split; reflexivity. Qed.

Example strptime_2024_01_01 :
  strptime_ymd "2024-01-01" = Ok (mk_date 2024 1 1).
Proof. reflexivity. Qed.

Example add_days_spec_example :
  add_days (mk_date 2024 1 1) (10 - 1) = Ok (mk_date 2024 1 10).
Proof. reflexivity. Qed.

Example add_days_one_day :
  add_days (mk_date 2024 3 10) (1 - 1) = Ok (mk_date 2024 3 10).
Proof. reflexivity. Qed.

Example add_days_week :
  add_days (mk_date 2024 3 10) (7 - 1) = Ok (mk_date 2024 3 16).
Proof. reflexivity. Qed.

Example add_days_leap :
  add_days (mk_date 2024 2 28) 2 = Ok (mk_date 2024 3 1).
Proof. reflexivity. Qed.

Example add_days_overflow :
  add_days (mk_date 9999 12 31) 1
  = Raise (mk_exn OverflowError "date value out of range").
Proof. reflexivity. Qed.

Example isoformat_2024_01_10 : isoformat (mk_date 2024 1 10) = "2024-01-10".
Proof. reflexivity. Qed.

Example strptime_rejects_month_13 :
  ∃ e, strptime_ymd "2024-13-01" = Raise e ∧ exn_cls e = ValueError.
Proof. eexists. split; reflexivity. Qed.

(** ** The recommendation store *)

Section StoreFacts.
Implicit Types (db : Db) (r : Recommendation) (id shop : Z).

Lemma claim_update_unclaimed id shop notes t db r :
  recommendations db !! id = Some r →
  is_claimed r = false →
  claim_update id shop notes t db
  = (set_recommendations db
       (<[id := claimed_row r shop notes t]> (recommendations db)), 1).
Proof. intros Hr Hc. unfold claim_update. by rewrite Hr, Hc. Qed.

Lemma claim_update_claimed id shop notes t db r :
  recommendations db !! id = Some r →
  is_claimed r = true →
  claim_update id shop notes t db = (db, 0).
Proof. intros Hr Hc. unfold claim_update. by rewrite Hr, Hc. Qed.

Lemma claim_update_unknown id shop notes t db :
  recommendations db !! id = None →
  claim_update id shop notes t db = (db, 0).
Proof. intros Hr. unfold claim_update. by rewrite Hr. Qed.

Lemma claim_recommendation_won id shop notes t db r :
  recommendations db !! id = Some r →
  is_claimed r = false →
  claim_recommendation id shop notes t db
  = (set_recommendations db
       (<[id := claimed_row r shop notes t]> (recommendations db)), true).
Proof.
  intros Hr Hc. unfold claim_recommendation.
  by rewrite (claim_update_unclaimed _ _ _ _ _ _ Hr Hc).
Qed.

Lemma claim_recommendation_lost id shop notes t db :
  (∀ r, recommendations db !! id = Some r → is_claimed r = true) →
  claim_recommendation id shop notes t db = (db, false).
Proof.
  intros H. unfold claim_recommendation.
  destruct (recommendations db !! id) as [r|] eqn:Hr.
  - by rewrite (claim_update_claimed _ _ _ _ _ _ Hr (H r eq_refl)).
  - by rewrite (claim_update_unknown _ _ _ _ _ Hr).
Qed.

(** A claimed row is left as it is by both write operations, given
    that fresh keys come from the counter. *)
Lemma run_op_keeps_claimed op db id r :
  ids_below_counter db →
  recommendations db !! id = Some r →
  is_claimed r = true →
  recommendations (run_op op db) !! id = Some r.
Proof.
  intros Hbelow Hr Hc. destruct op as [f d | rid sid notes t]; simpl.
  - rewrite lookup_insert_ne; [done|].
    specialize (Hbelow id r Hr). lia.
  - destruct (decide (rid = id)) as [->|Hne].
    + rewrite claim_recommendation_lost; [done|].
      intros r' Hr'. congruence.
    + unfold claim_recommendation, claim_update.
      destruct (recommendations db !! rid) as [r'|]; [|done].
      destruct (is_claimed r'); [done|]. simpl.
      by rewrite lookup_insert_ne.
Qed.

Lemma store_inv_empty : store_inv empty_db.
Proof. split; intros id r Hr; simpl in Hr; by rewrite lookup_empty in Hr. Qed.

Lemma store_inv_step op db : store_inv db → store_inv (run_op op db).
Proof.
  intros [Hbelow Hcons]. destruct op as [f d | rid sid notes t]; simpl.
  - split; intros id r; simpl; rewrite lookup_insert; case_decide.
    + intros _. lia.
    + intros Hr. specialize (Hbelow id r Hr). lia.
    + intros [= <-]. by split.
    + apply Hcons.
  - unfold claim_recommendation, claim_update.
    destruct (recommendations db !! rid) as [r'|] eqn:Hr'; [|by split].
    destruct (is_claimed r') eqn:Hc'; [by split|].
    split; intros id r; simpl; rewrite lookup_insert; case_decide.
    + intros _. subst. exact (Hbelow _ _ Hr').
    + apply Hbelow.
    + intros [= <-]. split; [done | by intros [? _]].
    + apply Hcons.
Qed.

Lemma reachable_store_inv db : reachable db → store_inv db.
Proof.
  induction 1 as [|op db _ IH]; [apply store_inv_empty | by apply store_inv_step].
Qed.

Lemma reachable_run_ops ops db : reachable db → reachable (run_ops ops db).
Proof.
  revert db. induction ops as [|op ops IH]; intros db Hdb; [done|].
  apply IH. by constructor.
Qed.
End StoreFacts.

Lemma claim_recommendation_false_unchanged
    (id shop : Z) (notes : option string) (t : Z) (db : Db) :
  (claim_recommendation id shop notes t db).2 = false →
  (claim_recommendation id shop notes t db).1 = db.
Proof.
  unfold claim_recommendation, claim_update.
  destruct (recommendations db !! id) as [r|]; [|done].
  by destruct (is_claimed r).
Qed.

(** C1. [claim_recommendation] is one conditional update.  It returns
    [true] exactly when the stored row with that id has [is_claimed = 0];
    then that row, and no other, is rewritten with [is_claimed = 1],
    [claimed_by_shop_id = shop], [claimed_at = now] and
    [claim_notes = notes].  In every other state (unknown id, or already
    claimed) it returns [false] and the database is unchanged. *)
Theorem claim_recommendation_conditional_update
    (id shop : Z) (notes : option string) (t : Z) (db : Db) :
  let db' := (claim_recommendation id shop notes t db).1 in
  let changed := (claim_recommendation id shop notes t db).2 in
  (changed = true ↔
     ∃ r, recommendations db !! id = Some r ∧ is_claimed r = false) ∧
  (∀ r, recommendations db !! id = Some r → is_claimed r = false →
     recommendations db' !! id
     = Some (mk_recommendation (farmer_id r) (doctor_id r) true
               (Some shop) (Some t) notes (Some t)) ∧
     (∀ j, j ≠ id → recommendations db' !! j = recommendations db !! j) ∧
     items db' = items db ∧ farmers db' = farmers db) ∧
  (changed = false → db' = db).
Proof.
  simpl. destruct (recommendations db !! id) as [r|] eqn:Hr.
  - destruct (is_claimed r) eqn:Hc.
    + rewrite claim_recommendation_lost by (intros; congruence). simpl.
      split_and!; [|intros; congruence|done].
      split; [done|]. intros (r' & ? & ?). congruence.
    + rewrite (claim_recommendation_won _ _ _ _ _ _ Hr Hc). simpl.
      split_and!; [naive_solver| |done].
      intros r' [= <-] _. split_and!; [|intros j Hj|done..].
      * by rewrite lookup_insert_eq.
      * by rewrite lookup_insert_ne.
  - rewrite claim_recommendation_lost by (intros; congruence). simpl.
    split_and!; [|intros; congruence|done].
    split; [done|]. intros (r' & ? & ?). congruence.
Qed.

(** C7. In every state of the store reachable through
    [create_recommendation] and [claim_recommendation], each row has
    [is_claimed = 0] exactly when [claimed_by_shop_id] and [claimed_at]
    are both NULL; and a claimed row is final: whatever operation comes
    next leaves the whole row as it is, so [is_claimed] never goes back
    to 0, the claiming shop is never replaced, and the step from
    unclaimed to claimed happens at most once. *)
Theorem claimed_state_invariant (db : Db) :
  reachable db →
  (∀ id r, recommendations db !! id = Some r → claim_fields_consistent r) ∧
  (∀ op id r,
     recommendations db !! id = Some r → is_claimed r = true →
     recommendations (run_op op db) !! id = Some r) ∧
  (∀ ops id r,
     recommendations db !! id = Some r → is_claimed r = true →
     recommendations (run_ops ops db) !! id = Some r).
Proof.
  intros Hreach. split_and!.
  - apply (reachable_store_inv db Hreach).
  - intros op id r. apply run_op_keeps_claimed.
    apply (reachable_store_inv db Hreach).
  - intros ops. revert db Hreach.
    induction ops as [|op ops IH]; intros db Hreach id r Hr Hc; [done|].
    simpl. apply IH; [by constructor| |done].
    apply run_op_keeps_claimed; [|done..].
    apply (reachable_store_inv db Hreach).
Qed.

(** ** The monad and the retry loop *)

Section MonadFacts.
Context {A B : Type}.

Lemma bind_ok (m : M A) (f : A → M B) w a w' :
  m w = (Ok a, w') → (m ≫= f) w = f a w'.
Proof. intros H. unfold mbind, M_bind. by rewrite H. Qed.

Lemma bind_raise (m : M A) (f : A → M B) w e w' :
  m w = (Raise e, w') → (m ≫= f) w = (Raise e, w').
Proof. intros H. unfold mbind, M_bind. by rewrite H. Qed.

Lemma try_except_ok (m : M A) h w a w' :
  m w = (Ok a, w') → try_except m h w = (Ok a, w').
Proof. intros H. unfold try_except. by rewrite H. Qed.

Lemma try_except_caught (m : M A) h w e w' k :
  m w = (Raise e, w') → h e = Some k → try_except m h w = k w'.
Proof. intros H Hh. unfold try_except. by rewrite H, Hh. Qed.
End MonadFacts.

Section DispatcherFacts.
Context (gw : Gateway) (payload : Payload) (max_retries : Z).

Lemma attempt_body_200 attempt delay w text :
  gw (length (w_posted w)) = Response 200 text →
  attempt_body gw payload max_retries attempt delay w
  = (Ok (Return (true,
                 "WhatsApp message sent successfully (attempt "
                 +:+ str_of_Z (attempt + 1) +:+ ")")),
     mk_world (w_db w) (w_posted w ++ [payload]) (w_slept w)).
Proof.
  intros Hgw. unfold attempt_body.
  apply try_except_ok.
  erewrite bind_ok; [|unfold requests_post; rewrite Hgw; reflexivity].
  reflexivity.
Qed.

Lemma attempt_body_rejected attempt delay w st text :
  gw (length (w_posted w)) = Response st text →
  st ≠ 200 → st ≠ 429 →
  attempt_body gw payload max_retries attempt delay w
  = (Ok (Return (false,
                 "Failed to send WhatsApp message: HTTP " +:+ str_of_Z st)),
     mk_world (w_db w) (w_posted w ++ [payload]) (w_slept w)).
Proof.
  intros Hgw H200 H429. unfold attempt_body.
  apply try_except_ok.
  erewrite bind_ok; [|unfold requests_post; rewrite Hgw; reflexivity].
  simpl.
  destruct (Z.eqb_spec st 200); [done|].
  destruct (Z.eqb_spec st 429); [done|]. reflexivity.
Qed.

(** One pass of the loop never touches the database. *)
Lemma attempt_body_db attempt delay w r w' :
  attempt_body gw payload max_retries attempt delay w = (r, w') →
  w_db w' = w_db w.
Proof.
  unfold attempt_body, try_except, mbind, M_bind, requests_post, time_sleep, mret, M_ret.
  destruct (gw (length (w_posted w))) as [st text|e]; simpl.
  - repeat case_match; intros ?; simplify_eq; done.
  - repeat case_match; intros ?; simplify_eq; done.
Qed.
End DispatcherFacts.

Section LoopFacts.
Context (gw : Gateway) (payload : Payload) (max_retries : Z).

Lemma retry_loop_db remaining : ∀ attempt delay w r w',
  retry_loop gw payload max_retries remaining attempt delay w = (r, w') →
  w_db w' = w_db w.
Proof.
  induction remaining as [|k IH]; intros attempt delay w r w'; simpl.
  - by intros [= <- <-].
  - unfold mbind, M_bind.
    destruct (attempt_body gw payload max_retries attempt delay w)
      as [[[v|delay']|e] w1] eqn:Hbody;
      pose proof (attempt_body_db _ _ _ _ _ _ _ _ Hbody) as Hdb.
    + by intros [= <- <-].
    + intros Hrest. rewrite <- Hdb. by eapply IH.
    + by intros [= <- <-].
Qed.

Lemma retry_loop_first_200 k attempt delay w text :
  gw (length (w_posted w)) = Response 200 text →
  retry_loop gw payload max_retries (S k) attempt delay w
  = (Ok (Some (true,
               "WhatsApp message sent successfully (attempt "
               +:+ str_of_Z (attempt + 1) +:+ ")")),
     mk_world (w_db w) (w_posted w ++ [payload]) (w_slept w)).
Proof.
  intros Hgw. simpl.
  by erewrite bind_ok by (by eapply attempt_body_200).
Qed.

Lemma retry_loop_first_rejected k attempt delay w st text :
  gw (length (w_posted w)) = Response st text →
  st ≠ 200 → st ≠ 429 →
  retry_loop gw payload max_retries (S k) attempt delay w
  = (Ok (Some (false,
               "Failed to send WhatsApp message: HTTP " +:+ str_of_Z st)),
     mk_world (w_db w) (w_posted w ++ [payload]) (w_slept w)).
Proof.
  intros Hgw H200 H429. simpl.
  by erewrite bind_ok by (by eapply attempt_body_rejected).
Qed.
End LoopFacts.

Section SendFacts.
Context (cfg : WhatsAppConfig) (gw : Gateway) (mobile nm : string)
        (its : list (Z * Item)) (s e : date).

(** Every exception is caught at the boundary of the dispatcher. *)
Lemma send_whatsapp_message_never_raises w :
  ∃ v w', send_whatsapp_message cfg gw mobile nm its s e w = (Ok v, w').
Proof.
  unfold send_whatsapp_message, try_except.
  destruct (WHATSAPP_ENABLED cfg); simpl; [|by eauto].
  destruct (retry_loop _ _ _ _ _ _ w) as [[v|ex] w1]; [by eauto|].
  destruct (is_RequestException ex); by eauto.
Qed.

Lemma send_whatsapp_message_db w r w' :
  send_whatsapp_message cfg gw mobile nm its s e w = (r, w') →
  w_db w' = w_db w.
Proof.
  unfold send_whatsapp_message, try_except.
  destruct (WHATSAPP_ENABLED cfg); simpl; [|by intros [= <- <-]].
  destruct (retry_loop _ _ _ _ _ _ w) as [[v|ex] w1] eqn:Hloop;
    apply retry_loop_db in Hloop.
  - by intros [= <- <-].
  - destruct (is_RequestException ex); by intros [= <- <-].
Qed.
End SendFacts.

(** ** The notification dispatcher *)

(** C9 (amended).  In the retry loop, at any attempt, a response whose
    status is exactly 200 ends the function at once with
    [delivered = true], and a response whose status is neither 200 nor
    429 -- other 2xx codes included -- ends it at once with
    [delivered = false]: the request of that attempt is the last one
    issued.  So when the dispatcher is enabled and allowed at least one
    attempt, a first response such as 400 yields failure after exactly
    one delivery attempt. *)
Theorem retry_loop_status_handling
    (cfg : WhatsAppConfig) (gw : Gateway) (mobile nm : string)
    (its : list (Z * Item)) (s e : date) (w : World) (st : Z) (text : string) :
  gw (length (w_posted w)) = Response st text →
  (∀ payload max_retries k attempt delay,
     let w1 := mk_world (w_db w) (w_posted w ++ [payload]) (w_slept w) in
     (st = 200 →
      retry_loop gw payload max_retries (S k) attempt delay w
      = (Ok (Some (true,
                   "WhatsApp message sent successfully (attempt "
                   +:+ str_of_Z (attempt + 1) +:+ ")")), w1)) ∧
     (st ≠ 200 → st ≠ 429 →
      retry_loop gw payload max_retries (S k) attempt delay w
      = (Ok (Some (false,
                   "Failed to send WhatsApp message: HTTP "
                   +:+ str_of_Z st)), w1))) ∧
  (WHATSAPP_ENABLED cfg = true → 0 < WHATSAPP_MAX_RETRIES cfg →
   st ≠ 200 → st ≠ 429 →
   send_whatsapp_message cfg gw mobile nm its s e w
   = (Ok (Some (false,
                "Failed to send WhatsApp message: HTTP " +:+ str_of_Z st)),
      mk_world (w_db w)
        (w_posted w ++ [make_payload cfg mobile nm its s e]) (w_slept w))).
Proof.
  intros Hgw. split.
  - intros payload max_retries k attempt delay w1. split.
    + intros ->. by eapply retry_loop_first_200.
    + intros H200 H429. by eapply retry_loop_first_rejected.
  - intros Hon Hmax H200 H429. unfold send_whatsapp_message.
    apply try_except_ok. rewrite Hon. simpl.
    destruct (Z.to_nat (WHATSAPP_MAX_RETRIES cfg)) as [|k] eqn:Hk; [lia|].
    by eapply retry_loop_first_rejected.
Qed.

(** An instance of C9 (amended): the gateway answers 400. *)
Lemma retry_loop_status_handling_400 :
  send_whatsapp_message default_config (Sample.gateway_status 400)
    "+91 98765-43210" "Ravi" [] (mk_date 2024 1 1) (mk_date 2024 1 10)
    (start empty_db)
  = (Ok (Some (false, "Failed to send WhatsApp message: HTTP 400")),
     mk_world empty_db
       [make_payload default_config "+91 98765-43210" "Ravi" []
          (mk_date 2024 1 1) (mk_date 2024 1 10)] []).
Proof.
  apply (retry_loop_status_handling default_config (Sample.gateway_status 400)
           "+91 98765-43210" "Ravi" [] (mk_date 2024 1 1) (mk_date 2024 1 10)
           (start empty_db) 400 "");
    [reflexivity | reflexivity | reflexivity | lia | lia].
Defined.

(** C9 as stated fails: status 201 lies in the 2xx range, and the
    dispatcher reports failure. *)
Lemma status_201_is_not_delivered :
  200 ≤ 201 < 300 ∧
  (send_whatsapp_message default_config (Sample.gateway_status 201)
     "+91 98765-43210" "Ravi" [] (mk_date 2024 1 1) (mk_date 2024 1 10)
     (start empty_db)).1
  = Ok (Some (false, "Failed to send WhatsApp message: HTTP 201")).
Proof. split; [lia | reflexivity]. Qed.

(** The retry behaviour on the examples of the specification: a 429
    followed by a 200 is one retry after a sleep of twice the base
    delay; three timeouts give up with the attempt count, after sleeps
    of 2 and 3 seconds; a disabled dispatcher sends nothing. *)
Example rate_limit_then_success :
  let gw : Gateway := λ n, match n with
                           | O => Response 429 "Too Many Requests"
                           | _ => Response 200 "ok"
                           end in
  let r :=
    send_whatsapp_message default_config gw
      "+91 98765-43210" "Ravi" [] (mk_date 2024 1 1) (mk_date 2024 1 10)
      (start empty_db) in
  r.1 = Ok (Some (true, "WhatsApp message sent successfully (attempt 2)")) ∧
  length (w_posted r.2) = 2%nat ∧
  map Qcanon.this (w_slept r.2) = [(4 # 1)%Q].
Proof. split_and!; vm_compute; reflexivity. Qed.

Example persistent_timeout :
  let r :=
    send_whatsapp_message default_config Sample.gateway_timeout
      "+91 98765-43210" "Ravi" [] (mk_date 2024 1 1) (mk_date 2024 1 10)
      (start empty_db) in
  r.1 = Ok (Some (false, "WhatsApp API timeout after 3 attempts")) ∧
  length (w_posted r.2) = 3%nat ∧
  map Qcanon.this (w_slept r.2) = [(2 # 1)%Q; (3 # 1)%Q].
Proof. split_and!; vm_compute; reflexivity. Qed.

Example dispatcher_disabled :
  send_whatsapp_message (mk_config "" 30 3 false) Sample.gateway_ok
    "+91 98765-43210" "Ravi" [] (mk_date 2024 1 1) (mk_date 2024 1 10)
    (start empty_db)
  = (Ok (Some (false, "WhatsApp messaging is disabled in configuration")),
     start empty_db).
Proof. reflexivity. Qed.

(** C5, at the failing input: with the default configuration and a
    gateway that answers 429 to every request, the third attempt falls
    out of the loop and the function ends without a [return]: the
    caller gets [None], not a pair.  Three requests were issued. *)
Theorem send_whatsapp_message_rate_limited_returns_None :
  let r :=
    send_whatsapp_message default_config (Sample.gateway_status 429)
      "+91 98765-43210" "Ravi" [] (mk_date 2024 1 1) (mk_date 2024 1 10)
      (start empty_db) in
  r.1 = Ok None ∧ length (w_posted r.2) = 3%nat.
Proof. split; vm_compute; reflexivity. Qed.

(** ** The claim endpoint *)

Section QueryFacts.
Implicit Types (db : Db) (it : Item).

Lemma items_query_elem db rid id it :
  (id, it) ∈ get_recommendation_items_by_recommendation_id db rid
  ↔ items db !! id = Some it ∧ recommendation_id it = rid.
Proof.
  unfold get_recommendation_items_by_recommendation_id.
  rewrite merge_sort_Permutation, list_elem_of_filter, elem_of_map_to_list.
  simpl. tauto.
Qed.

Lemma items_query_NoDup db rid :
  NoDup (get_recommendation_items_by_recommendation_id db rid).*1.
Proof.
  unfold get_recommendation_items_by_recommendation_id.
  rewrite merge_sort_Permutation.
  apply (sublist_NoDup _ (map_to_list (items db)).*1);
    [apply NoDup_fst_map_to_list|].
  apply fmap_sublist, sublist_filter.
Qed.

Lemma run_op_items op db : items (run_op op db) = items db.
Proof.
  destruct op as [f d | rid sid notes t]; simpl; [done|].
  unfold claim_recommendation, claim_update.
  destruct (recommendations db !! rid) as [r|]; [|done].
  by destruct (is_claimed r).
Qed.

Lemma run_op_farmers op db : farmers (run_op op db) = farmers db.
Proof.
  destruct op as [f d | rid sid notes t]; simpl; [done|].
  unfold claim_recommendation, claim_update.
  destruct (recommendations db !! rid) as [r|]; [|done].
  by destruct (is_claimed r).
Qed.

Lemma run_ops_items ops db : items (run_ops ops db) = items db.
Proof.
  revert db. induction ops as [|op ops IH]; intros db; [done|].
  simpl. by rewrite IH, run_op_items.
Qed.

Lemma run_ops_farmers ops db : farmers (run_ops ops db) = farmers db.
Proof.
  revert db. induction ops as [|op ops IH]; intros db; [done|].
  simpl. by rewrite IH, run_op_farmers.
Qed.

Lemma claim_recommendation_items rid sid notes t db :
  items (claim_recommendation rid sid notes t db).1 = items db.
Proof. apply (run_op_items (OpClaim rid sid notes t)). Qed.

Lemma claim_recommendation_farmers rid sid notes t db :
  farmers (claim_recommendation rid sid notes t db).1 = farmers db.
Proof. apply (run_op_farmers (OpClaim rid sid notes t)). Qed.

(** A won claim leaves the row claimed by the winner. *)
Lemma claim_recommendation_true rid sid notes t db db' :
  claim_recommendation rid sid notes t db = (db', true) →
  ∃ r, recommendations db !! rid = Some r ∧ is_claimed r = false ∧
       recommendations db' !! rid = Some (claimed_row r sid notes t).
Proof.
  unfold claim_recommendation, claim_update.
  destruct (recommendations db !! rid) as [r|]; [|by intros [= <-]].
  destruct (is_claimed r) eqn:Hc; [by intros [= <-]|].
  intros [= <-]. exists r. simpl. by rewrite lookup_insert_eq.
Qed.
End QueryFacts.

Section MaxFacts.

Lemma foldl_max_ge (l : list Z) : ∀ x, x ≤ foldl Z.max x l.
Proof.
  induction l as [|y l IH]; intros x; simpl; [lia|].
  specialize (IH (Z.max x y)). lia.
Qed.

Lemma foldl_max_elem (l : list Z) : ∀ x, foldl Z.max x l ∈ x :: l.
Proof.
  induction l as [|y l IH]; intros x; simpl; [set_solver|].
  specialize (IH (Z.max x y)).
  apply elem_of_cons in IH as [->|IH]; [|set_solver].
  destruct (Z.max_spec x y) as [[_ ->]|[_ ->]]; set_solver.
Qed.

Lemma foldl_max_upper (l : list Z) : ∀ x d, d ∈ l → d ≤ foldl Z.max x l.
Proof.
  induction l as [|y l IH]; intros x d; [by intros ?%elem_of_nil|].
  intros [->|Hd]%elem_of_cons; simpl.
  - pose proof (foldl_max_ge l (Z.max x y)). lia.
  - by apply IH.
Qed.

(** [max] returns a greatest element of a sequence that has one, and
    raises on the empty one. *)
Lemma py_max_Ok l m :
  py_max l = Ok m ↔ m ∈ l ∧ ∀ d, d ∈ l → d ≤ m.
Proof.
  destruct l as [|x l]; simpl.
  - split; [done|]. by intros [?%elem_of_nil _].
  - split.
    + intros [= <-]. split; [apply foldl_max_elem|].
      intros d [->|Hd]%elem_of_cons;
        [apply foldl_max_ge | by apply foldl_max_upper].
    + intros [Hm Hub]. f_equal.
      pose proof (foldl_max_elem l x) as Hin.
      pose proof (Hub _ Hin).
      assert (m ≤ foldl Z.max x l); [|lia].
      apply elem_of_cons in Hm as [->|Hm];
        [apply foldl_max_ge | by apply foldl_max_upper].
Qed.

Lemma usable_treatment_days_elem (its : list (Z * Item)) d :
  d ∈ usable_treatment_days its
  ↔ d ≠ 0 ∧ ∃ id it, (id, it) ∈ its ∧ treatment_days it = Some d.
Proof.
  unfold usable_treatment_days. rewrite list_elem_of_omap. split.
  - intros ([id it] & Hin & Ht). simpl in Ht. unfold truthy_Z in Ht.
    destruct (treatment_days it) as [z|] eqn:Hz; [|done].
    destruct (Z.eqb_spec z 0); [done|]. injection Ht as <-. eauto.
  - intros (Hd & id & it & Hin & Ht). exists (id, it). split; [done|].
    simpl. unfold truthy_Z. rewrite Ht.
    by destruct (Z.eqb_spec d 0).
Qed.
End MaxFacts.

Section ItemDatesFacts.

(** The loop over the items that were read: when it completes, every
    item of the list has its own end date stored, nothing else in the
    database has changed, and no request went to the gateway. *)
Lemma update_item_dates_spec (l : list (Z * Item)) (s : date) (t : Z) :
  ∀ w w2,
    NoDup l.*1 →
    (∀ id it, (id, it) ∈ l → items (w_db w) !! id = Some it) →
    update_item_dates l s t w = (Ok (), w2) →
    (∀ id it, (id, it) ∈ l →
       ∃ d e, treatment_days it = Some d ∧ add_days s (d - 1) = Ok e ∧
              items (w_db w2) !! id = Some (dated_item it s e t)) ∧
    (∀ id, id ∉ l.*1 → items (w_db w2) !! id = items (w_db w) !! id) ∧
    recommendations (w_db w2) = recommendations (w_db w) ∧
    farmers (w_db w2) = farmers (w_db w) ∧
    w_posted w2 = w_posted w ∧ w_slept w2 = w_slept w.
Proof.
  induction l as [|[id0 it0] rest IH]; intros w w2 Hnd Hstored; simpl.
  - intros [= <-]. split_and!; try done. by intros ?? ?%elem_of_nil.
  - simpl in Hnd. apply list.NoDup_cons in Hnd as [Hfresh Hnd].
    unfold mbind, M_bind, lift, db_write, update_recommendation_item_dates.
    destruct (treatment_days it0) as [d0|] eqn:Hd0; simpl; [|done].
    destruct (add_days s (d0 - 1)) as [e0|ex] eqn:He0; [|done].
    rewrite (Hstored id0 it0) by (apply elem_of_cons; by left).
    set (w1 := mk_world _ _ _). intros Hrest.
    destruct (IH w1 w2 Hnd) as (Hdated & Hother & Hrecs & Hfarm & Hpost & Hslept);
      [|done|].
    { intros id it Hin. subst w1. simpl. rewrite lookup_insert_ne.
      - apply Hstored. apply elem_of_cons. by right.
      - intros ->. apply Hfresh. by apply (list_elem_of_fmap_2 fst _ (id, it)). }
    split_and!; [| |done..].
    + intros id it [[= -> ->]|Hin]%elem_of_cons; [|by apply Hdated].
      exists d0, e0. split_and!; [done..|].
      rewrite Hother by done. subst w1. simpl. by rewrite lookup_insert_eq.
    + intros id Hid. apply not_elem_of_cons in Hid as [Hne Hid].
      rewrite Hother by done. subst w1. simpl. by rewrite lookup_insert_ne.
Qed.
End ItemDatesFacts.

Section NotifyFacts.
Context (env : Env) (recommendation : Recommendation)
        (its : list (Z * Item)) (s e : date).

(** The notification block always ends with a pair, whatever the
    dispatcher does, and leaves the database alone. *)
Lemma notify_farmer_total w :
  ∃ sent msg w',
    notify_farmer env recommendation its s e w = (Ok (sent, msg), w') ∧
    w_db w' = w_db w.
Proof.
  unfold notify_farmer, try_except, mbind, M_bind, db_read. simpl.
  destruct (get_farmer_by_id _ _) as [f|]; [|by eauto].
  destruct (truthy_str (mobile_no f)) as [mobile|]; [|by eauto].
  destruct (send_whatsapp_message _ _ _ _ _ _ _ w) as [[[[sent msg]|]|ex] w1]
    eqn:Hsend; apply send_whatsapp_message_db in Hsend; simpl; by eauto.
Qed.

Lemma notify_farmer_no_mobile w :
  (∀ f, get_farmer_by_id (w_db w) (farmer_id recommendation) = Some f →
        truthy_str (mobile_no f) = None) →
  notify_farmer env recommendation its s e w
  = (Ok (false, "Farmer mobile number not available"), w).
Proof.
  intros Hno. unfold notify_farmer, try_except, mbind, M_bind, db_read. simpl.
  destruct (get_farmer_by_id _ _) as [f|]; [|done].
  by rewrite (Hno f eq_refl).
Qed.
End NotifyFacts.

(** Stepping through a computation in [M]: reduce what has become
    redexes, and open the outermost bind. *)
Ltac run_step := cbv beta iota zeta.
Ltac run_bind := unfold mbind at 1, M_bind at 1.

(** *** The phases of the endpoint *)

Section Phases.
Context (env : Env) (rid : Z) (w : World).
Context (shop : Z) (recommendation : Recommendation).

(** Lines 720-747 passed: the endpoint goes on with the items. *)
Lemma route_validated start_date_str s :
  truthy_Z (session_shop_id env) = Some shop →
  get_recommendation_by_id (w_db w) rid = Some recommendation →
  is_claimed recommendation = false →
  truthy_str (json_start_date (request_data env)) = Some start_date_str →
  strptime_ymd start_date_str = Ok s →
  claim_recommendation_route env rid w
  = except_Exception
      (claim_validated env rid shop recommendation (request_notes env) s w).
Proof.
  intros H_session H_found H_unclaimed H_date H_parsed.
  unfold claim_recommendation_route, route_body. rewrite H_session.
  run_bind. unfold db_read at 1. run_step.
  rewrite H_found. run_step. rewrite H_unclaimed. run_step.
  rewrite H_date. run_step. by rewrite H_parsed.
Qed.

(** Lines 749-757 passed: the endpoint goes on to the claim. *)
Lemma claim_validated_scheduled notes s its m e :
  get_recommendation_items_by_recommendation_id (w_db w) rid = its →
  its ≠ [] →
  py_max (usable_treatment_days its) = Ok m →
  add_days s (m - 1) = Ok e →
  claim_validated env rid shop recommendation notes s w
  = claim_scheduled env rid shop recommendation notes its s m e w.
Proof.
  intros H_items H_some H_max H_end. unfold claim_validated.
  run_bind. unfold db_read at 1. run_step.
  rewrite H_items. destruct its as [|item rest] eqn:Hits; [done|].
  run_step. rewrite <- Hits in *.
  run_bind. unfold lift at 1. rewrite H_max. run_step.
  run_bind. unfold lift at 1. by rewrite H_end.
Qed.

(** The UPDATE changed no row: the answer is the plain 500. *)
Lemma claim_scheduled_lost notes s its m e :
  (claim_recommendation rid shop (Some notes) (now env)
     (run_ops (concurrent env) (w_db w))).2 = false →
  claim_scheduled env rid shop recommendation notes its s m e w
  = (Ok (error_response 500 "Failed to claim recommendation"),
     mk_world (run_ops (concurrent env) (w_db w)) (w_posted w) (w_slept w)).
Proof.
  intros H_lost. unfold claim_scheduled.
  run_bind. unfold others_commit at 1. run_step.
  run_bind. unfold db_write at 1. simpl w_db.
  pose proof (claim_recommendation_false_unchanged rid shop (Some notes) (now env)
                (run_ops (concurrent env) (w_db w))) as Hsame.
  destruct (claim_recommendation _ _ _ _ _) as [db1 ok]. simpl in *.
  subst ok. by rewrite Hsame.
Qed.

(** The UPDATE and the loop over the items went through: the answer is
    the 200 carrying whatever the notification block returns. *)
Lemma claim_scheduled_committed notes s its m e db1 w2 sent msg w3 updated :
  claim_recommendation rid shop (Some notes) (now env)
    (run_ops (concurrent env) (w_db w)) = (db1, true) →
  update_item_dates its s (now env) (mk_world db1 (w_posted w) (w_slept w))
  = (Ok (), w2) →
  notify_farmer env recommendation its s e w2 = (Ok (sent, msg), w3) →
  get_recommendation_by_id (w_db w3) rid = Some updated →
  claim_scheduled env rid shop recommendation notes its s m e w
  = (Ok (mk_response 200
           (ResultBody
              (mk_result "Recommendation claimed successfully" rid shop
                 (default (now env) (claimed_at updated))
                 (isoformat s) (isoformat e) m notes sent msg))), w3).
Proof.
  intros H_won H_dates H_notify H_updated. unfold claim_scheduled.
  run_bind. unfold others_commit at 1. run_step.
  run_bind. unfold db_write at 1. simpl w_db. rewrite H_won. run_step.
  cbn [negb w_posted w_slept]. run_step.
  run_bind. rewrite H_dates. run_step.
  run_bind. rewrite H_notify. run_step.
  run_bind. unfold db_read at 1. run_step. by rewrite H_updated.
Qed.
End Phases.

(** *** Requests that pass validation

    From here on the request comes from a logged-in shop, the
    recommendation is found unclaimed, and the start date parses. *)

Section ValidatedRequest.
Context (env : Env) (rid : Z) (w : World).
Context (shop : Z) (recommendation : Recommendation)
        (start_date_str : string) (s : date).

Hypothesis H_session : truthy_Z (session_shop_id env) = Some shop.
Hypothesis H_found :
  get_recommendation_by_id (w_db w) rid = Some recommendation.
Hypothesis H_unclaimed : is_claimed recommendation = false.
Hypothesis H_date :
  truthy_str (json_start_date (request_data env)) = Some start_date_str.
Hypothesis H_parsed : strptime_ymd start_date_str = Ok s.

(** C8 (amended).  For a claim request of a logged-in shop with a valid
    start date, on a recommendation that exists and is unclaimed but
    has no items, the endpoint answers 404 with the error "No
    recommendation items found", and changes nothing. *)
Theorem no_items_is_not_found :
  get_recommendation_items_by_recommendation_id (w_db w) rid = [] →
  claim_recommendation_route env rid w
  = (mk_response 404 (ErrorBody "No recommendation items found"), w).
Proof.
  intros H_items.
  rewrite (route_validated _ _ _ _ _ _ _ H_session H_found H_unclaimed
             H_date H_parsed).
  unfold claim_validated. run_bind. unfold db_read at 1. run_step.
  by rewrite H_items.
Qed.

Context (its : list (Z * Item)).
Hypothesis H_items :
  get_recommendation_items_by_recommendation_id (w_db w) rid = its.
Hypothesis H_some : its ≠ [].

(** C6 (amended).  For a claim request of a logged-in shop with a valid
    start date, on an existing, unclaimed recommendation with items of
    which none has a usable treatment_days (each is absent or zero),
    the endpoint fails with a 500 before it invokes
    [claim_recommendation]: the recommendation remains unclaimed, no
    item dates are written, and the world is as it was. *)
Theorem no_usable_treatment_days_fails_before_claim :
  (∀ id it, (id, it) ∈ its → truthy_Z (treatment_days it) = None) →
  ∃ msg,
    claim_recommendation_route env rid w
    = (mk_response 500 (ErrorBody msg), w).
Proof.
  intros H_none.
  rewrite (route_validated _ _ _ _ _ _ _ H_session H_found H_unclaimed
             H_date H_parsed).
  unfold claim_validated. run_bind. unfold db_read at 1. run_step.
  rewrite H_items. destruct its as [|item rest] eqn:Hits; [done|].
  run_step. rewrite <- Hits in *.
  assert (usable_treatment_days its = []) as ->.
  { destruct (usable_treatment_days its) as [|d l] eqn:Hu; [done|].
    assert (d ∈ usable_treatment_days its) as Hd by (rewrite Hu; by left).
    apply usable_treatment_days_elem in Hd as (Hd & id & it & Hin & Ht).
    specialize (H_none id it Hin). rewrite Ht in H_none. simpl in H_none.
    by destruct (Z.eqb_spec d 0). }
  unfold mbind, M_bind, lift. simpl. by eauto.
Qed.

Context (m : Z) (e : date).
Hypothesis H_max : py_max (usable_treatment_days its) = Ok m.
Hypothesis H_end : add_days s (m - 1) = Ok e.

Lemma route_scheduled :
  claim_recommendation_route env rid w
  = except_Exception
      (claim_scheduled env rid shop recommendation (request_notes env)
         its s m e w).
Proof.
  rewrite (route_validated _ _ _ _ _ _ _ H_session H_found H_unclaimed
             H_date H_parsed).
  by rewrite (claim_validated_scheduled _ _ _ _ _ _ _ _ _ _
                H_items H_some H_max H_end).
Qed.

(** C2 (amended).  When the recommendation was read unclaimed and
    [claim_recommendation] then returns false because other claimants
    committed first, the endpoint answers with the generic failure:
    HTTP 500 and the error "Failed to claim recommendation".  The
    database is as the other workers left it: this request changed no
    row of it, and it sent nothing. *)
Theorem lost_race_is_generic_failure :
  (claim_recommendation rid shop (Some (request_notes env)) (now env)
     (run_ops (concurrent env) (w_db w))).2 = false →
  claim_recommendation_route env rid w
  = (mk_response 500 (ErrorBody "Failed to claim recommendation"),
     mk_world (run_ops (concurrent env) (w_db w)) (w_posted w) (w_slept w)).
Proof.
  intros H_lost. rewrite route_scheduled.
  by rewrite (claim_scheduled_lost _ _ _ _ _ _ _ _ _ _ H_lost).
Qed.

End ValidatedRequest.

(** *** Requests that commit *)

(** The state after a won claim and a completed loop over the items
    that were read from the same database. *)
Lemma committed_state env rid w shop notes its s db1 w2 :
  get_recommendation_items_by_recommendation_id (w_db w) rid = its →
  claim_recommendation rid shop notes (now env)
    (run_ops (concurrent env) (w_db w)) = (db1, true) →
  update_item_dates its s (now env) (mk_world db1 (w_posted w) (w_slept w))
  = (Ok (), w2) →
  (∃ r, recommendations (w_db w2) !! rid
        = Some (claimed_row r shop notes (now env))) ∧
  (∀ id it, (id, it) ∈ its →
     ∃ d e, treatment_days it = Some d ∧ add_days s (d - 1) = Ok e ∧
            items (w_db w2) !! id = Some (dated_item it s e (now env))) ∧
  farmers (w_db w2) = farmers (w_db w) ∧
  w_posted w2 = w_posted w ∧ w_slept w2 = w_slept w.
Proof.
  intros H_items H_won H_dates.
  pose proof (claim_recommendation_items rid shop notes (now env)
                (run_ops (concurrent env) (w_db w))) as Hitems.
  pose proof (claim_recommendation_farmers rid shop notes (now env)
                (run_ops (concurrent env) (w_db w))) as Hfarmers.
  rewrite H_won in Hitems, Hfarmers. simpl in Hitems, Hfarmers.
  rewrite run_ops_items in Hitems. rewrite run_ops_farmers in Hfarmers.
  apply claim_recommendation_true in H_won as (r & _ & _ & Hrow).
  apply update_item_dates_spec in H_dates
    as (Hdated & _ & Hrecs & Hfarm & Hposted & Hslept).
  - simpl in *. split_and!; [|done| |done..].
    + exists r. by rewrite Hrecs.
    + by rewrite Hfarm.
  - subst its. apply items_query_NoDup.
  - intros id it Hin. simpl. rewrite Hitems.
    subst its. by apply items_query_elem in Hin as [? _].
Qed.

Section CommittedRequest.
Context (env : Env) (rid : Z) (w : World).
Context (shop : Z) (recommendation : Recommendation)
        (start_date_str : string) (s : date)
        (its : list (Z * Item)) (m : Z) (e : date) (db1 : Db) (w2 : World).

Hypothesis H_session : truthy_Z (session_shop_id env) = Some shop.
Hypothesis H_found :
  get_recommendation_by_id (w_db w) rid = Some recommendation.
Hypothesis H_unclaimed : is_claimed recommendation = false.
Hypothesis H_date :
  truthy_str (json_start_date (request_data env)) = Some start_date_str.
Hypothesis H_parsed : strptime_ymd start_date_str = Ok s.
Hypothesis H_items :
  get_recommendation_items_by_recommendation_id (w_db w) rid = its.
Hypothesis H_some : its ≠ [].
Hypothesis H_max : py_max (usable_treatment_days its) = Ok m.
Hypothesis H_end : add_days s (m - 1) = Ok e.
Hypothesis H_won :
  claim_recommendation rid shop (Some (request_notes env)) (now env)
    (run_ops (concurrent env) (w_db w)) = (db1, true).
Hypothesis H_dates :
  update_item_dates its s (now env) (mk_world db1 (w_posted w) (w_slept w))
  = (Ok (), w2).

(** A committed request is answered with the 200 under every dispatcher
    configuration and every behaviour of the gateway. *)
Lemma committed_request_succeeds (cfg : WhatsAppConfig) (gw : Gateway) :
  ∃ sent msg w3,
    notify_farmer (with_notifier env cfg gw) recommendation its s e w2
    = (Ok (sent, msg), w3) ∧
    w_db w3 = w_db w2 ∧
    claim_recommendation_route (with_notifier env cfg gw) rid w
    = (mk_response 200
         (ResultBody
            (mk_result "Recommendation claimed successfully" rid shop
               (now env) (isoformat s) (isoformat e) m (request_notes env)
               sent msg)), w3).
Proof.
  set (env' := with_notifier env cfg gw).
  destruct (notify_farmer_total env' recommendation its s e w2)
    as (sent & msg & w3 & H_notify & Hdb).
  exists sent, msg, w3. split_and!; [done..|].
  destruct (committed_state env rid w shop _ its s db1 w2 H_items H_won H_dates)
    as ([r Hrow] & _).
  rewrite (route_validated env' rid w shop recommendation start_date_str s
             H_session H_found H_unclaimed H_date H_parsed).
  rewrite (claim_validated_scheduled env' rid w shop recommendation
             (request_notes env') s its m e H_items H_some H_max H_end).
  assert (get_recommendation_by_id (w_db w3) rid
          = Some (claimed_row r shop (Some (request_notes env)) (now env)))
    as H_updated.
  { unfold get_recommendation_by_id. by rewrite Hdb. }
  by rewrite (claim_scheduled_committed env' rid w shop recommendation
                (request_notes env') s its m e db1 w2 sent msg w3 _
                H_won H_dates H_notify H_updated).
Qed.
(** Once the claim is committed and the loop over the items has gone
    through: if the farmer of the recommendation is not in the store,
    or has no mobile number, the endpoint sends nothing to the gateway
    and answers 200, with [whatsapp_sent = false] and
    [whatsapp_message = "Farmer mobile number not available"]. *)
Lemma farmer_without_mobile_still_claims :
  (get_farmer_by_id (w_db w) (farmer_id recommendation) = None ∨
   ∃ f, get_farmer_by_id (w_db w) (farmer_id recommendation) = Some f ∧
        truthy_str (mobile_no f) = None) →
  claim_recommendation_route env rid w
  = (mk_response 200
       (ResultBody
          (mk_result "Recommendation claimed successfully" rid shop
             (now env) (isoformat s) (isoformat e) m (request_notes env)
             false "Farmer mobile number not available")), w2) ∧
  w_posted w2 = w_posted w ∧
  (∃ r, recommendations (w_db w2) !! rid = Some r ∧
        is_claimed r = true ∧ claimed_by_shop_id r = Some shop) ∧
  (∀ id it, (id, it) ∈ its →
     ∃ d e_item, treatment_days it = Some d ∧
                 add_days s (d - 1) = Ok e_item ∧
                 items (w_db w2) !! id
                 = Some (dated_item it s e_item (now env))).
Proof.
  intros H_farmer.
  destruct (committed_state env rid w shop _ its s db1 w2 H_items H_won H_dates)
    as ([r Hrow] & Hdated & Hfarmers & Hposted & _).
  assert (notify_farmer env recommendation its s e w2
          = (Ok (false, "Farmer mobile number not available"), w2))
    as H_notify.
  { apply notify_farmer_no_mobile. unfold get_farmer_by_id in *.
    rewrite Hfarmers. intros f Hf.
    destruct H_farmer as [Hnone | (f' & Hf' & Hmobile)]; congruence. }
  split_and!; [|done|by eauto|done].
  rewrite (route_validated env rid w shop recommendation start_date_str s
             H_session H_found H_unclaimed H_date H_parsed).
  rewrite (claim_validated_scheduled env rid w shop recommendation
             (request_notes env) s its m e H_items H_some H_max H_end).
  by rewrite (claim_scheduled_committed env rid w shop recommendation
                (request_notes env) s its m e db1 w2 _ _ w2 _
                H_won H_dates H_notify Hrow).
Qed.
End CommittedRequest.

Lemma notify_farmer_db env recommendation its s e w r w' :
  notify_farmer env recommendation its s e w = (r, w') →
  (∃ sent msg, r = Ok (sent, msg)) ∧ w_db w' = w_db w.
Proof.
  intros H.
  destruct (notify_farmer_total env recommendation its s e w)
    as (sent & msg & w'' & H' & Hdb).
  rewrite H in H'. simplify_eq. by eauto.
Qed.

(** Neither the status of the response nor the database after the
    request depends on the dispatcher or on the gateway. *)
Lemma response_independent_of_notifier env rid w cfg gw :
  status (claim_recommendation_route env rid w).1
  = status (claim_recommendation_route (with_notifier env cfg gw) rid w).1 ∧
  w_db (claim_recommendation_route env rid w).2
  = w_db (claim_recommendation_route (with_notifier env cfg gw) rid w).2.
Proof.
  unfold claim_recommendation_route, route_body, claim_validated,
    claim_scheduled, mbind, M_bind, db_read, lift, others_commit, db_write.
  change (request_data (with_notifier env cfg gw)) with (request_data env).
  cbn [with_notifier session_shop_id now concurrent w_db w_posted w_slept].
  destruct (truthy_Z (session_shop_id env)) as [shop|]; [|done].
  destruct (get_recommendation_by_id (w_db w) rid) as [recommendation|];
    [|done].
  destruct (is_claimed recommendation); [done|]. run_step.
  destruct (truthy_str (json_start_date (request_data env)))
    as [start_date_str|]; [|done].
  destruct (strptime_ymd start_date_str) as [s|ex];
    [|by destruct (exn_cls ex)].
  destruct (get_recommendation_items_by_recommendation_id (w_db w) rid)
    as [|item rest]; [done|].
  set (its := item :: rest). run_step.
  destruct (py_max (usable_treatment_days its)) as [m|ex]; [|done].
  destruct (add_days s (m - 1)) as [e|ex]; [|done].
  destruct (claim_recommendation rid shop _ (now env) _) as [db1 won].
  destruct won; [|done]. cbn [negb]. run_step.
  destruct (update_item_dates its s (now env) _) as [[[]|ex] w2]; [|done].
  destruct (notify_farmer env recommendation its s e w2)
    as [r1 w3] eqn:H1.
  destruct (notify_farmer (with_notifier env cfg gw) recommendation its s e w2)
    as [r2 w3'] eqn:H2.
  apply notify_farmer_db in H1 as [(sent1 & msg1 & ->) Hdb1].
  apply notify_farmer_db in H2 as [(sent2 & msg2 & ->) Hdb2].
  run_step. rewrite Hdb1, Hdb2.
  destruct (get_recommendation_by_id (w_db w2) rid); simpl;
    (split; [done | congruence]).
Qed.

(** The notification never decides the outcome of a claim request:
    under every dispatcher configuration and every behaviour of the
    gateway -- dispatcher disabled, timeouts, connection errors, any
    status, any exception of the request -- the status of the response
    and the database are the same.  And once [claim_recommendation]
    has succeeded and the loop over the items has gone through, the
    response is the 200 with the claim result: the notification block
    always yields a pair [(sent, msg)], which reaches the response
    only as [whatsapp_sent] and [whatsapp_message]. *)
Lemma notification_never_fails_the_claim
    (env : Env) (rid : Z) (w : World) (cfg : WhatsAppConfig) (gw : Gateway) :
  (status (claim_recommendation_route env rid w).1
   = status (claim_recommendation_route (with_notifier env cfg gw) rid w).1 ∧
   w_db (claim_recommendation_route env rid w).2
   = w_db (claim_recommendation_route (with_notifier env cfg gw) rid w).2) ∧
  ∀ shop recommendation start_date_str s its m e db1 w2,
    truthy_Z (session_shop_id env) = Some shop →
    get_recommendation_by_id (w_db w) rid = Some recommendation →
    is_claimed recommendation = false →
    truthy_str (json_start_date (request_data env)) = Some start_date_str →
    strptime_ymd start_date_str = Ok s →
    get_recommendation_items_by_recommendation_id (w_db w) rid = its →
    its ≠ [] →
    py_max (usable_treatment_days its) = Ok m →
    add_days s (m - 1) = Ok e →
    claim_recommendation rid shop (Some (request_notes env)) (now env)
      (run_ops (concurrent env) (w_db w)) = (db1, true) →
    update_item_dates its s (now env)
      (mk_world db1 (w_posted w) (w_slept w)) = (Ok (), w2) →
    ∃ sent msg w3,
      notify_farmer (with_notifier env cfg gw) recommendation its s e w2
      = (Ok (sent, msg), w3) ∧
      w_db w3 = w_db w2 ∧
      claim_recommendation_route (with_notifier env cfg gw) rid w
      = (mk_response 200
           (ResultBody
              (mk_result "Recommendation claimed successfully" rid shop
                 (now env) (isoformat s) (isoformat e) m (request_notes env)
                 sent msg)), w3).
Proof.
  split; [apply response_independent_of_notifier|].
  intros. by eapply committed_request_succeeds.
Qed.

(** ** The calendar: ordinals and dates *)

Section Calendar.

Lemma all_from_spec f n : ∀ start,
  all_from f start n = true →
  ∀ i, start ≤ i < start + Z.of_nat n → f i = true.
Proof.
  induction n as [|n IH]; intros start H i Hi; [lia|].
  simpl in H. apply andb_true_iff in H as [H0 H1].
  destruct (decide (i = start)) as [->|]; [done|].
  apply (IH (start + 1)); [done|lia].
Qed.

(** The days of the first 400 years, one by one. *)
Lemma first_cycle_ok : all_from ordinal_ok 1 (Z.to_nat DI400Y) = true.
Proof. vm_compute. reflexivity. Qed.

Lemma DI400Y_eq : DI400Y = 146097.
Proof. reflexivity. Qed.

Lemma is_leap_shift y q : is_leap (y + 400 * q) = is_leap y.
Proof.
  unfold is_leap.
  replace (y + 400 * q) with (y + (100 * q) * 4) at 1 by lia.
  replace (y + 400 * q) with (y + (4 * q) * 100) at 1 by lia.
  replace (y + 400 * q) with (y + q * 400) by lia.
  by rewrite !Z_mod_plus_full.
Qed.

Lemma days_before_year_shift y q :
  days_before_year (y + 400 * q) = days_before_year y + q * DI400Y.
Proof.
  unfold days_before_year. cbv zeta. rewrite DI400Y_eq.
  replace (y + 400 * q - 1) with (y - 1 + (100 * q) * 4) at 2 by lia.
  replace (y + 400 * q - 1) with (y - 1 + (4 * q) * 100) at 2 by lia.
  replace (y + 400 * q - 1) with (y - 1 + q * 400) at 2 by lia.
  rewrite !Z.div_add by lia. lia.
Qed.

Lemma toordinal_shift y m d q :
  toordinal (mk_date (y + 400 * q) m d)
  = toordinal (mk_date y m d) + q * DI400Y.
Proof.
  unfold toordinal, ymd2ord, days_before_month. simpl.
  rewrite is_leap_shift, days_before_year_shift. lia.
Qed.

Lemma calendar_date_shift y m d q :
  0 ≤ q →
  calendar_date (mk_date y m d) = true →
  calendar_date (mk_date (y + 400 * q) m d) = true.
Proof.
  unfold calendar_date, days_in_month. simpl. intros Hq.
  rewrite is_leap_shift.
  rewrite !andb_true_iff, !Z.leb_le. lia.
Qed.

Lemma ord2ymd_shift q r :
  0 ≤ r < DI400Y →
  ord2ymd (q * DI400Y + r + 1)
  = mk_date (year (ord2ymd (r + 1)) + 400 * q)
      (month (ord2ymd (r + 1))) (day (ord2ymd (r + 1))).
Proof.
  intros Hr. unfold ord2ymd. cbv zeta.
  replace (q * DI400Y + r + 1 - 1) with (r + q * DI400Y) by lia.
  replace (r + 1 - 1) with r by lia.
  rewrite Z.div_add, Z_mod_plus_full by (rewrite DI400Y_eq; lia).
  rewrite (Z.div_small r DI400Y), (Z.mod_small r DI400Y) by lia.
  repeat match goal with
         | |- context [if ?c then _ else _] => destruct c
         end; simpl; f_equal; lia.
Qed.

(** Every positive ordinal is the ordinal of its own date; up to
    [MAXORDINAL] the year of that date is at most [MAXYEAR]. *)
Lemma ord2ymd_ok n :
  1 ≤ n →
  calendar_date (ord2ymd n) = true ∧ toordinal (ord2ymd n) = n ∧
  (n ≤ MAXORDINAL → year (ord2ymd n) ≤ MAXYEAR).
Proof.
  intros Hn.
  pose proof (Z.div_mod (n - 1) DI400Y ltac:(rewrite DI400Y_eq; lia)) as Hdiv.
  pose proof (Z.mod_pos_bound (n - 1) DI400Y ltac:(rewrite DI400Y_eq; lia))
    as Hmod.
  set (q := (n - 1) / DI400Y) in *. set (r := (n - 1) mod DI400Y) in *.
  assert (0 ≤ q) as Hq by (apply Z.div_pos; rewrite ?DI400Y_eq; lia).
  replace n with (q * DI400Y + r + 1) by lia.
  rewrite (ord2ymd_shift q r Hmod).
  pose proof (all_from_spec _ _ _ first_cycle_ok (r + 1)
                ltac:(rewrite Z2Nat.id; rewrite ?DI400Y_eq in *; lia)) as Hok.
  unfold ordinal_ok in Hok. cbv zeta in Hok.
  apply andb_true_iff in Hok as [Hok Hlast].
  apply andb_true_iff in Hok as [Hok Hyear%Z.leb_le].
  apply andb_true_iff in Hok as [Hvalid Hord%Z.eqb_eq].
  destruct (ord2ymd (r + 1)) as [y m d]. simpl in *. split_and!.
  - by apply calendar_date_shift.
  - rewrite toordinal_shift, Hord. lia.
  - unfold MAXORDINAL, MAXYEAR. rewrite DI400Y_eq in *. intros Hmax.
    apply orb_true_iff in Hlast as [Hlate%Z.ltb_lt|Hearly%Z.leb_le]; lia.
Qed.

(** [dt + timedelta(days=n)], when it is a date, lies [n] days after
    [dt]. *)
Lemma add_days_ordinal dt n e :
  add_days dt n = Ok e →
  toordinal e = toordinal dt + n ∧ calendar_date e = true ∧
  year e ≤ MAXYEAR.
Proof.
  unfold add_days.
  destruct ((-999999999 <=? n) && (n <=? 999999999)); [|done].
  cbv zeta.
  destruct (Z.ltb_spec 0 (toordinal dt + n)); simpl; [|done].
  destruct (Z.leb_spec (toordinal dt + n) MAXORDINAL); [|done].
  intros [= <-].
  destruct (ord2ymd_ok (toordinal dt + n)) as (? & ? & ?); [lia|].
  split_and!; [done..|auto].
Qed.

Lemma list_ascii_of_string_app (a b : string) :
  list_ascii_of_string (a +:+ b)
  = (list_ascii_of_string a ++ list_ascii_of_string b)%list.
Proof. induction a as [|c a IH]; simpl; [done|by rewrite IH]. Qed.

Lemma split_dash_field (l : list ascii) : ∀ cur,
  forallb (λ c, negb (Ascii.eqb c "-"%char)) l = true →
  split_dash cur l = [(rev cur ++ l)%list] ∧
  ∀ rest,
    split_dash cur (l ++ "-"%char :: rest)
    = (rev cur ++ l)%list :: split_dash [] rest.
Proof.
  induction l as [|c l IH]; intros cur Hl; simpl.
  - by rewrite app_nil_r.
  - simpl in Hl. apply andb_true_iff in Hl as [Hc Hl].
    apply negb_true_iff in Hc. rewrite Hc.
    destruct (IH (c :: cur) Hl) as [IH1 IH2]. simpl in IH1, IH2.
    rewrite <- !app_assoc in IH1, IH2. simpl in IH1, IH2.
    split; [done|]. intros rest. apply IH2.
Qed.

Lemma years_ok : all_from year_field_ok 1 (Z.to_nat 9999) = true.
Proof. vm_compute. reflexivity. Qed.

Lemma short_fields_ok : all_from short_field_ok 1 (Z.to_nat 31) = true.
Proof. vm_compute. reflexivity. Qed.

Lemma days_in_month_le y m : 1 ≤ m ≤ 12 → days_in_month y m ≤ 31.
Proof.
  intros Hm. unfold days_in_month.
  destruct ((m =? 2) && is_leap y); [lia|].
  assert (m = 1 ∨ m = 2 ∨ m = 3 ∨ m = 4 ∨ m = 5 ∨ m = 6 ∨ m = 7 ∨ m = 8
          ∨ m = 9 ∨ m = 10 ∨ m = 11 ∨ m = 12) as Hcases by lia.
  destruct_or!; subst m; simpl; lia.
Qed.

(** What [isoformat] writes, [strptime] reads back. *)
Lemma strptime_isoformat dt :
  calendar_date dt = true → year dt ≤ MAXYEAR →
  strptime_ymd (isoformat dt) = Ok dt.
Proof.
  destruct dt as [y m d]. unfold calendar_date, MAXYEAR. simpl.
  rewrite !andb_true_iff, !Z.leb_le.
  intros ((((Hy & Hm1) & Hm12) & Hd1) & Hd) Hmax.
  pose proof (days_in_month_le y m ltac:(lia)) as Hd31.
  pose proof (all_from_spec _ _ _ years_ok y
                ltac:(rewrite Z2Nat.id; lia)) as Hyear.
  pose proof (all_from_spec _ _ _ short_fields_ok m
                ltac:(rewrite Z2Nat.id; lia)) as Hmonth.
  pose proof (all_from_spec _ _ _ short_fields_ok d
                ltac:(rewrite Z2Nat.id; lia)) as Hday.
  unfold year_field_ok in Hyear. unfold short_field_ok in Hmonth, Hday.
  cbv zeta in Hyear, Hmonth, Hday.
  rewrite !andb_true_iff in Hyear, Hmonth, Hday.
  destruct Hyear as [[Hylen%Nat.eqb_eq Hynd] Hyf%bool_decide_eq_true].
  destruct Hmonth as [[Hmnd Hmf%bool_decide_eq_true] _].
  destruct Hday as [[Hdnd _] Hdf%bool_decide_eq_true].
  unfold strptime_ymd, isoformat. cbv zeta. simpl year. simpl month. simpl day.
  rewrite (list_ascii_of_string_app (pad4 y)).
  change (list_ascii_of_string ("-" +:+ ?b))
    with ("-"%char :: list_ascii_of_string b).
  rewrite (list_ascii_of_string_app (pad2 m)).
  change (list_ascii_of_string ("-" +:+ ?b))
    with ("-"%char :: list_ascii_of_string b).
  rewrite (proj2 (split_dash_field _ [] Hynd)).
  rewrite (proj2 (split_dash_field _ [] Hmnd)).
  rewrite (proj1 (split_dash_field _ [] Hdnd)). simpl rev. simpl app.
  rewrite Hylen, Hyf, Hmf, Hdf. simpl Nat.eqb. cbv iota.
  unfold make, MINYEAR, MAXYEAR.
  rewrite !(proj2 (Z.leb_le _ _)) by lia. done.
Qed.
(** The days of the months of the first 400 years, one by one. *)
Lemma dates_ok :
  all_from
    (λ y, all_from (λ m, all_from (date_ok y m) 1 (Z.to_nat 31))
            1 (Z.to_nat 12))
    1 (Z.to_nat 400)
  = true.
Proof. vm_compute. reflexivity. Qed.

Lemma calendar_date_unshift y m d q :
  1 ≤ y →
  calendar_date (mk_date (y + 400 * q) m d) = true →
  calendar_date (mk_date y m d) = true.
Proof.
  unfold calendar_date, days_in_month. simpl. intros Hy.
  rewrite is_leap_shift.
  rewrite !andb_true_iff, !Z.leb_le. lia.
Qed.

Lemma date_ok_first_cycle y m d :
  1 ≤ y ≤ 400 → 1 ≤ m ≤ 12 → 1 ≤ d ≤ 31 → date_ok y m d = true.
Proof.
  intros Hy Hm Hd.
  apply (all_from_spec (date_ok y m) (Z.to_nat 31) 1); [|lia].
  apply (all_from_spec
           (λ m, all_from (date_ok y m) 1 (Z.to_nat 31)) (Z.to_nat 12) 1);
    [|lia].
  apply (all_from_spec
           (λ y, all_from (λ m, all_from (date_ok y m) 1 (Z.to_nat 31))
                   1 (Z.to_nat 12))
           (Z.to_nat 400) 1);
    [exact dates_ok|lia].
Qed.

(** Every date of the calendar is the date of its own ordinal; up to
    [MAXYEAR] the ordinal is at most [MAXORDINAL]. *)
Lemma toordinal_ok dt :
  calendar_date dt = true →
  ord2ymd (toordinal dt) = dt ∧ 1 ≤ toordinal dt ∧
  (year dt ≤ MAXYEAR → toordinal dt ≤ MAXORDINAL).
Proof.
  destruct dt as [y m d]. intros Hcal.
  assert (1 ≤ y ∧ 1 ≤ m ≤ 12 ∧ 1 ≤ d ≤ days_in_month y m) as (Hy & Hm & Hd).
  { unfold calendar_date in Hcal. simpl in Hcal.
    rewrite !andb_true_iff, !Z.leb_le in Hcal. lia. }
  pose proof (days_in_month_le y m Hm) as Hd31.
  pose proof (Z.div_mod (y - 1) 400 ltac:(lia)) as Hdiv.
  pose proof (Z.mod_pos_bound (y - 1) 400 ltac:(lia)) as Hmod.
  set (q := (y - 1) / 400) in *. set (y0 := (y - 1) mod 400 + 1).
  assert (0 ≤ q) as Hq by (apply Z.div_pos; lia).
  assert (y = y0 + 400 * q) as Hyq by (unfold y0; lia).
  assert (1 ≤ y0 ≤ 400) as Hy0 by (unfold y0; lia).
  clearbody y0 q. subst y.
  pose proof (calendar_date_unshift y0 m d q ltac:(lia) Hcal) as Hcal0.
  pose proof (date_ok_first_cycle y0 m d Hy0 Hm ltac:(lia)) as Hok.
  unfold date_ok in Hok. cbv zeta in Hok. rewrite Hcal0 in Hok.
  change (negb true) with false in Hok. rewrite orb_false_l in Hok.
  rewrite !andb_true_iff in Hok.
  destruct Hok as [[[Hback%bool_decide_eq_true Hlow%Z.leb_le] Hup%Z.leb_le]
                   Hlast].
  rewrite toordinal_shift.
  replace (toordinal (mk_date y0 m d) + q * DI400Y)
    with (q * DI400Y + (toordinal (mk_date y0 m d) - 1) + 1) by lia.
  rewrite ord2ymd_shift by lia.
  replace (toordinal (mk_date y0 m d) - 1 + 1)
    with (toordinal (mk_date y0 m d)) by lia.
  rewrite Hback. cbn [year month day].
  unfold MAXYEAR, MAXORDINAL. rewrite DI400Y_eq in Hup |- *.
  split_and!; [done|lia|]. intros Hmax.
  apply orb_true_iff in Hlast as [Hlate%Z.leb_le|Hearly%Z.leb_le]; lia.
Qed.

(** [dt + timedelta(days=0)] is [dt]. *)
Lemma add_days_0 dt :
  calendar_date dt = true → year dt ≤ MAXYEAR → add_days dt 0 = Ok dt.
Proof.
  intros Hcal Hyear.
  destruct (toordinal_ok dt Hcal) as (Hback & Hlow & Hup).
  specialize (Hup Hyear). unfold add_days. simpl andb. cbv iota zeta.
  rewrite Z.add_0_r.
  destruct (Z.ltb_spec 0 (toordinal dt)); [|lia].
  destruct (Z.leb_spec (toordinal dt) MAXORDINAL); [|lia].
  simpl. by rewrite Hback.
Qed.
End Calendar.

(** Dates that the endpoint parses or makes are dates of the calendar. *)

Section Schedule.

Lemma make_calendar_date y m d dt :
  make y m d = Ok dt →
  dt = mk_date y m d ∧ calendar_date dt = true ∧ year dt ≤ MAXYEAR.
Proof.
  unfold make, calendar_date.
  destruct (Z.leb_spec MINYEAR y); simpl; [|done].
  destruct (Z.leb_spec y MAXYEAR); simpl; [|done].
  destruct (Z.leb_spec 1 m); simpl; [|done].
  destruct (Z.leb_spec m 12); simpl; [|done].
  destruct (Z.leb_spec 1 d); simpl; [|done].
  destruct (Z.leb_spec d (days_in_month y m)); simpl; [|done].
  intros [= <-]. simpl. unfold MINYEAR in *.
  rewrite !andb_true_iff, !Z.leb_le. by split_and!.
Qed.

Lemma strptime_ymd_calendar_date str dt :
  strptime_ymd str = Ok dt →
  calendar_date dt = true ∧ year dt ≤ MAXYEAR.
Proof.
  unfold strptime_ymd. cbv zeta. intros Hparse.
  repeat case_match; try done.
  by apply make_calendar_date in Hparse as (_ & ? & ?).
Qed.
End Schedule.

(** *** Successful claims *)

(** A 200 comes only from the end of the endpoint: every phase before
    it went through. *)
Lemma route_success_inv env rid w resp w3 :
  claim_recommendation_route env rid w = (resp, w3) →
  status resp = 200 →
  ∃ shop recommendation start_date_str s its m e db1 w2 sent msg,
    truthy_Z (session_shop_id env) = Some shop ∧
    get_recommendation_by_id (w_db w) rid = Some recommendation ∧
    is_claimed recommendation = false ∧
    truthy_str (json_start_date (request_data env)) = Some start_date_str ∧
    strptime_ymd start_date_str = Ok s ∧
    get_recommendation_items_by_recommendation_id (w_db w) rid = its ∧
    its ≠ [] ∧
    py_max (usable_treatment_days its) = Ok m ∧
    add_days s (m - 1) = Ok e ∧
    claim_recommendation rid shop (Some (request_notes env)) (now env)
      (run_ops (concurrent env) (w_db w)) = (db1, true) ∧
    update_item_dates its s (now env)
      (mk_world db1 (w_posted w) (w_slept w)) = (Ok (), w2) ∧
    notify_farmer env recommendation its s e w2 = (Ok (sent, msg), w3) ∧
    resp = mk_response 200
             (ResultBody
                (mk_result "Recommendation claimed successfully" rid shop
                   (now env) (isoformat s) (isoformat e) m
                   (request_notes env) sent msg)).
Proof.
  unfold claim_recommendation_route, route_body.
  destruct (truthy_Z (session_shop_id env)) as [shop|] eqn:H_session;
    [|by intros [= <- <-]].
  run_bind. unfold db_read at 1. run_step.
  destruct (get_recommendation_by_id (w_db w) rid) as [recommendation|]
    eqn:H_found; [|by intros [= <- <-]].
  destruct (is_claimed recommendation) eqn:H_unclaimed; [by intros [= <- <-]|].
  run_step.
  destruct (truthy_str (json_start_date (request_data env)))
    as [start_date_str|] eqn:H_date; [|by intros [= <- <-]].
  destruct (strptime_ymd start_date_str) as [s|ex] eqn:H_parsed;
    [|by destruct (exn_cls ex); intros [= <- <-]].
  unfold claim_validated. run_bind. unfold db_read at 1. run_step.
  destruct (get_recommendation_items_by_recommendation_id (w_db w) rid)
    as [|item rest] eqn:H_items; [by intros [= <- <-]|].
  set (its := item :: rest) in *. run_step.
  run_bind. unfold lift at 1.
  destruct (py_max (usable_treatment_days its)) as [m|ex] eqn:H_max;
    [|by intros [= <- <-]].
  run_step. run_bind. unfold lift at 1.
  destruct (add_days s (m - 1)) as [e|ex] eqn:H_end; [|by intros [= <- <-]].
  run_step. unfold claim_scheduled.
  run_bind. unfold others_commit at 1. run_step.
  run_bind. unfold db_write at 1. simpl w_db.
  fold (request_notes env).
  destruct (claim_recommendation rid shop (Some (request_notes env)) (now env)
              (run_ops (concurrent env) (w_db w))) as [db1 won] eqn:H_won.
  destruct won; [|by intros [= <- <-]].
  cbn [negb w_posted w_slept]. run_step. run_bind.
  destruct (update_item_dates its s (now env) _) as [[[]|ex] w2] eqn:H_dates;
    [|by intros [= <- <-]].
  run_step. run_bind.
  destruct (notify_farmer_total env recommendation its s e w2)
    as (sent & msg & w3' & H_notify & Hdb).
  rewrite H_notify. run_step. run_bind. unfold db_read at 1. run_step.
  destruct (committed_state env rid w shop _ its s db1 w2 H_items H_won H_dates)
    as ([r Hrow] & _).
  unfold get_recommendation_by_id at 1. rewrite Hdb, Hrow.
  intros [= <- <-] _.
  exists shop, recommendation, start_date_str, s, its, m, e, db1, w2, sent, msg.
  by split_and!.
Qed.


(** ** Instances on the sample clinic *)

(** The claim of recommendation 1 under each failure mode of the
    notification: the answer is the 200 every time. *)
Example claim_under_notification_failures :
  Forall
    (λ env : Env,
       status (claim_recommendation_route env 1 (start Sample.clinic)).1 = 200)
    [ Sample.request Sample.gateway_timeout [];
      Sample.request Sample.gateway_broken [];
      Sample.request (Sample.gateway_status 503) [];
      Sample.request (Sample.gateway_status 429) [];
      Sample.request
        (λ _, PostRaises (mk_exn ConnectionError "Connection refused")) [];
      with_notifier (Sample.request Sample.gateway_ok [])
        (mk_config "" 30 3 false) Sample.gateway_ok ].
Proof. repeat constructor; vm_compute; reflexivity. Qed.

(** C4, at the failing input: item 12 of recommendation 1 has no
    treatment days (NULL) next to item 10 with five.  The maximum of
    line 756 skips item 12, [claim_recommendation] succeeds and item 10
    gets its dates; then line 767 raises on item 12, before the
    notification is reached.  The recommendation stays claimed by shop
    42 and the endpoint answers 500, whatever the dispatcher
    configuration and the gateway; nothing is sent. *)
Theorem committed_claim_answered_500 :
  let db := Sample.clinic_with_days (Some 5) None in
  let env := Sample.request Sample.gateway_ok [] in
  let r := claim_recommendation_route env 1 (start db) in
  (claim_recommendation 1 42 (Some (request_notes env)) (now env) db).2 = true ∧
  r.1 = error_response 500
          "Failed to claim recommendation: unsupported operand type(s) for -: 'NoneType' and 'int'" ∧
  (∃ row, get_recommendation_by_id (w_db r.2) 1 = Some row ∧
          is_claimed row = true ∧ claimed_by_shop_id row = Some 42) ∧
  (end_date <$> items (w_db r.2) !! 10) = Some (Some (mk_date 2024 1 5)) ∧
  (end_date <$> items (w_db r.2) !! 12) = Some None ∧
  w_posted r.2 = [] ∧
  ∀ cfg gw,
    status (claim_recommendation_route (with_notifier env cfg gw) 1
              (start db)).1 = 500.
Proof.
  split_and!.
  - vm_compute. reflexivity.
  - vm_compute. reflexivity.
  - eexists. split_and!; vm_compute; reflexivity.
  - vm_compute. reflexivity.
  - vm_compute. reflexivity.
  - vm_compute. reflexivity.
  - intros cfg gw.
    rewrite <- (proj1 (response_independent_of_notifier
                         (Sample.request Sample.gateway_ok []) 1
                         (start (Sample.clinic_with_days (Some 5) None))
                         cfg gw)).
    vm_compute. reflexivity.
Qed.

(** C10, at the failing input: recommendation 2 belongs to farmer 8,
    who has no mobile number; its item 13 has seven treatment days and
    item 14 none (NULL).  [claim_recommendation] succeeds and item 13
    gets its dates; then line 767 raises on item 14.  The
    recommendation stays claimed by shop 42 and the endpoint answers
    500, not the 200 with "Farmer mobile number not available";
    nothing is sent. *)
Theorem farmer_without_mobile_answered_500 :
  let db := Sample.clinic_null_days_no_mobile in
  let env := Sample.request Sample.gateway_ok [] in
  let r := claim_recommendation_route env 2 (start db) in
  (∃ recommendation f,
     get_recommendation_by_id db 2 = Some recommendation ∧
     is_claimed recommendation = false ∧
     get_farmer_by_id db (farmer_id recommendation) = Some f ∧
     mobile_no f = None) ∧
  (claim_recommendation 2 42 (Some (request_notes env)) (now env) db).2 = true ∧
  r.1 = error_response 500
          "Failed to claim recommendation: unsupported operand type(s) for -: 'NoneType' and 'int'" ∧
  (∃ row, get_recommendation_by_id (w_db r.2) 2 = Some row ∧
          is_claimed row = true ∧ claimed_by_shop_id row = Some 42) ∧
  (end_date <$> items (w_db r.2) !! 13) = Some (Some (mk_date 2024 1 7)) ∧
  (end_date <$> items (w_db r.2) !! 14) = Some None ∧
  w_posted r.2 = [].
Proof.
  split_and!.
  - eexists _, _. split_and!; vm_compute; reflexivity.
  - vm_compute. reflexivity.
  - vm_compute. reflexivity.
  - eexists. split_and!; vm_compute; reflexivity.
  - vm_compute. reflexivity.
  - vm_compute. reflexivity.
  - vm_compute. reflexivity.
Qed.

(** An instance of C7: a recommendation created and then claimed. *)
Lemma claimed_state_invariant_instance :
  let db := run_ops [OpCreate 7 3; OpClaim 1 42 (Some "collected") 1000]
              empty_db in
  (∀ id r, recommendations db !! id = Some r → claim_fields_consistent r) ∧
  (∀ op id r,
     recommendations db !! id = Some r → is_claimed r = true →
     recommendations (run_op op db) !! id = Some r) ∧
  (∀ ops id r,
     recommendations db !! id = Some r → is_claimed r = true →
     recommendations (run_ops ops db) !! id = Some r).
Proof.
  apply (claimed_state_invariant
           (run_ops [OpCreate 7 3; OpClaim 1 42 (Some "collected") 1000]
              empty_db)).
  apply reachable_run_ops, reachable_empty.
Defined.

(** C8 as stated fails: recommendation 3 exists, is unclaimed and has
    no items; the response is 404, not 400. *)
Lemma no_items_is_not_400 :
  get_recommendation_by_id Sample.clinic 3 = Some (Sample.unclaimed 7 3) ∧
  get_recommendation_items_by_recommendation_id Sample.clinic 3 = [] ∧
  status (claim_recommendation_route (Sample.request Sample.gateway_ok []) 3
            (start Sample.clinic)).1 = 404.
Proof. split_and!; vm_compute; reflexivity. Qed.

(** An instance of C8 (amended). *)
Lemma no_items_is_not_found_instance :
  claim_recommendation_route (Sample.request Sample.gateway_ok []) 3
    (start Sample.clinic)
  = (mk_response 404 (ErrorBody "No recommendation items found"),
     start Sample.clinic).
Proof.
  apply (no_items_is_not_found (Sample.request Sample.gateway_ok []) 3
           (start Sample.clinic) 42 (Sample.unclaimed 7 3)
           "2024-01-01" (mk_date 2024 1 1));
    vm_compute; reflexivity.
Defined.

(** C2 as stated fails: shop 99 claims recommendation 1 after shop 42
    has read it unclaimed; shop 42 gets the 500 of a generic failure,
    not the 400 of "already claimed". *)
Lemma lost_race_is_not_400 :
  let env := Sample.request Sample.gateway_ok [OpClaim 1 99 None 999] in
  (is_claimed <$> get_recommendation_by_id Sample.clinic 1) = Some false ∧
  (claim_recommendation 1 42 (Some "collected") 1000
     (run_ops (concurrent env) Sample.clinic)).2 = false ∧
  (claim_recommendation_route env 1 (start Sample.clinic)).1
  = mk_response 500 (ErrorBody "Failed to claim recommendation").
Proof. split_and!; vm_compute; reflexivity. Qed.

(** An instance of C2 (amended). *)
Lemma lost_race_is_generic_failure_instance :
  let env := Sample.request Sample.gateway_ok [OpClaim 1 99 None 999] in
  claim_recommendation_route env 1 (start Sample.clinic)
  = (mk_response 500 (ErrorBody "Failed to claim recommendation"),
     start (run_ops [OpClaim 1 99 None 999] Sample.clinic)).
Proof.
  apply (lost_race_is_generic_failure
           (Sample.request Sample.gateway_ok [OpClaim 1 99 None 999]) 1
           (start Sample.clinic) 42 (Sample.unclaimed 7 3)
           "2024-01-01" (mk_date 2024 1 1)
           eq_refl eq_refl eq_refl eq_refl eq_refl
           (get_recommendation_items_by_recommendation_id Sample.clinic 1)
           eq_refl ltac:(vm_compute; discriminate)
           10 (mk_date 2024 1 10)
           ltac:(vm_compute; reflexivity) ltac:(vm_compute; reflexivity)
           ltac:(vm_compute; reflexivity)).
Defined.

(** C6 as stated fails: item 10 has 5 treatment days and item 12 has
    none usable (zero); the endpoint answers 200, the recommendation is
    claimed by shop 42, and item 12 is stored with an end date one day
    before its start date. *)
Lemma zero_treatment_days_is_claimed :
  let db := Sample.clinic_with_days (Some 5) (Some 0) in
  let r := claim_recommendation_route (Sample.request Sample.gateway_ok []) 1
             (start db) in
  (is_claimed <$> get_recommendation_by_id db 1) = Some false ∧
  (treatment_days <$> items db !! 12) = Some (Some 0) ∧
  status r.1 = 200 ∧
  (claimed_by_shop_id <$> get_recommendation_by_id (w_db r.2) 1)
  = Some (Some 42) ∧
  (end_date <$> items (w_db r.2) !! 12) = Some (Some (mk_date 2023 12 31)).
Proof. split_and!; vm_compute; reflexivity. Qed.

(** An instance of C6 (amended): no item has usable treatment days. *)
Lemma no_usable_treatment_days_instance :
  ∃ msg,
    claim_recommendation_route (Sample.request Sample.gateway_ok []) 1
      (start (Sample.clinic_with_days None (Some 0)))
    = (mk_response 500 (ErrorBody msg),
       start (Sample.clinic_with_days None (Some 0))).
Proof.
  apply (no_usable_treatment_days_fails_before_claim
           (Sample.request Sample.gateway_ok []) 1
           (start (Sample.clinic_with_days None (Some 0)))
           42 (Sample.unclaimed 7 3) "2024-01-01" (mk_date 2024 1 1)
           eq_refl eq_refl eq_refl eq_refl eq_refl
           [(10, Sample.item_of 1 "Amoxicillin" None);
            (12, Sample.item_of 1 "Tylosin" (Some 0))]);
    [vm_compute; reflexivity | discriminate |].
  intros id it Hin. repeat (apply elem_of_cons in Hin as [[= -> ->]|Hin]; [reflexivity|]).
  by apply elem_of_nil in Hin.
Defined.

(** The claim of recommendation 1 while the gateway times out on every
    attempt. *)
Lemma notification_never_fails_the_claim_instance :
  ∃ msg w3,
    claim_recommendation_route
      (with_notifier (Sample.request Sample.gateway_ok []) default_config
         Sample.gateway_timeout) 1 (start Sample.clinic)
    = (mk_response 200
         (ResultBody
            (mk_result "Recommendation claimed successfully" 1 42 1000
               "2024-01-01" "2024-01-10" 10 "collected" false msg)), w3).
Proof.
  edestruct (proj2 (notification_never_fails_the_claim
                      (Sample.request Sample.gateway_ok []) 1
                      (start Sample.clinic) default_config
                      Sample.gateway_timeout)
               42 (Sample.unclaimed 7 3) "2024-01-01" (mk_date 2024 1 1)
               (get_recommendation_items_by_recommendation_id Sample.clinic 1)
               10 (mk_date 2024 1 10))
    as (sent & msg & w3 & Hnotify & _ & Hroute);
    [reflexivity | reflexivity | reflexivity | reflexivity | reflexivity
    | reflexivity | vm_compute; discriminate
    | vm_compute; reflexivity | vm_compute; reflexivity
    | vm_compute; reflexivity | vm_compute; reflexivity |].
  exists msg, w3. rewrite Hroute.
  vm_compute in Hnotify. injection Hnotify as <- _ _. reflexivity.
Defined.

(** The claim of recommendation 2, which belongs to farmer 8, who has
    no mobile number. *)
Lemma farmer_without_mobile_instance :
  ∃ w2,
    claim_recommendation_route (Sample.request Sample.gateway_ok []) 2
      (start Sample.clinic)
    = (mk_response 200
         (ResultBody
            (mk_result "Recommendation claimed successfully" 2 42 1000
               "2024-01-01" "2024-01-07" 7 "collected" false
               "Farmer mobile number not available")), w2) ∧
    w_posted w2 = [].
Proof.
  edestruct (farmer_without_mobile_still_claims
               (Sample.request Sample.gateway_ok []) 2 (start Sample.clinic)
               42 (Sample.unclaimed 8 3) "2024-01-01" (mk_date 2024 1 1)
               (get_recommendation_items_by_recommendation_id Sample.clinic 2)
               7 (mk_date 2024 1 7))
    as (Hroute & Hposted & _);
    [reflexivity | reflexivity | reflexivity | reflexivity | reflexivity
    | reflexivity | vm_compute; discriminate
    | vm_compute; reflexivity | vm_compute; reflexivity
    | vm_compute; reflexivity | vm_compute; reflexivity
    | right; exists (mk_farmer "Meena" None); split; reflexivity |].
  eexists. split; [exact Hroute | exact Hposted].
Defined.



(** * Further properties of the dispatcher, the endpoint and the store *)

(** ** The retry loop, in general *)

Section RetryLoopBounds.
Context (gw : Gateway) (payload : Payload) (max_retries : Z).

(** One pass posts the payload once; it sleeps at most once, and only
    on its way to a further attempt. *)
Lemma attempt_body_effects attempt delay w r w' :
  attempt_body gw payload max_retries attempt delay w = (r, w') →
  w_posted w' = (w_posted w ++ [payload])%list ∧
  (w_slept w' = w_slept w ∨
   (attempt < max_retries - 1 ∧
    ∃ d delay', w_slept w' = (w_slept w ++ [d])%list ∧
                r = Ok (NextAttempt delay'))).
Proof.
  unfold attempt_body, try_except, mbind, M_bind, requests_post, time_sleep,
    mret, M_ret.
  destruct (gw (length (w_posted w))) as [st text|e]; simpl.
  - destruct (st =? 200); [intros; simplify_eq; by eauto|].
    destruct (st =? 429); [|intros; simplify_eq; by eauto].
    destruct (Z.ltb_spec attempt (max_retries - 1));
      intros; simplify_eq; simpl; by eauto 10.
  - destruct (is_Timeout e); [|destruct (is_ConnectionError e)];
      try destruct (Z.ltb_spec attempt (max_retries - 1));
      intros; simplify_eq; simpl; by eauto 10.
Qed.

(** The loop posts the same payload, at least once and at most once
    per pass, and sleeps only between two posts. *)
Lemma retry_loop_effects n : ∀ attempt delay w r w',
  ((0 < n)%nat → attempt + Z.of_nat n = max_retries) →
  retry_loop gw payload max_retries n attempt delay w = (r, w') →
  ∃ k sl,
    (k ≤ n)%nat ∧ (0 < n → 0 < k)%nat ∧
    w_posted w' = (w_posted w ++ replicate k payload)%list ∧
    w_slept w' = (w_slept w ++ sl)%list ∧
    (length sl ≤ k - 1)%nat.
Proof.
  induction n as [|n IH]; intros attempt delay w r w' Hinv; simpl.
  - intros [= <- <-]. exists 0%nat, []. rewrite !app_nil_r.
    split_and!; [lia|lia|done|done|simpl; lia].
  - unfold mbind, M_bind.
    destruct (attempt_body gw payload max_retries attempt delay w)
      as [[[v|delay']|e] w1] eqn:Hbody;
      apply attempt_body_effects in Hbody as [Hp Hs].
    + intros [= <- <-].
      destruct Hs as [Hs|(_ & d & delay' & _ & [=])].
      exists 1%nat, []. rewrite app_nil_r.
      split_and!; [lia|lia|done|done|simpl; lia].
    + intros Hrest.
      apply IH in Hrest as (k & sl & Hk & Hpos & Hp' & Hs' & Hlen); [|lia].
      destruct Hs as [Hs|(Hlt & d & delay'' & Hs & _)].
      * exists (S k), sl. rewrite Hp', Hp, Hs', Hs, <- app_assoc.
        split_and!; [lia|lia|done|done|simpl; lia].
      * exists (S k), (d :: sl). rewrite Hp', Hp, Hs', Hs, <- !app_assoc.
        split_and!; [lia|lia|done|done|simpl; lia].
    + intros [= <- <-].
      destruct Hs as [Hs|(_ & d & delay' & _ & [=])].
      exists 1%nat, []. rewrite app_nil_r.
      split_and!; [lia|lia|done|done|simpl; lia].
Qed.
End RetryLoopBounds.

Lemma send_whatsapp_message_bounds
    (cfg : WhatsAppConfig) (gw : Gateway) (mobile nm : string)
    (its : list (Z * Item)) (s e : date) (w : World) :
  ∃ v w' k sl,
    send_whatsapp_message cfg gw mobile nm its s e w = (Ok v, w') ∧
    w_db w' = w_db w ∧
    w_posted w'
    = (w_posted w ++ replicate k (make_payload cfg mobile nm its s e))%list ∧
    w_slept w' = (w_slept w ++ sl)%list ∧
    (k ≤ Z.to_nat (WHATSAPP_MAX_RETRIES cfg))%nat ∧
    (WHATSAPP_ENABLED cfg = false → k = 0%nat) ∧
    (length sl ≤ k - 1)%nat.
Proof.
  unfold send_whatsapp_message, try_except.
  destruct (WHATSAPP_ENABLED cfg) eqn:Hon; simpl.
  - destruct (retry_loop _ _ _ _ _ _ w) as [r w1] eqn:Hloop.
    pose proof (retry_loop_db _ _ _ _ _ _ _ _ _ Hloop) as Hdb.
    apply retry_loop_effects in Hloop
      as (k & sl & Hk & _ & Hp & Hs & Hlen); [|lia].
    destruct r as [v|ex]; [|destruct (is_RequestException ex)];
      eexists _, _, k, sl; by split_and!.
  - eexists _, w, 0%nat, []. rewrite !app_nil_r.
    split_and!; [done..|lia|done|simpl; lia].
Qed.

(** X1.  Whatever the gateway does, [send_whatsapp_message] returns
    without raising.  It leaves the database alone, posts nothing but
    copies of the one payload it built, at most [WHATSAPP_MAX_RETRIES]
    of them and none when the dispatcher is disabled, and it sleeps
    only between two posts. *)
Theorem send_whatsapp_message_effects
    (cfg : WhatsAppConfig) (gw : Gateway) (mobile nm : string)
    (its : list (Z * Item)) (s e : date) (w : World) :
  ∃ v w' k sl,
    send_whatsapp_message cfg gw mobile nm its s e w = (Ok v, w') ∧
    w_db w' = w_db w ∧
    w_posted w'
    = (w_posted w ++ replicate k (make_payload cfg mobile nm its s e))%list ∧
    w_slept w' = (w_slept w ++ sl)%list ∧
    (k ≤ Z.to_nat (WHATSAPP_MAX_RETRIES cfg))%nat ∧
    (WHATSAPP_ENABLED cfg = false → k = 0%nat) ∧
    (length sl ≤ k - 1)%nat.
Proof. apply send_whatsapp_message_bounds. Qed.

Section RetryLoopOutcomes.
Context (gw : Gateway) (payload : Payload) (max_retries : Z).

(** How a pass can end, read off the gateway's answer. *)
Lemma attempt_body_inv attempt delay w r w' :
  attempt_body gw payload max_retries attempt delay w = (r, w') →
  match r with
  | Ok (Return (true, msg)) =>
      (∃ text, gw (length (w_posted w)) = Response 200 text) ∧
      msg = "WhatsApp message sent successfully (attempt "
            +:+ str_of_Z (attempt + 1) +:+ ")"
  | Ok (Return (false, _)) => True
  | Ok (NextAttempt _) =>
      (∃ text, gw (length (w_posted w)) = Response 429 text) ∨
      attempt < max_retries - 1
  | Raise _ => True
  end.
Proof.
  unfold attempt_body, try_except, mbind, M_bind, requests_post, time_sleep,
    mret, M_ret.
  destruct (gw (length (w_posted w))) as [st text|e]; simpl.
  - destruct (Z.eqb_spec st 200) as [->|];
      [intros; simplify_eq; by eauto|].
    destruct (Z.eqb_spec st 429) as [->|]; [|intros; by simplify_eq].
    destruct (attempt <? max_retries - 1); intros; simplify_eq; by eauto.
  - destruct (is_Timeout e); [|destruct (is_ConnectionError e)];
      try destruct (Z.ltb_spec attempt (max_retries - 1));
      intros; simplify_eq; simpl; by eauto.
Qed.

Lemma retry_loop_delivered n : ∀ attempt delay w msg w',
  retry_loop gw payload max_retries n attempt delay w
  = (Ok (Some (true, msg)), w') →
  ∃ k text,
    (k < n)%nat ∧
    gw (length (w_posted w) + k)%nat = Response 200 text ∧
    w_posted w' = (w_posted w ++ replicate (S k) payload)%list ∧
    msg = "WhatsApp message sent successfully (attempt "
          +:+ str_of_Z (attempt + Z.of_nat k + 1) +:+ ")".
Proof.
  induction n as [|n IH]; intros attempt delay w msg w'; simpl; [done|].
  unfold mbind, M_bind.
  destruct (attempt_body gw payload max_retries attempt delay w)
    as [[[v|delay']|e] w1] eqn:Hbody; [| |done].
  - intros [= -> <-]. apply attempt_body_inv in Hbody as Hinv.
    destruct Hinv as [[text Hgw] ->].
    apply attempt_body_effects in Hbody as [Hp _].
    exists 0%nat, text. rewrite Nat.add_0_r, Z.add_0_r.
    split_and!; [lia|done..].
  - intros Hrest. apply attempt_body_effects in Hbody as [Hp _].
    apply IH in Hrest as (k & text & Hk & Hgw & Hp' & ->).
    exists (S k), text. rewrite Hp, length_app in Hgw. simpl in Hgw.
    split_and!; [lia| | |].
    + by replace (length (w_posted w) + S k)%nat
        with (length (w_posted w) + 1 + k)%nat by lia.
    + by rewrite Hp', Hp, <- app_assoc.
    + do 3 f_equal. lia.
Qed.

Lemma retry_loop_exhausted n : ∀ attempt delay w w',
  ((0 < n)%nat → attempt + Z.of_nat n = max_retries) →
  retry_loop gw payload max_retries n attempt delay w = (Ok None, w') →
  w_posted w' = (w_posted w ++ replicate n payload)%list ∧
  (n = 0%nat ∨
   ∃ text, gw (length (w_posted w) + n - 1)%nat = Response 429 text).
Proof.
  induction n as [|n IH]; intros attempt delay w w' Hinv; simpl.
  - intros [= <-]. rewrite app_nil_r. by eauto.
  - unfold mbind, M_bind.
    destruct (attempt_body gw payload max_retries attempt delay w)
      as [[[v|delay']|e] w1] eqn:Hbody; [done| |done].
    intros Hrest. apply attempt_body_inv in Hbody as Hlast.
    apply attempt_body_effects in Hbody as [Hp _].
    apply IH in Hrest as [Hp' Hn]; [|lia].
    split; [by rewrite Hp', Hp, <- app_assoc|]. right.
    destruct Hn as [->|[text Hgw]].
    + destruct Hlast as [[text Hgw]|Hlt]; [|lia].
      exists text. by rewrite Nat.add_sub.
    + exists text. rewrite Hp, length_app in Hgw. simpl in Hgw.
      destruct n as [|n]; [|].
      * replace (length (w_posted w) + 1 - 1)%nat
          with (length (w_posted w) + 1 + 0 - 1)%nat by lia. done.
      * by replace (length (w_posted w) + S (S n) - 1)%nat
          with (length (w_posted w) + 1 + S n - 1)%nat by lia.
Qed.
End RetryLoopOutcomes.

Lemma send_delivered_inv
    (cfg : WhatsAppConfig) (gw : Gateway) (mobile nm : string)
    (its : list (Z * Item)) (s e : date) (w w' : World) (msg : string) :
  send_whatsapp_message cfg gw mobile nm its s e w
  = (Ok (Some (true, msg)), w') →
  WHATSAPP_ENABLED cfg = true ∧
  ∃ k text,
    (k < Z.to_nat (WHATSAPP_MAX_RETRIES cfg))%nat ∧
    gw (length (w_posted w) + k)%nat = Response 200 text ∧
    w_posted w'
    = (w_posted w
       ++ replicate (S k) (make_payload cfg mobile nm its s e))%list ∧
    msg = "WhatsApp message sent successfully (attempt "
          +:+ str_of_Z (Z.of_nat k + 1) +:+ ")".
Proof.
  unfold send_whatsapp_message, try_except.
  destruct (WHATSAPP_ENABLED cfg); simpl; [|done].
  destruct (retry_loop _ _ _ _ _ _ w) as [[v|ex] w1] eqn:Hloop.
  - intros [= -> <-]. split; [done|].
    by apply retry_loop_delivered in Hloop.
  - by destruct (is_RequestException ex).
Qed.

(** X2.  [send_whatsapp_message] reports a delivery only when the
    gateway answered 200: if it returns [(True, msg)], the dispatcher
    is enabled, the last request it posted -- the [k+1]-th, within the
    allowed attempts -- got status 200, and [msg] names that
    attempt. *)
Theorem delivered_only_on_200
    (cfg : WhatsAppConfig) (gw : Gateway) (mobile nm : string)
    (its : list (Z * Item)) (s e : date) (w w' : World) (msg : string) :
  send_whatsapp_message cfg gw mobile nm its s e w
  = (Ok (Some (true, msg)), w') →
  WHATSAPP_ENABLED cfg = true ∧
  ∃ k text,
    (k < Z.to_nat (WHATSAPP_MAX_RETRIES cfg))%nat ∧
    gw (length (w_posted w) + k)%nat = Response 200 text ∧
    w_posted w'
    = (w_posted w
       ++ replicate (S k) (make_payload cfg mobile nm its s e))%list ∧
    msg = "WhatsApp message sent successfully (attempt "
          +:+ str_of_Z (Z.of_nat k + 1) +:+ ")".
Proof. apply send_delivered_inv. Qed.

(** X3.  [send_whatsapp_message] ends without a [return] (its caller
    gets [None]) only when the dispatcher is enabled and every allowed
    attempt was made with the last one answered by 429 -- or when no
    attempt is allowed at all. *)
Theorem returns_None_only_when_rate_limited
    (cfg : WhatsAppConfig) (gw : Gateway) (mobile nm : string)
    (its : list (Z * Item)) (s e : date) (w w' : World) :
  send_whatsapp_message cfg gw mobile nm its s e w = (Ok None, w') →
  let n := Z.to_nat (WHATSAPP_MAX_RETRIES cfg) in
  WHATSAPP_ENABLED cfg = true ∧
  w_posted w'
  = (w_posted w ++ replicate n (make_payload cfg mobile nm its s e))%list ∧
  (WHATSAPP_MAX_RETRIES cfg ≤ 0 ∨
   ∃ text, gw (length (w_posted w) + n - 1)%nat = Response 429 text).
Proof.
  unfold send_whatsapp_message, try_except.
  destruct (WHATSAPP_ENABLED cfg); simpl; [|done].
  destruct (retry_loop _ _ _ _ _ _ w) as [[v|ex] w1] eqn:Hloop.
  - intros [= -> <-]. apply retry_loop_exhausted in Hloop as [Hp Hn]; [|lia].
    split_and!; [done..|]. destruct Hn as [Hn|?]; [left; lia|by right].
  - by destruct (is_RequestException ex).
Qed.

Section PersistentFailures.
Context (gw : Gateway) (payload : Payload) (max_retries : Z).

Lemma retry_loop_S k attempt delay :
  retry_loop gw payload max_retries (S k) attempt delay
  = (step ← attempt_body gw payload max_retries attempt delay;
     match step with
     | Return v => mret (Some v)
     | NextAttempt delay' =>
         retry_loop gw payload max_retries k (attempt + 1) delay'
     end).
Proof. reflexivity. Qed.

(** A pass whose request raises [ex], a timeout or a connection error:
    on the last attempt it gives up, before it it sleeps and goes
    on. *)
Lemma attempt_body_raises attempt delay w ex :
  gw (length (w_posted w)) = PostRaises ex →
  is_Timeout ex = true ∨ is_ConnectionError ex = true →
  attempt_body gw payload max_retries attempt delay w
  = (if attempt <? max_retries - 1 then
       Ok (NextAttempt
             (if is_Timeout ex then (delay * Q2Qc 1.5)%Qc else delay))
     else
       Ok (Return
             (false,
              (if is_Timeout ex then "WhatsApp API timeout after "
               else "WhatsApp API connection failed after ")
              +:+ str_of_Z max_retries +:+ " attempts")),
     mk_world (w_db w) (w_posted w ++ [payload])
       (if attempt <? max_retries - 1 then w_slept w ++ [delay]
        else w_slept w)).
Proof.
  intros Hex Hcls. unfold attempt_body, try_except, mbind, M_bind,
    requests_post, time_sleep, mret, M_ret. rewrite Hex.
  destruct (is_Timeout ex).
  - by destruct (attempt <? max_retries - 1).
  - destruct Hcls as [?|Hce]; [done|]. rewrite Hce.
    by destruct (attempt <? max_retries - 1).
Qed.

(** A pass whose request is answered by 429. *)
Lemma attempt_body_429 attempt delay w text :
  gw (length (w_posted w)) = Response 429 text →
  attempt_body gw payload max_retries attempt delay w
  = (Ok (NextAttempt delay),
     mk_world (w_db w) (w_posted w ++ [payload])
       (if attempt <? max_retries - 1 then w_slept w ++ [(delay * 2)%Qc]
        else w_slept w)).
Proof.
  intros Hgw. unfold attempt_body, try_except, mbind, M_bind,
    requests_post, time_sleep, mret, M_ret. rewrite Hgw. simpl.
  by destruct (attempt <? max_retries - 1).
Qed.

Lemma retry_loop_timeouts n : ∀ attempt delay w,
  attempt + Z.of_nat (S n) = max_retries →
  (∀ j, (j ≤ n)%nat →
        ∃ ex, gw (length (w_posted w) + j)%nat = PostRaises ex ∧
              is_Timeout ex = true) →
  retry_loop gw payload max_retries (S n) attempt delay w
  = (Ok (Some (false,
               "WhatsApp API timeout after "
               +:+ str_of_Z max_retries +:+ " attempts")),
     mk_world (w_db w) (w_posted w ++ replicate (S n) payload)
       (w_slept w ++ backoff_delays delay n)).
Proof.
  induction n as [|n IH]; intros attempt delay w Hinv Hgw;
    destruct (Hgw 0%nat) as (ex & Hex & Hto); try lia;
    rewrite Nat.add_0_r in Hex;
    pose proof (attempt_body_raises attempt delay w ex Hex (or_introl Hto))
      as Hbody;
    rewrite Hto in Hbody; rewrite retry_loop_S.
  - destruct (Z.ltb_spec attempt (max_retries - 1)); [lia|].
    rewrite (bind_ok _ _ _ _ _ Hbody). simpl. by rewrite app_nil_r.
  - destruct (Z.ltb_spec attempt (max_retries - 1)); [|lia].
    rewrite (bind_ok _ _ _ _ _ Hbody).
    rewrite IH; [| lia |].
    + cbn [w_db w_posted w_slept backoff_delays replicate].
      by rewrite <- !app_assoc.
    + intros j Hj. cbn [w_posted]. rewrite length_app. simpl.
      destruct (Hgw (S j)) as (ex' & Hex' & Hto'); [lia|].
      exists ex'. split; [|done].
      by replace (length (w_posted w) + 1 + j)%nat
        with (length (w_posted w) + S j)%nat by lia.
Qed.

Lemma retry_loop_connection_errors n : ∀ attempt delay w,
  attempt + Z.of_nat (S n) = max_retries →
  (∀ j, (j ≤ n)%nat →
        ∃ ex, gw (length (w_posted w) + j)%nat = PostRaises ex ∧
              is_Timeout ex = false ∧ is_ConnectionError ex = true) →
  retry_loop gw payload max_retries (S n) attempt delay w
  = (Ok (Some (false,
               "WhatsApp API connection failed after "
               +:+ str_of_Z max_retries +:+ " attempts")),
     mk_world (w_db w) (w_posted w ++ replicate (S n) payload)
       (w_slept w ++ replicate n delay)).
Proof.
  induction n as [|n IH]; intros attempt delay w Hinv Hgw;
    destruct (Hgw 0%nat) as (ex & Hex & Hto & Hce); try lia;
    rewrite Nat.add_0_r in Hex;
    pose proof (attempt_body_raises attempt delay w ex Hex (or_intror Hce))
      as Hbody;
    rewrite Hto in Hbody; rewrite retry_loop_S.
  - destruct (Z.ltb_spec attempt (max_retries - 1)); [lia|].
    rewrite (bind_ok _ _ _ _ _ Hbody). simpl. by rewrite app_nil_r.
  - destruct (Z.ltb_spec attempt (max_retries - 1)); [|lia].
    rewrite (bind_ok _ _ _ _ _ Hbody).
    rewrite IH; [| lia |].
    + cbn [w_db w_posted w_slept replicate].
      by rewrite <- !app_assoc.
    + intros j Hj. cbn [w_posted]. rewrite length_app. simpl.
      destruct (Hgw (S j)) as (ex' & Hex' & Hto' & Hce'); [lia|].
      exists ex'. split; [|done].
      by replace (length (w_posted w) + 1 + j)%nat
        with (length (w_posted w) + S j)%nat by lia.
Qed.

Lemma retry_loop_rate_limited n : ∀ attempt delay w,
  attempt + Z.of_nat (S n) = max_retries →
  (∀ j, (j ≤ n)%nat →
        ∃ text, gw (length (w_posted w) + j)%nat = Response 429 text) →
  retry_loop gw payload max_retries (S n) attempt delay w
  = (Ok None,
     mk_world (w_db w) (w_posted w ++ replicate (S n) payload)
       (w_slept w ++ replicate n (delay * 2)%Qc)).
Proof.
  induction n as [|n IH]; intros attempt delay w Hinv Hgw;
    destruct (Hgw 0%nat) as (text & Hex); try lia;
    rewrite Nat.add_0_r in Hex;
    pose proof (attempt_body_429 attempt delay w text Hex) as Hbody;
    rewrite retry_loop_S, (bind_ok _ _ _ _ _ Hbody).
  - destruct (Z.ltb_spec attempt (max_retries - 1)); [lia|].
    simpl. by rewrite app_nil_r.
  - destruct (Z.ltb_spec attempt (max_retries - 1)); [|lia].
    rewrite IH; [| lia |].
    + cbn [w_db w_posted w_slept replicate].
      by rewrite <- !app_assoc.
    + intros j Hj. cbn [w_posted]. rewrite length_app. simpl.
      destruct (Hgw (S j)) as (text' & Hex'); [lia|].
      exists text'.
      by replace (length (w_posted w) + 1 + j)%nat
        with (length (w_posted w) + S j)%nat by lia.
Qed.
End PersistentFailures.

Section Exhaustion.
Context (cfg : WhatsAppConfig) (gw : Gateway) (mobile nm : string)
        (its : list (Z * Item)) (s e : date) (w : World) (n : nat).

Hypothesis H_enabled : WHATSAPP_ENABLED cfg = true.
Hypothesis H_retries : WHATSAPP_MAX_RETRIES cfg = Z.of_nat (S n).

(** X4.  When every one of the [N] allowed attempts times out,
    [send_whatsapp_message] returns [(False, "WhatsApp API timeout
    after N attempts")] after exactly [N] requests; between them it
    sleeps [N - 1] times, 2 seconds at first and each time one and a
    half times longer than before.  Stated for [N ≤ 35]: up to there
    every delay, [3^k / 2^(k-1)] seconds with [k ≤ 33], is a float
    without rounding. *)
Theorem persistent_timeouts_back_off :
  (n ≤ 34)%nat →
  (∀ j, (j ≤ n)%nat →
        ∃ ex, gw (length (w_posted w) + j)%nat = PostRaises ex ∧
              is_Timeout ex = true) →
  send_whatsapp_message cfg gw mobile nm its s e w
  = (Ok (Some (false,
               "WhatsApp API timeout after "
               +:+ str_of_Z (WHATSAPP_MAX_RETRIES cfg) +:+ " attempts")),
     mk_world (w_db w)
       (w_posted w ++ replicate (S n) (make_payload cfg mobile nm its s e))
       (w_slept w ++ backoff_delays (Q2Qc 2) n)).
Proof.
  intros _ Hgw. unfold send_whatsapp_message.
  apply try_except_ok. rewrite H_enabled. cbn [negb]. cbv zeta.
  rewrite H_retries, Nat2Z.id.
  rewrite retry_loop_timeouts; [done|lia|done].
Qed.

(** X5.  When every one of the [N] allowed attempts fails to connect,
    [send_whatsapp_message] returns [(False, "WhatsApp API connection
    failed after N attempts")] after exactly [N] requests, with
    [N - 1] sleeps of 2 seconds each: this branch does not back
    off. *)
Theorem persistent_connection_errors_do_not_back_off :
  (∀ j, (j ≤ n)%nat →
        ∃ ex, gw (length (w_posted w) + j)%nat = PostRaises ex ∧
              is_Timeout ex = false ∧ is_ConnectionError ex = true) →
  send_whatsapp_message cfg gw mobile nm its s e w
  = (Ok (Some (false,
               "WhatsApp API connection failed after "
               +:+ str_of_Z (WHATSAPP_MAX_RETRIES cfg) +:+ " attempts")),
     mk_world (w_db w)
       (w_posted w ++ replicate (S n) (make_payload cfg mobile nm its s e))
       (w_slept w ++ replicate n (Q2Qc 2))).
Proof.
  intros Hgw. unfold send_whatsapp_message.
  apply try_except_ok. rewrite H_enabled. cbn [negb]. cbv zeta.
  rewrite H_retries, Nat2Z.id.
  rewrite retry_loop_connection_errors; [done|lia|done].
Qed.

(** X6.  When every one of the [N] allowed attempts is answered by
    429, [send_whatsapp_message] makes exactly [N] requests, sleeps
    4 seconds after each but the last, and then returns [None]. *)
Theorem persistent_rate_limit_returns_None :
  (∀ j, (j ≤ n)%nat →
        ∃ text, gw (length (w_posted w) + j)%nat = Response 429 text) →
  send_whatsapp_message cfg gw mobile nm its s e w
  = (Ok None,
     mk_world (w_db w)
       (w_posted w ++ replicate (S n) (make_payload cfg mobile nm its s e))
       (w_slept w ++ replicate n (Q2Qc 2 * 2)%Qc)).
Proof.
  intros Hgw. unfold send_whatsapp_message.
  apply try_except_ok. rewrite H_enabled. cbn [negb]. cbv zeta.
  rewrite H_retries, Nat2Z.id.
  rewrite retry_loop_rate_limited; [done|lia|done].
Qed.
End Exhaustion.

(** ** The mobile number sent to the gateway *)

Section CleanMobile.

Lemma is_plus_eq (c : ascii) : Ascii.eqb c "+"%char = true ↔ c = "+"%char.
Proof. apply Ascii.eqb_eq. Qed.

(** X7.  For a farmer's number written in ASCII, the number that
    [send_whatsapp_message] posts keeps every digit, in order, and
    nothing else but [+] signs; one leading [+] is removed.  It is
    digits only when the input has no [+], or only the one that comes
    before everything else that is kept. *)
Theorem clean_mobile_keeps_the_digits (farmer_mobile : string) :
  ascii_only farmer_mobile →
  let kept :=
    filter (λ c, is_digit c || Ascii.eqb c "+"%char = true)
      (list_ascii_of_string farmer_mobile) in
  let cleaned := list_ascii_of_string (clean_mobile farmer_mobile) in
  Forall (λ c, is_digit c = true ∨ c = "+"%char) cleaned ∧
  filter (λ c, is_digit c = true) cleaned
  = filter (λ c, is_digit c = true) (list_ascii_of_string farmer_mobile) ∧
  ("+"%char ∉ list_ascii_of_string farmer_mobile →
   Forall (λ c, is_digit c = true) cleaned) ∧
  (∀ rest, kept = "+"%char :: rest → "+"%char ∉ rest →
           Forall (λ c, is_digit c = true) cleaned).
Proof.
  intros _. simpl. unfold clean_mobile.
  set (l := list_ascii_of_string farmer_mobile).
  set (kept := filter _ l).
  assert (Forall (λ c, is_digit c = true ∨ c = "+"%char) kept) as Hkept.
  { apply list.Forall_forall. intros c [Hc _]%list_elem_of_filter.
    apply orb_true_iff in Hc as [?|?%is_plus_eq]; by eauto. }
  assert (filter (λ c, is_digit c = true) kept
          = filter (λ c, is_digit c = true) l) as Hdigits.
  { subst kept. clear Hkept. induction l as [|c l IH]; [done|].
    destruct (is_digit c) eqn:Hc.
    - rewrite (filter_cons_True _ c l) by (by rewrite Hc).
      rewrite !(filter_cons_True (λ c, is_digit c = true)) by done.
      by rewrite IH.
    - rewrite (filter_cons_False (λ c, is_digit c = true) c l)
        by (by rewrite Hc).
      destruct (Ascii.eqb c "+") eqn:Hp.
      + rewrite (filter_cons_True _ c l) by (by rewrite Hc, Hp).
        by rewrite filter_cons_False by (by rewrite Hc).
      + by rewrite (filter_cons_False _ c l) by (by rewrite Hc, Hp). }
  assert (∀ k, "+"%char ∉ k →
               Forall (λ c, is_digit c = true ∨ c = "+"%char) k →
               Forall (λ c, is_digit c = true) k) as Hnoplus.
  { intros k Hk Hall. apply list.Forall_forall. intros c Hc.
    rewrite list.Forall_forall in Hall.
    destruct (Hall c Hc) as [?|Heq]; [done|by subst]. }
  destruct kept as [|c rest] eqn:Hk.
  - simpl. split_and!; [done|by rewrite <- Hdigits|done|done].
  - destruct (Ascii.eqb c "+") eqn:Hp.
    + apply is_plus_eq in Hp as ->.
      rewrite list_ascii_of_string_of_list_ascii.
      apply list.Forall_cons in Hkept as [_ Hrest].
      split_and!; [done| | |].
      * rewrite <- Hdigits. by rewrite filter_cons_False.
      * intros Hno. exfalso. apply Hno.
        assert ("+"%char ∈ filter
                  (λ c, is_digit c || Ascii.eqb c "+"%char = true) l)
          as Hin by (fold kept in Hk |- *; rewrite Hk; by left).
        by apply list_elem_of_filter in Hin as [_ ?].
      * intros rest' [= <-] Hno. by apply Hnoplus.
    + rewrite list_ascii_of_string_of_list_ascii.
      split_and!; [done|done| |by intros rest' [= -> _]; rewrite Ascii.eqb_refl in Hp].
      intros Hno. apply Hnoplus; [|done].
      intros Hin. apply Hno.
      assert ("+"%char ∈ filter
                (λ c, is_digit c || Ascii.eqb c "+"%char = true) l)
        as Hin' by (fold kept in Hk |- *; by rewrite Hk).
      by apply list_elem_of_filter in Hin' as [_ ?].
Qed.
End CleanMobile.

(** ** The claim endpoint: what a response tells *)

Section ItemDatesFrame.

(** The loop over the items, however it ends: it writes rows of
    [recommendation_items] with the ids of the list and nothing
    else. *)
Lemma update_item_dates_frame (l : list (Z * Item)) (s : date) (t : Z) :
  ∀ w r w',
    update_item_dates l s t w = (r, w') →
    recommendations (w_db w') = recommendations (w_db w) ∧
    farmers (w_db w') = farmers (w_db w) ∧
    w_posted w' = w_posted w ∧ w_slept w' = w_slept w ∧
    ∀ id, id ∉ l.*1 → items (w_db w') !! id = items (w_db w) !! id.
Proof.
  induction l as [|[id0 it0] rest IH]; intros w r w'; simpl.
  - by intros [= <- <-].
  - unfold mbind, M_bind, lift, db_write, update_recommendation_item_dates.
    destruct (days_minus_one (treatment_days it0)) as [n|ex];
      [|by intros [= <- <-]].
    destruct (add_days s n) as [e0|ex]; [|by intros [= <- <-]].
    destruct (items (w_db w) !! id0) as [it|] eqn:Hit.
    + set (w1 := mk_world _ _ _). intros Hrest.
      apply IH in Hrest as (Hrecs & Hfarm & Hp & Hs & Hother).
      split_and!; [done..|].
      intros id [Hne Hid]%not_elem_of_cons. rewrite Hother by done.
      subst w1. simpl. by rewrite lookup_insert_ne.
    + set (w1 := mk_world _ _ _). intros Hrest.
      apply IH in Hrest as (Hrecs & Hfarm & Hp & Hs & Hother).
      split_and!; [done..|].
      intros id [Hne Hid]%not_elem_of_cons. by rewrite Hother.
Qed.
End ItemDatesFrame.

(** The endings of the endpoint: a rejection or an exception before the
    claim, with nothing done; a lost race; an exception in the loop
    over the items, with the claim committed; the success. *)
Lemma route_cases env rid w resp w' :
  claim_recommendation_route env rid w = (resp, w') →
  let others := run_ops (concurrent env) (w_db w) in
  ((status resp = 401 ∨ status resp = 404 ∨ status resp = 400 ∨
    status resp = 500) ∧ w' = w) ∨
  (status resp = 500 ∧ w' = mk_world others (w_posted w) (w_slept w)) ∨
  (status resp = 500 ∧
   ∃ shop db1 s ex,
     truthy_Z (session_shop_id env) = Some shop ∧
     claim_recommendation rid shop (Some (request_notes env)) (now env) others
     = (db1, true) ∧
     update_item_dates
       (get_recommendation_items_by_recommendation_id (w_db w) rid) s (now env)
       (mk_world db1 (w_posted w) (w_slept w)) = (Raise ex, w')) ∨
  status resp = 200.
Proof.
  assert (∀ (c : Z) (msg : string) (v : World),
            c = 401 ∨ c = 404 ∨ c = 400 ∨ c = 500 →
            (error_response c msg, v) = (resp, w') → v = w →
            (status resp = 401 ∨ status resp = 404 ∨ status resp = 400 ∨
             status resp = 500) ∧ w' = w) as Hearly.
  { intros c msg v Hc [= <- <-] ->. by simpl. }
  unfold claim_recommendation_route, route_body. cbv zeta.
  destruct (truthy_Z (session_shop_id env)) as [shop|] eqn:H_session;
    [|intros H; left; eapply Hearly; [|exact H|done]; lia].
  run_bind. unfold db_read at 1. run_step.
  destruct (get_recommendation_by_id (w_db w) rid) as [recommendation|];
    [|intros H; left; eapply Hearly; [|exact H|done]; lia].
  destruct (is_claimed recommendation);
    [intros H; left; eapply Hearly; [|exact H|done]; lia|].
  run_step.
  destruct (truthy_str (json_start_date (request_data env)))
    as [start_date_str|];
    [|intros H; left; eapply Hearly; [|exact H|done]; lia].
  destruct (strptime_ymd start_date_str) as [s|ex];
    [|destruct (exn_cls ex); intros H; left;
      (eapply Hearly; [|exact H|done]; lia)].
  unfold claim_validated. run_bind. unfold db_read at 1. run_step.
  destruct (get_recommendation_items_by_recommendation_id (w_db w) rid)
    as [|item rest] eqn:H_items;
    [intros H; left; eapply Hearly; [|exact H|done]; lia|].
  set (its := item :: rest) in *. run_step.
  run_bind. unfold lift at 1.
  destruct (py_max (usable_treatment_days its)) as [m|ex];
    [|intros H; left; eapply Hearly; [|exact H|done]; lia].
  run_step. run_bind. unfold lift at 1.
  destruct (add_days s (m - 1)) as [e|ex];
    [|intros H; left; eapply Hearly; [|exact H|done]; lia].
  run_step. unfold claim_scheduled.
  run_bind. unfold others_commit at 1. run_step.
  run_bind. unfold db_write at 1. simpl w_db.
  fold (request_notes env).
  destruct (claim_recommendation rid shop (Some (request_notes env)) (now env)
              (run_ops (concurrent env) (w_db w))) as [db1 won] eqn:H_won.
  destruct won.
  2:{ intros [= <- <-]. right; left. split; [done|].
      apply (f_equal fst) in H_won as Hdb. simpl in Hdb.
      rewrite claim_recommendation_false_unchanged in Hdb
        by (by rewrite H_won).
      by subst db1. }
  cbn [negb w_posted w_slept]. run_step. run_bind.
  destruct (update_item_dates its s (now env) _) as [[[]|ex] w2] eqn:H_dates.
  2:{ intros [= <- <-]. right; right; left. split; [done|].
      exists shop, db1, s, ex. by split_and!. }
  run_step. run_bind.
  destruct (notify_farmer_total env recommendation its s e w2)
    as (sent & msg & w3' & H_notify & Hdb).
  rewrite H_notify. run_step. run_bind. unfold db_read at 1. run_step.
  destruct (committed_state env rid w shop _ its s db1 w2 H_items H_won H_dates)
    as ([r Hrow] & _).
  unfold get_recommendation_by_id at 1. rewrite Hdb, Hrow.
  intros [= <- <-]. by right; right; right.
Qed.

(** The row of a request answered 200, and the world it leaves. *)
Lemma route_success_row env rid w resp w' :
  claim_recommendation_route env rid w = (resp, w') →
  status resp = 200 →
  ∃ shop r0,
    truthy_Z (session_shop_id env) = Some shop ∧
    recommendations (w_db w') !! rid
    = Some (claimed_row r0 shop (Some (request_notes env)) (now env)).
Proof.
  intros Hroute H200.
  destruct (route_success_inv env rid w resp w' Hroute H200)
    as (shop & recommendation & start_date_str & s & its & m & e & db1 & w2
        & sent & msg & H_session & _ & _ & _ & _ & H_items & _ & _ & _
        & H_won & H_dates & H_notify & _).
  destruct (committed_state env rid w shop _ its s db1 w2 H_items H_won H_dates)
    as ([r0 Hrow] & _).
  apply notify_farmer_db in H_notify as [_ Hdb].
  exists shop, r0. by rewrite Hdb.
Qed.

(** A request for a recommendation that is read claimed. *)
Lemma route_already_claimed env rid w r :
  get_recommendation_by_id (w_db w) rid = Some r →
  is_claimed r = true →
  claim_recommendation_route env rid w
  = (match truthy_Z (session_shop_id env) with
     | Some _ => error_response 400 "Recommendation already claimed"
     | None => error_response 401 "Shop not logged in"
     end, w).
Proof.
  intros Hr Hc. unfold claim_recommendation_route, route_body.
  destruct (truthy_Z (session_shop_id env)); [|done].
  run_bind. unfold db_read at 1. run_step. by rewrite Hr, Hc.
Qed.

(** X8.  The endpoint answers with one of the statuses 200, 400, 401,
    404 and 500; and with 400, 401 or 404 it has done nothing: no row
    is written, no request goes to the gateway, no sleep is taken. *)
Theorem rejections_change_nothing (env : Env) (rid : Z) (w : World) :
  let r := claim_recommendation_route env rid w in
  (status r.1 = 200 ∨ status r.1 = 400 ∨ status r.1 = 401 ∨
   status r.1 = 404 ∨ status r.1 = 500) ∧
  (status r.1 = 400 ∨ status r.1 = 401 ∨ status r.1 = 404 → r.2 = w).
Proof.
  destruct (claim_recommendation_route env rid w) as [resp w'] eqn:Hroute.
  simpl. apply route_cases in Hroute.
  destruct Hroute as [[Hs ->]|[[Hs _]|[[Hs _]|Hs]]]; split; try lia; done.
Qed.

(** X9.  The gateway is contacted only for claims that are answered
    200: with any other status, no request was posted and no sleep
    taken. *)
Theorem nothing_sent_unless_claimed (env : Env) (rid : Z) (w : World) :
  let r := claim_recommendation_route env rid w in
  status r.1 ≠ 200 →
  w_posted r.2 = w_posted w ∧ w_slept r.2 = w_slept w.
Proof.
  destruct (claim_recommendation_route env rid w) as [resp w'] eqn:Hroute.
  simpl. intros Hnot. apply route_cases in Hroute.
  destruct Hroute
    as [[_ ->]|[[_ ->]|[(_ & shop & db1 & s & ex & _ & _ & Hdates)|Hs]]];
    [done|done| |done].
  by apply update_item_dates_frame in Hdates as (_ & _ & ? & ? & _).
Qed.

(** X10.  A 200 means the claim is committed for the caller: in the
    database after the request the recommendation is claimed, by the
    shop of the session, at the time of the request and with the notes
    of the request; the response names the same shop and time. *)
Theorem success_commits_for_the_caller (env : Env) (rid : Z) (w : World) :
  let r := claim_recommendation_route env rid w in
  status r.1 = 200 →
  ∃ shop row result,
    truthy_Z (session_shop_id env) = Some shop ∧
    recommendations (w_db r.2) !! rid = Some row ∧
    is_claimed row = true ∧
    claimed_by_shop_id row = Some shop ∧
    claimed_at row = Some (now env) ∧
    claim_notes row = Some (request_notes env) ∧
    body r.1 = ResultBody result ∧
    res_recommendation_id result = rid ∧
    res_shop_id result = shop ∧
    res_claimed_at result = now env.
Proof.
  destruct (claim_recommendation_route env rid w) as [resp w'] eqn:Hroute.
  simpl. intros H200.
  destruct (route_success_row env rid w resp w' Hroute H200)
    as (shop & r0 & H_session & Hrow).
  destruct (route_success_inv env rid w resp w' Hroute H200)
    as (shop' & recommendation & start_date_str & s & its & m & e & db1 & w2
        & sent & msg & H_session' & _ & _ & _ & _ & _ & _ & _ & _
        & _ & _ & _ & ->).
  assert (shop' = shop) as -> by congruence.
  eexists shop, _, _. by split_and!.
Qed.

(** X11.  After a claim answered 200, every later claim request for
    the same recommendation is turned away with nothing done: with 400
    "Recommendation already claimed" for a logged-in shop, with 401
    otherwise. *)
Theorem second_claim_is_rejected (env env2 : Env) (rid : Z) (w : World) :
  let r := claim_recommendation_route env rid w in
  status r.1 = 200 →
  claim_recommendation_route env2 rid r.2
  = (match truthy_Z (session_shop_id env2) with
     | Some _ => error_response 400 "Recommendation already claimed"
     | None => error_response 401 "Shop not logged in"
     end, r.2).
Proof.
  destruct (claim_recommendation_route env rid w) as [resp w'] eqn:Hroute.
  simpl. intros H200.
  destruct (route_success_row env rid w resp w' Hroute H200)
    as (shop & r0 & _ & Hrow).
  by eapply route_already_claimed.
Qed.

(** X12.  A claim request writes no item of another recommendation
    and no farmer, however it ends. *)
Theorem other_items_untouched (env : Env) (rid : Z) (w : World) :
  let r := claim_recommendation_route env rid w in
  farmers (w_db r.2) = farmers (w_db w) ∧
  ∀ id it,
    items (w_db w) !! id = Some it → recommendation_id it ≠ rid →
    items (w_db r.2) !! id = Some it.
Proof.
  destruct (claim_recommendation_route env rid w) as [resp w'] eqn:Hroute.
  simpl.
  assert (∀ shop notes db1 s r2 w2,
            claim_recommendation rid shop notes (now env)
              (run_ops (concurrent env) (w_db w)) = (db1, true) →
            update_item_dates
              (get_recommendation_items_by_recommendation_id (w_db w) rid)
              s (now env) (mk_world db1 (w_posted w) (w_slept w)) = (r2, w2) →
            farmers (w_db w2) = farmers (w_db w) ∧
            ∀ id it,
              items (w_db w) !! id = Some it → recommendation_id it ≠ rid →
              items (w_db w2) !! id = Some it) as Hcommitted.
  { intros shop notes db1 s r2 w2 Hwon Hdates.
    pose proof (claim_recommendation_items rid shop notes (now env)
                  (run_ops (concurrent env) (w_db w))) as Hitems.
    pose proof (claim_recommendation_farmers rid shop notes (now env)
                  (run_ops (concurrent env) (w_db w))) as Hfarmers.
    rewrite Hwon in Hitems, Hfarmers. simpl in Hitems, Hfarmers.
    rewrite run_ops_items in Hitems. rewrite run_ops_farmers in Hfarmers.
    apply update_item_dates_frame in Hdates as (_ & Hf & _ & _ & Hother).
    simpl in *. split; [congruence|].
    intros id it Hit Hrid. rewrite Hother, Hitems; [done|].
    intros ([id' it'] & -> & Hin)%list_elem_of_fmap.
    apply items_query_elem in Hin as [Hit' Hrid']. simpl in *. congruence. }
  destruct (decide (status resp = 200)) as [H200|Hnot].
  - destruct (route_success_inv env rid w resp w' Hroute H200)
      as (shop & recommendation & start_date_str & s & its & m & e & db1 & w2
          & sent & msg & _ & _ & _ & _ & _ & H_items & _ & _ & _
          & H_won & H_dates & H_notify & _).
    apply notify_farmer_db in H_notify as [_ Hdb]. rewrite Hdb.
    subst its. by eapply Hcommitted.
  - apply route_cases in Hroute.
    destruct Hroute
      as [[_ ->]|[[_ ->]|[(_ & shop & db1 & s & ex & _ & Hwon & Hdates)|Hs]]];
      [done| |by eapply Hcommitted|done].
    simpl. by rewrite run_ops_farmers, run_ops_items.
Qed.

Section NotifyEffects.
Context (env : Env) (recommendation : Recommendation)
        (its : list (Z * Item)) (s e : date).

(** The notification block posts what the dispatcher posts. *)
Lemma notify_farmer_posts w r w' :
  notify_farmer env recommendation its s e w = (r, w') →
  ∃ k payload,
    (k ≤ Z.to_nat (WHATSAPP_MAX_RETRIES (config env)))%nat ∧
    w_posted w' = (w_posted w ++ replicate k payload)%list.
Proof.
  unfold notify_farmer, try_except, mbind, M_bind, db_read. simpl.
  destruct (get_farmer_by_id _ _) as [f|].
  2:{ intros [= <- <-]. exists 0%nat, (make_payload (config env) "" "" [] s e).
      rewrite app_nil_r. split; [lia|done]. }
  destruct (truthy_str (mobile_no f)) as [mobile|].
  2:{ intros [= <- <-]. exists 0%nat, (make_payload (config env) "" "" [] s e).
      rewrite app_nil_r. split; [lia|done]. }
  destruct (send_whatsapp_message_bounds (config env) (gateway env) mobile
              (name f) its s e w)
    as (v & w1 & k & sl & Hsend & _ & Hp & _ & Hk & _).
  rewrite Hsend.
  destruct v as [[sent msg]|]; simpl; intros [= <- <-]; by eauto.
Qed.

(** A delivery is reported only for a farmer with a mobile number and
    a request that the gateway answered with 200. *)
Lemma notify_farmer_delivered w msg w' :
  notify_farmer env recommendation its s e w = (Ok (true, msg), w') →
  ∃ f mobile k text,
    get_farmer_by_id (w_db w) (farmer_id recommendation) = Some f ∧
    truthy_str (mobile_no f) = Some mobile ∧
    WHATSAPP_ENABLED (config env) = true ∧
    (k < Z.to_nat (WHATSAPP_MAX_RETRIES (config env)))%nat ∧
    gateway env (length (w_posted w) + k)%nat = Response 200 text ∧
    w_posted w'
    = (w_posted w
       ++ replicate (S k)
            (make_payload (config env) mobile (name f) its s e))%list.
Proof.
  unfold notify_farmer, try_except, mbind, M_bind, db_read. simpl.
  destruct (get_farmer_by_id _ _) as [f|] eqn:Hf; [|done].
  destruct (truthy_str (mobile_no f)) as [mobile|] eqn:Hmobile; [|done].
  destruct (send_whatsapp_message _ _ _ _ _ _ _ w)
    as [[[[sent msg']|]|ex] w1] eqn:Hsend; simpl; [|done..].
  intros [= -> -> <-].
  apply send_delivered_inv in Hsend as (Hon & k & text & Hk & Hgw & Hp & _).
  exists f, mobile, k, text. by split_and!.
Qed.
End NotifyEffects.

(** X13.  One claim request sends at most [WHATSAPP_MAX_RETRIES]
    requests to the gateway, all with the same payload. *)
Theorem claim_posts_are_bounded (env : Env) (rid : Z) (w : World) :
  let r := claim_recommendation_route env rid w in
  ∃ k payload,
    (k ≤ Z.to_nat (WHATSAPP_MAX_RETRIES (config env)))%nat ∧
    w_posted r.2 = (w_posted w ++ replicate k payload)%list.
Proof.
  destruct (claim_recommendation_route env rid w) as [resp w'] eqn:Hroute.
  simpl.
  assert (∀ v : World, w_posted v = w_posted w →
            ∃ k (payload : Payload),
              (k ≤ Z.to_nat (WHATSAPP_MAX_RETRIES (config env)))%nat ∧
              w_posted v = (w_posted w ++ replicate k payload)%list) as Hnone.
  { intros v ->. exists 0%nat, (mk_payload "" "" "" "" "" "" "" "" "" "").
    rewrite app_nil_r. split; [lia|done]. }
  destruct (decide (status resp = 200)) as [H200|Hnot].
  - destruct (route_success_inv env rid w resp w' Hroute H200)
      as (shop & recommendation & start_date_str & s & its & m & e & db1 & w2
          & sent & msg & _ & _ & _ & _ & _ & H_items & _ & _ & _
          & H_won & H_dates & H_notify & _).
    apply update_item_dates_frame in H_dates as (_ & _ & Hp & _).
    apply notify_farmer_posts in H_notify as (k & payload & Hk & Hp').
    simpl in Hp. exists k, payload. split; [done|]. by rewrite Hp', Hp.
  - apply route_cases in Hroute. apply Hnone.
    destruct Hroute
      as [[_ ->]|[[_ ->]|[(_ & shop & db1 & s & ex & _ & _ & Hdates)|Hs]]];
      [done|done| |done].
    by apply update_item_dates_frame in Hdates as (_ & _ & ? & _).
Qed.

(** X14.  A 200 says [whatsapp_sent = true] only when the farmer of the
    recommendation has a mobile number, the dispatcher is enabled, and
    the last request posted for this claim got status 200 from the
    gateway. *)
Theorem whatsapp_sent_means_accepted (env : Env) (rid : Z) (w : World) :
  let r := claim_recommendation_route env rid w in
  status r.1 = 200 →
  ∀ result,
    body r.1 = ResultBody result → whatsapp_sent result = true →
    ∃ recommendation f mobile k text,
      get_recommendation_by_id (w_db w) rid = Some recommendation ∧
      get_farmer_by_id (w_db w) (farmer_id recommendation) = Some f ∧
      truthy_str (mobile_no f) = Some mobile ∧
      WHATSAPP_ENABLED (config env) = true ∧
      gateway env (length (w_posted w) + k)%nat = Response 200 text ∧
      length (w_posted r.2) = (length (w_posted w) + S k)%nat.
Proof.
  destruct (claim_recommendation_route env rid w) as [resp w'] eqn:Hroute.
  simpl. intros H200 result Hbody Hsent.
  destruct (route_success_inv env rid w resp w' Hroute H200)
    as (shop & recommendation & start_date_str & s & its & m & e & db1 & w2
        & sent & msg & _ & H_found & _ & _ & _ & H_items & _ & _ & _
        & H_won & H_dates & H_notify & ->).
  simpl in Hbody. injection Hbody as <-. simpl in Hsent. subst sent.
  destruct (committed_state env rid w shop _ its s db1 w2 H_items H_won H_dates)
    as (_ & _ & Hfarmers & Hposted & _).
  apply notify_farmer_delivered in H_notify
    as (f & mobile & k & text & Hf & Hmobile & Hon & _ & Hgw & Hp).
  exists recommendation, f, mobile, k, text.
  unfold get_farmer_by_id in *. rewrite Hfarmers in Hf. rewrite Hposted in Hgw.
  split_and!; [done..|].
  by rewrite Hp, length_app, length_replicate, Hposted.
Qed.

(** ** The store: queries and writes *)

Section ItemQuery.

Lemma item_id_le_total : Total item_id_le.
Proof. intros a b. unfold item_id_le. lia. Qed.

Lemma item_id_le_trans : Transitive item_id_le.
Proof. intros a b c. unfold item_id_le. lia. Qed.

Lemma items_query_sorted_le db rid :
  StronglySorted Z.le
    (get_recommendation_items_by_recommendation_id db rid).*1.
Proof.
  apply (StronglySorted_fmap fst item_id_le Z.le); [done|].
  unfold get_recommendation_items_by_recommendation_id.
  apply (@StronglySorted_merge_sort _ item_id_le _
           item_id_le_trans item_id_le_total).
Qed.

Lemma strictly_sorted (l : list Z) :
  StronglySorted Z.le l → NoDup l → StronglySorted Z.lt l.
Proof.
  induction 1 as [|x l Hl IH Hx]; [constructor|].
  intros [Hnotin Hnd]%list.NoDup_cons. constructor; [by apply IH|].
  rewrite list.Forall_forall in Hx |- *. intros y Hy.
  specialize (Hx y Hy). assert (x ≠ y) by (by intros ->). lia.
Qed.

Lemma items_query_sorted db rid :
  StronglySorted Z.lt
    (get_recommendation_items_by_recommendation_id db rid).*1.
Proof.
  apply strictly_sorted; [apply items_query_sorted_le|].
  apply items_query_NoDup.
Qed.

(** Two tables with the same keys per recommendation give the same
    ids, in the same order. *)
Lemma items_query_ids_stable db db' rid :
  (∀ id, (∃ it, items db !! id = Some it ∧ recommendation_id it = rid)
         ↔ (∃ it, items db' !! id = Some it ∧ recommendation_id it = rid)) →
  (get_recommendation_items_by_recommendation_id db' rid).*1
  = (get_recommendation_items_by_recommendation_id db rid).*1.
Proof.
  intros Hsame.
  apply (StronglySorted_unique Z.le); [apply items_query_sorted_le..|].
  apply NoDup_Permutation; [apply items_query_NoDup..|].
  intros id. rewrite !list_elem_of_fmap. split.
  - intros ([id' it] & -> & Hin). apply items_query_elem in Hin.
    destruct (proj2 (Hsame id')) as (it' & Hit'); [by eauto|].
    exists (id', it'). split; [done|]. by apply items_query_elem.
  - intros ([id' it] & -> & Hin). apply items_query_elem in Hin.
    destruct (proj1 (Hsame id')) as (it' & Hit'); [by eauto|].
    exists (id', it'). split; [done|]. by apply items_query_elem.
Qed.
End ItemQuery.

(** X15.  [get_recommendation_items_by_recommendation_id] returns
    exactly the rows of [recommendation_items] that belong to the
    recommendation, each once, in strictly ascending order of id. *)
Theorem items_query_is_the_ordered_selection (db : Db) (rid : Z) :
  let result := get_recommendation_items_by_recommendation_id db rid in
  StronglySorted Z.lt result.*1 ∧
  NoDup result ∧
  ∀ id it,
    (id, it) ∈ result ↔ items db !! id = Some it ∧ recommendation_id it = rid.
Proof.
  simpl. split_and!.
  - apply items_query_sorted.
  - eapply NoDup_fmap_1, items_query_NoDup.
  - apply items_query_elem.
Qed.

(** X16.  [update_recommendation_item_dates] sets the start date, the
    end date and [updated_at] of the item with that id and keeps its
    other columns; every other row and table is as before, and the
    items of every recommendation come back from the query with the
    same ids in the same order.  For an unknown id the database is
    unchanged. *)
Theorem update_item_dates_writes_one_row
    (item_id : Z) (s e : date) (t : Z) (db : Db) :
  let db' := (update_recommendation_item_dates item_id s e t db).1 in
  (items db !! item_id = None → db' = db) ∧
  (∀ it, items db !! item_id = Some it →
         items db' !! item_id
         = Some (mk_item (recommendation_id it) (antibiotic_name it)
                   (treatment_days it) (daily_frequency it)
                   (total_daily_dosage_ml it) (Some s) (Some e) (Some t))) ∧
  (∀ j, j ≠ item_id → items db' !! j = items db !! j) ∧
  recommendations db' = recommendations db ∧
  farmers db' = farmers db ∧
  (∀ rid,
     (get_recommendation_items_by_recommendation_id db' rid).*1
     = (get_recommendation_items_by_recommendation_id db rid).*1).
Proof.
  simpl. unfold update_recommendation_item_dates.
  destruct (items db !! item_id) as [it|] eqn:Hit; simpl.
  - split_and!; [done| | |done|done|].
    + intros it' [= <-]. by rewrite lookup_insert_eq.
    + intros j Hj. by rewrite lookup_insert_ne.
    + intros rid. apply items_query_ids_stable. intros id. simpl.
      destruct (decide (id = item_id)) as [->|Hne].
      * rewrite lookup_insert_eq, Hit. split.
        -- intros (it' & [= <-] & Hrid). by eauto.
        -- intros (it' & [= <-] & Hrid). by eauto.
      * by rewrite lookup_insert_ne.
  - by split_and!.
Qed.

(** X17.  In a store whose keys lie below the AUTO_INCREMENT counter,
    [create_recommendation] returns a key that was not in use, stores
    under it an unclaimed recommendation of the given farmer and
    doctor, leaves every existing row as it is, and keeps the keys
    below the counter; the next key handed out is larger. *)
Theorem create_recommendation_is_fresh (farmer doctor : Z) (db : Db) :
  ids_below_counter db →
  let db' := (create_recommendation farmer doctor db).1 in
  let id := (create_recommendation farmer doctor db).2 in
  recommendations db !! id = None ∧
  (∃ row, recommendations db' !! id = Some row ∧
          farmer_id row = farmer ∧ doctor_id row = doctor ∧
          is_claimed row = false) ∧
  (∀ j r, recommendations db !! j = Some r →
          recommendations db' !! j = Some r) ∧
  items db' = items db ∧ farmers db' = farmers db ∧
  ids_below_counter db' ∧
  id < (create_recommendation farmer doctor db').2.
Proof.
  intros Hbelow. simpl. split_and!.
  - destruct (recommendations db !! recommendations_auto_increment db)
      as [r|] eqn:Hr; [|done].
    specialize (Hbelow _ _ Hr). lia.
  - eexists. by rewrite lookup_insert_eq.
  - intros j r Hr. rewrite lookup_insert_ne; [done|].
    specialize (Hbelow _ _ Hr). lia.
  - done.
  - done.
  - intros j r. simpl. rewrite lookup_insert. case_decide.
    + intros _. lia.
    + intros Hr. specialize (Hbelow _ _ Hr). lia.
  - lia.
Qed.

Lemma claims_in_turn_claimed rid attempts : ∀ db r,
  recommendations db !! rid = Some r →
  is_claimed r = true →
  claims_in_turn rid attempts db = (db, replicate (length attempts) false).
Proof.
  induction attempts as [|[[shop notes] t] rest IH]; intros db r Hr Hc;
    [done|].
  simpl. rewrite claim_recommendation_lost by (intros; congruence).
  by rewrite (IH db r Hr Hc).
Qed.

(** X18.  When several shops claim the same unclaimed recommendation
    one after the other, the first claim returns true and every later
    one false; the row stays claimed by the first shop, with its notes
    and its time. *)
Theorem first_claim_wins
    (rid shop : Z) (notes : option string) (t : Z)
    (later : list (Z * option string * Z)) (db : Db) (r : Recommendation) :
  recommendations db !! rid = Some r →
  is_claimed r = false →
  let result := claims_in_turn rid ((shop, notes, t) :: later) db in
  result.2 = true :: replicate (length later) false ∧
  recommendations result.1 !! rid
  = Some (mk_recommendation (farmer_id r) (doctor_id r) true
            (Some shop) (Some t) notes (Some t)) ∧
  ∀ j, j ≠ rid → recommendations result.1 !! j = recommendations db !! j.
Proof.
  intros Hr Hc. simpl.
  rewrite (claim_recommendation_won _ _ _ _ _ _ Hr Hc).
  erewrite claims_in_turn_claimed;
    [|simpl; apply lookup_insert_eq|done].
  simpl. split_and!; [done|by rewrite lookup_insert_eq|].
  intros j Hj. by rewrite lookup_insert_ne.
Qed.

(** ** The statistics of a shop *)

Section Statistics.
Implicit Types (db : Db) (r : Recommendation).

(** Counting the claimed rows of a shop, one row apart. *)
Lemma total_claims_row db id r shop :
  recommendations db !! id = Some r →
  total_claims db shop
  = Z.of_nat
      (length
         (filter (λ kr : Z * Recommendation,
                    claimed_by_shop_id kr.2 = Some shop ∧
                    is_claimed kr.2 = true)
            (map_to_list (delete id (recommendations db)))))
    + (if decide (claimed_by_shop_id r = Some shop ∧ is_claimed r = true)
       then 1 else 0).
Proof.
  intros Hr. unfold total_claims.
  rewrite <- (map_to_list_delete _ _ _ Hr).
  case_decide as Hrow.
  - rewrite filter_cons_True by done. simpl length. lia.
  - rewrite filter_cons_False by done. lia.
Qed.

Lemma total_claims_insert db id r r' shop :
  recommendations db !! id = Some r →
  total_claims (set_recommendations db (<[id := r']> (recommendations db)))
    shop
  = total_claims db shop
    - (if decide (claimed_by_shop_id r = Some shop ∧ is_claimed r = true)
       then 1 else 0)
    + (if decide (claimed_by_shop_id r' = Some shop ∧ is_claimed r' = true)
       then 1 else 0).
Proof.
  intros Hr.
  rewrite (total_claims_row db id r shop Hr).
  rewrite (total_claims_row _ id r' shop) by (simpl; apply lookup_insert_eq).
  simpl. rewrite delete_insert_eq. lia.
Qed.

Lemma total_claims_fresh db id r' shop :
  recommendations db !! id = None →
  is_claimed r' = false →
  ∀ n,
    total_claims
      (mk_db (<[id := r']> (recommendations db)) n (items db) (farmers db))
      shop
    = total_claims db shop.
Proof.
  intros Hr Hc n. unfold total_claims. simpl.
  rewrite map_to_list_insert by done.
  rewrite filter_cons_False; [done|]. simpl. intros [_ ?]. congruence.
Qed.

Lemma claim_recommendation_total rid shop notes t db other :
  total_claims (claim_recommendation rid shop notes t db).1 other
  = total_claims db other
    + (if (claim_recommendation rid shop notes t db).2
          && bool_decide (other = shop)
       then 1 else 0).
Proof.
  unfold claim_recommendation, claim_update.
  destruct (recommendations db !! rid) as [r|] eqn:Hr; simpl; [|lia].
  destruct (is_claimed r) eqn:Hc; simpl; [lia|].
  rewrite (total_claims_insert db rid r _ other Hr).
  rewrite decide_False by (intros [_ ?]; congruence).
  simpl. case_bool_decide as Hshop.
  - subst other. rewrite decide_True by done. lia.
  - rewrite decide_False by (intros [[= ?] _]; congruence). lia.
Qed.

Lemma run_op_total op db shop :
  ids_below_counter db →
  total_claims db shop ≤ total_claims (run_op op db) shop.
Proof.
  intros Hbelow. destruct op as [f d | rid sid notes t]; simpl.
  - unfold create_recommendation. simpl.
    rewrite total_claims_fresh; [lia| |done].
    destruct (recommendations db !! recommendations_auto_increment db)
      as [r|] eqn:Hr; [|done].
    specialize (Hbelow _ _ Hr). lia.
  - rewrite claim_recommendation_total.
    destruct (_ && _); lia.
Qed.

Lemma run_ops_total ops : ∀ db shop,
  store_inv db →
  total_claims db shop ≤ total_claims (run_ops ops db) shop.
Proof.
  induction ops as [|op ops IH]; intros db shop Hinv; [simpl; lia|].
  simpl. etrans; [apply (run_op_total op db shop), Hinv|].
  apply IH. by apply store_inv_step.
Qed.
End Statistics.

(** X19.  A claim through [claim_recommendation] that returns true
    adds one to the [total_claims] of the claiming shop and leaves the
    total of every other shop as it was; a claim that returns false
    changes no total. *)
Theorem claim_counts_once_for_the_winner
    (rid shop : Z) (notes : option string) (t : Z) (db : Db) (other : Z) :
  let result := claim_recommendation rid shop notes t db in
  total_claims result.1 other
  = total_claims db other
    + (if result.2 && bool_decide (other = shop) then 1 else 0).
Proof. apply claim_recommendation_total. Qed.

(** X20.  Once the store is in a state that creations and claims can
    reach from the empty database, no further creation or claim lowers
    the [total_claims] of any shop. *)
Theorem total_claims_never_go_down
    (db : Db) (ops : list store_op) (shop : Z) :
  reachable db →
  total_claims db shop ≤ total_claims (run_ops ops db) shop.
Proof. intros Hdb. by apply run_ops_total, reachable_store_inv. Qed.

(** X21.  A claim answered 200 counts once in the statistics: after
    the request the [total_claims] of the shop of the session is one
    more than it was when the UPDATE ran, and that of every other shop
    is the same. *)
Theorem success_counts_in_the_statistics
    (env : Env) (rid : Z) (w : World) (other : Z) :
  let r := claim_recommendation_route env rid w in
  status r.1 = 200 →
  ∃ shop,
    truthy_Z (session_shop_id env) = Some shop ∧
    total_claims (w_db r.2) other
    = total_claims (run_ops (concurrent env) (w_db w)) other
      + (if bool_decide (other = shop) then 1 else 0).
Proof.
  destruct (claim_recommendation_route env rid w) as [resp w'] eqn:Hroute.
  simpl. intros H200.
  destruct (route_success_inv env rid w resp w' Hroute H200)
    as (shop & recommendation & start_date_str & s & its & m & e & db1 & w2
        & sent & msg & H_session & _ & _ & _ & _ & H_items & _ & _ & _
        & H_won & H_dates & H_notify & _).
  exists shop. split; [done|].
  apply notify_farmer_db in H_notify as [_ Hdb]. rewrite Hdb.
  apply update_item_dates_frame in H_dates as (Hrecs & _).
  simpl in Hrecs.
  pose proof (claim_recommendation_total rid shop (Some (request_notes env))
                (now env) (run_ops (concurrent env) (w_db w)) other) as Htotal.
  rewrite H_won in Htotal. simpl in Htotal. rewrite <- Htotal.
  unfold total_claims. by rewrite Hrecs.
Qed.

(** ** Paging of the claimed recommendations *)

Section Paging.
Context {A : Type}.
Implicit Types (matching rows : list A) (page per_page pp : Z).

Lemma limit_offset_ok matching limit offset :
  0 ≤ limit ≤ MAX_LIMIT → 0 ≤ offset ≤ MAX_LIMIT →
  limit_offset matching limit offset
  = Ok (take (Z.to_nat limit) (drop (Z.to_nat offset) matching)).
Proof.
  intros Hl Ho. unfold limit_offset.
  destruct (Z.leb_spec 0 limit); [|lia].
  destruct (Z.leb_spec limit MAX_LIMIT); [|lia].
  destruct (Z.leb_spec 0 offset); [|lia].
  destruct (Z.leb_spec offset MAX_LIMIT); [|lia].
  done.
Qed.

Lemma pages_bounds total pp :
  0 ≤ total → 1 ≤ pp →
  let pages := (total + pp - 1) / pp in
  total ≤ pages * pp ∧ (pages - 1) * pp < total + (if total =? 0 then 1 else 0)
  ∧ 0 ≤ pages.
Proof.
  intros Ht Hpp pages.
  pose proof (Z.div_mod (total + pp - 1) pp ltac:(lia)) as Hdiv.
  pose proof (Z.mod_pos_bound (total + pp - 1) pp ltac:(lia)) as Hmod.
  fold pages in Hdiv. destruct (Z.eqb_spec total 0); nia.
Qed.

Lemma has_next_iff total pp page :
  0 ≤ total → 1 ≤ pp →
  page < (total + pp - 1) / pp ↔ page * pp < total.
Proof.
  intros Ht Hpp.
  pose proof (Z.div_mod (total + pp - 1) pp ltac:(lia)) as Hdiv.
  pose proof (Z.mod_pos_bound (total + pp - 1) pp ltac:(lia)) as Hmod.
  split; nia.
Qed.

Lemma page_rows_nonempty matching n k :
  (0 < n)%nat →
  take n (drop k matching) ≠ [] ↔ (k < length matching)%nat.
Proof.
  intros Hn. split.
  - intros Hne. destruct (decide (k < length matching)%nat); [done|].
    rewrite drop_ge in Hne by lia. by destruct n.
  - intros Hk Hnil. apply (f_equal length) in Hnil.
    rewrite length_take, length_drop in Hnil. simpl in Hnil. lia.
Qed.

Lemma concat_pages_from n : ∀ matching k s,
  concat ((λ i, take k (drop (i * k) matching)) <$> seq s n)
  = take (n * k) (drop (s * k) matching).
Proof.
  induction n as [|n IH]; intros matching k s; [done|].
  simpl seq. rewrite fmap_cons. simpl concat. rewrite IH.
  replace (S s * k)%nat with (s * k + k)%nat by lia.
  rewrite <- drop_drop, take_take_drop. f_equal; lia.
Qed.

Lemma concat_pages n matching k :
  (length matching ≤ n * k)%nat →
  concat ((λ i, take k (drop (i * k) matching)) <$> seq 0 n) = matching.
Proof.
  intros Hlen. rewrite concat_pages_from. simpl. rewrite drop_0.
  by apply take_ge.
Qed.

Lemma claimed_page_ok matching page per_page :
  1 ≤ page → 1 ≤ per_page →
  (page - 1) * Z.min per_page 50 ≤ MAX_LIMIT →
  claimed_recommendations_page matching page per_page
  = Ok (take (Z.to_nat (Z.min per_page 50))
          (drop (Z.to_nat ((page - 1) * Z.min per_page 50)) matching),
        mk_pagination page (Z.min per_page 50) (Z.of_nat (length matching))
          ((Z.of_nat (length matching) + Z.min per_page 50 - 1)
           / Z.min per_page 50)
          (1 <? page)
          (page <? (Z.of_nat (length matching) + Z.min per_page 50 - 1)
                   / Z.min per_page 50)).
Proof.
  intros Hpage Hpp Hmax.
  unfold claimed_recommendations_page, get_recommendations_by_shop_id.
  cbv zeta. set (pp := Z.min per_page 50) in *.
  rewrite limit_offset_ok by (unfold MAX_LIMIT in *; nia).
  unfold floordiv. by rewrite (proj2 (Z.eqb_neq pp 0)) by lia.
Qed.
End Paging.


(** X23.  The pages 1 to [pages] of the claimed recommendations, each
    fetched by a query of its own that returns the matching rows in
    some order: every page is computed, is non-empty and reports the
    same [pages] and [total]; every page but the last is full; and the
    sizes of the pages add up to [total].  When the queries return the
    rows in one and the same order -- as they do when no two rows share
    [claimed_at] -- the pages, one after the other, are the whole
    result in that order. *)
Theorem pages_make_up_the_result
    {A : Type} (rows : list A) (result : Z → list A) (per_page : Z) :
  1 ≤ per_page →
  Z.of_nat (length rows) + 50 ≤ MAX_LIMIT →
  (∀ page, result page ≡ₚ rows) →
  let pages :=
    (Z.of_nat (length rows) + Z.min per_page 50 - 1) / Z.min per_page 50 in
  let page_rows := λ page,
    match claimed_recommendations_page (result page) page per_page with
    | Ok (rs, _) => rs
    | Raise _ => []
    end in
  (∀ page, 1 ≤ page ≤ pages →
           ∃ rs pg,
             claimed_recommendations_page (result page) page per_page
             = Ok (rs, pg) ∧
             pg_pages pg = pages ∧
             pg_total pg = Z.of_nat (length rows) ∧
             rs ≠ [] ∧
             (page < pages → Z.of_nat (length rs) = Z.min per_page 50)) ∧
  sum_list
    ((λ i, length (page_rows (Z.of_nat i + 1))) <$> seq 0 (Z.to_nat pages))
  = length rows ∧
  ((∀ page, result page = rows) →
   concat ((λ i, page_rows (Z.of_nat i + 1)) <$> seq 0 (Z.to_nat pages))
   = rows).
Proof.
  intros Hpp Hmax Hperm pages page_rows.
  set (pp := Z.min per_page 50) in *.
  set (total := Z.of_nat (length rows)) in *.
  assert (1 ≤ pp ≤ 50) as Hpp' by lia.
  assert (0 ≤ total) as Htotal by lia.
  pose proof (pages_bounds total pp Htotal ltac:(lia)) as (Hup & Hlow & Hpos).
  fold pages in Hup, Hlow, Hpos.
  assert (∀ page, 1 ≤ page ≤ pages → (page - 1) * pp < total) as Hbelow.
  { intros page Hpage.
    apply (has_next_iff total pp (page - 1)); fold pages; lia. }
  assert (∀ page, 1 ≤ page ≤ pages → (page - 1) * pp ≤ MAX_LIMIT) as Hin.
  { intros page Hpage. specialize (Hbelow page Hpage). lia. }
  assert (∀ page, length (result page) = length rows) as Hlen.
  { intros page. by rewrite (Hperm page). }
  assert (∀ page, 1 ≤ page ≤ pages →
            claimed_recommendations_page (result page) page per_page
            = Ok (take (Z.to_nat pp)
                    (drop (Z.to_nat ((page - 1) * pp)) (result page)),
                  mk_pagination page pp total pages
                    (1 <? page) (page <? pages))) as Hpage_ok.
  { intros page Hpage.
    rewrite (claimed_page_ok (result page) page per_page)
      by (try apply Hin; lia).
    fold pp. by rewrite Hlen. }
  assert (∀ i, (i < Z.to_nat pages)%nat →
            page_rows (Z.of_nat i + 1)
            = take (Z.to_nat pp)
                (drop (i * Z.to_nat pp) (result (Z.of_nat i + 1)))) as Hrows.
  { intros i Hi. unfold page_rows. rewrite Hpage_ok by lia.
    do 2 f_equal. nia. }
  split_and!.
  - intros page Hpage. rewrite (Hpage_ok page Hpage).
    eexists _, _. split; [reflexivity|]. simpl.
    assert ((page - 1) * pp < total) as Hoff
      by (apply (has_next_iff total pp (page - 1)); fold pages; lia).
    assert (0 ≤ (page - 1) * pp) as Hoff0 by nia.
    split_and!; [done..| |].
    + apply page_rows_nonempty; [lia|]. rewrite Hlen. unfold total in Hoff.
      lia.
    + intros Hlast.
      assert (page * pp < total) as Hnext
        by (apply (has_next_iff total pp page); fold pages; lia).
      assert (page * pp = (page - 1) * pp + pp) as Hstep by lia.
      rewrite length_take, length_drop, Hlen. unfold total in *. lia.
  - assert (length rows ≤ Z.to_nat pages * Z.to_nat pp)%nat as Hbound
      by (unfold total in *; nia).
    etrans;
      [|apply (f_equal length
                 (concat_pages (Z.to_nat pages) rows (Z.to_nat pp) Hbound))].
    rewrite length_concat, <- list_fmap_compose.
    f_equal. apply list_fmap_ext. intros j i [Hij Hi]%lookup_seq.
    simpl in Hij. subst i. simpl.
    rewrite (Hrows j Hi), !length_take, !length_drop, Hlen. done.
  - intros Hsame.
    etrans; [|apply (concat_pages (Z.to_nat pages) rows (Z.to_nat pp));
               unfold total in *; nia].
    f_equal. apply list_fmap_ext. intros j i [Hij Hi]%lookup_seq.
    simpl in Hij. subst i. by rewrite (Hrows j Hi), Hsame.
Qed.


(** ** The schedule of a claim, on the calendar *)

(** X25.  On a 200 the schedule is exact on the calendar.  The start
    date [s] of the response is a date of the calendar and the end date
    [e] lies [max_treatment_days - 1] days after it.  Every item of the
    recommendation is stored with the start date [s] and an end date
    that lies [treatment_days - 1] days after [s]; none with a non-zero
    [treatment_days] ends after [e], and one of them ends on [e]. *)
Theorem schedule_follows_the_calendar (env : Env) (rid : Z) (w : World) :
  let r := claim_recommendation_route env rid w in
  status r.1 = 200 →
  ∃ s e result,
    body r.1 = ResultBody result ∧
    res_start_date result = isoformat s ∧
    res_end_date result = isoformat e ∧
    calendar_date s = true ∧ calendar_date e = true ∧
    toordinal e = toordinal s + res_max_treatment_days result - 1 ∧
    (∀ id it,
       (id, it) ∈ get_recommendation_items_by_recommendation_id (w_db w) rid →
       ∃ d e_item stored,
         treatment_days it = Some d ∧
         items (w_db r.2) !! id = Some stored ∧
         start_date stored = Some s ∧
         end_date stored = Some e_item ∧
         toordinal e_item = toordinal s + d - 1 ∧
         (d ≠ 0 → toordinal e_item ≤ toordinal e)) ∧
    (∃ id stored,
       items (w_db r.2) !! id = Some stored ∧
       recommendation_id stored = rid ∧
       end_date stored = Some e).
Proof.
  destruct (claim_recommendation_route env rid w) as [resp w'] eqn:Hroute.
  simpl. intros H200.
  destruct (route_success_inv env rid w resp w' Hroute H200)
    as (shop & recommendation & start_date_str & s & its & m & e & db1 & w2
        & sent & msg & _ & _ & _ & _ & H_parsed & H_items & _ & H_max & H_end
        & H_won & H_dates & H_notify & ->).
  apply notify_farmer_db in H_notify as [_ Hdb]. rewrite Hdb.
  destruct (committed_state env rid w shop _ its s db1 w2 H_items H_won H_dates)
    as (_ & Hdated & _).
  apply strptime_ymd_calendar_date in H_parsed as [Hs _].
  pose proof (add_days_ordinal _ _ _ H_end) as (He_ord & He & _).
  apply py_max_Ok in H_max as [Hm Hub].
  exists s, e. eexists. simpl. split_and!; [done..|simpl; lia| |].
  - intros id it Hin. rewrite H_items in Hin.
    destruct (Hdated id it Hin) as (d & e_item & Hd & He_item & Hstored).
    pose proof (add_days_ordinal _ _ _ He_item) as [Hitem_ord _].
    exists d, e_item, (dated_item it s e_item (now env)).
    split_and!; [done..|lia|].
    intros Hd0. assert (d ≤ m); [|lia].
    apply Hub, usable_treatment_days_elem. eauto.
  - apply usable_treatment_days_elem in Hm as (_ & id & it & Hin & Hd).
    destruct (Hdated id it Hin) as (d & e_item & Hd' & He_item & Hstored).
    assert (d = m) as -> by congruence.
    assert (e_item = e) as -> by congruence.
    exists id, (dated_item it s e (now env)). split_and!; [done| |done].
    simpl. subst its. by apply items_query_elem in Hin as [_ ?].
Qed.

(** X26.  The dates of a 200 response read back: parsed with the
    format of the endpoint, [start_date] of the response is the date
    that the request's [start_date] was parsed to, and [end_date] is
    the date [max_treatment_days - 1] days after it. *)
Theorem response_dates_read_back (env : Env) (rid : Z) (w : World) :
  let r := claim_recommendation_route env rid w in
  status r.1 = 200 →
  ∃ str s e result,
    truthy_str (json_start_date (request_data env)) = Some str ∧
    strptime_ymd str = Ok s ∧
    body r.1 = ResultBody result ∧
    strptime_ymd (res_start_date result) = Ok s ∧
    strptime_ymd (res_end_date result) = Ok e ∧
    add_days s (res_max_treatment_days result - 1) = Ok e.
Proof.
  destruct (claim_recommendation_route env rid w) as [resp w'] eqn:Hroute.
  simpl. intros H200.
  destruct (route_success_inv env rid w resp w' Hroute H200)
    as (shop & recommendation & str & s & its & m & e & db1 & w2
        & sent & msg & _ & _ & _ & H_str & H_parsed & _ & _ & _ & H_end
        & _ & _ & _ & ->).
  pose proof (strptime_ymd_calendar_date _ _ H_parsed) as [Hs Hsy].
  pose proof (add_days_ordinal _ _ _ H_end) as (_ & He & Hey).
  exists str, s, e. eexists. simpl.
  split_and!; [done..| | |done]; by apply strptime_isoformat.
Qed.

(** ** What the gateway receives *)

Section NotifyPayload.
Context (env : Env) (recommendation : Recommendation)
        (its : list (Z * Item)) (s e : date).

(** The notification block posts nothing, or copies of the payload
    made for the farmer of the recommendation. *)
Lemma notify_farmer_payloads w r w' :
  notify_farmer env recommendation its s e w = (r, w') →
  w_posted w' = w_posted w ∨
  ∃ f mobile k,
    get_farmer_by_id (w_db w) (farmer_id recommendation) = Some f ∧
    truthy_str (mobile_no f) = Some mobile ∧
    w_posted w'
    = (w_posted w
       ++ replicate k (make_payload (config env) mobile (name f) its s e))%list.
Proof.
  unfold notify_farmer, try_except, mbind, M_bind, db_read. simpl.
  destruct (get_farmer_by_id _ _) as [f|] eqn:Hf;
    [|intros [= <- <-]; by left].
  destruct (truthy_str (mobile_no f)) as [mobile|] eqn:Hmobile;
    [|intros [= <- <-]; by left].
  destruct (send_whatsapp_message_bounds (config env) (gateway env) mobile
              (name f) its s e w)
    as (v & w1 & k & sl & Hsend & _ & Hp & _).
  rewrite Hsend. intros Hrun. right. exists f, mobile, k.
  destruct v as [[sent msg]|]; simpl in *; injection Hrun as <- <-;
    by split_and!.
Qed.
End NotifyPayload.

(** X27.  What the gateway receives for a claim answered 200 carries
    the schedule of the response: every request posted is the payload
    made from the mobile number and the name of the farmer of the
    recommendation, the items as they were read, and the start and end
    dates that the response gives. *)
Theorem notification_carries_the_schedule (env : Env) (rid : Z) (w : World) :
  let r := claim_recommendation_route env rid w in
  status r.1 = 200 →
  ∃ s e result,
    body r.1 = ResultBody result ∧
    res_start_date result = isoformat s ∧
    res_end_date result = isoformat e ∧
    ∀ p, p ∈ drop (length (w_posted w)) (w_posted r.2) →
         ∃ recommendation f mobile,
           get_recommendation_by_id (w_db w) rid = Some recommendation ∧
           get_farmer_by_id (w_db w) (farmer_id recommendation) = Some f ∧
           truthy_str (mobile_no f) = Some mobile ∧
           p = make_payload (config env) mobile (name f)
                 (get_recommendation_items_by_recommendation_id (w_db w) rid)
                 s e ∧
           text5 p = strftime_dmy s ∧ text6 p = strftime_dmy e.
Proof.
  destruct (claim_recommendation_route env rid w) as [resp w'] eqn:Hroute.
  simpl. intros H200.
  destruct (route_success_inv env rid w resp w' Hroute H200)
    as (shop & recommendation & start_date_str & s & its & m & e & db1 & w2
        & sent & msg & _ & H_found & _ & _ & _ & H_items & _ & _ & _
        & H_won & H_dates & H_notify & ->).
  destruct (committed_state env rid w shop _ its s db1 w2 H_items H_won H_dates)
    as (_ & _ & Hfarmers & Hposted & _).
  exists s, e. eexists. simpl. split_and!; [done..|].
  intros p Hp.
  apply notify_farmer_payloads in H_notify
    as [Hnone|(f & mobile & k & Hf & Hmobile & Hsome)].
  - rewrite Hnone, Hposted, drop_all in Hp. by apply elem_of_nil in Hp.
  - rewrite Hsome, Hposted, drop_app_length in Hp.
    apply elem_of_replicate in Hp as [-> _].
    exists recommendation, f, mobile.
    unfold get_farmer_by_id in *. rewrite Hfarmers in Hf.
    subst its. by split_and!.
Qed.

(** ** Instances of the further properties *)

(** An instance of X2: a 429, then a 200. *)
Lemma delivered_only_on_200_instance :
  let gw : Gateway := λ n, match n with
                           | O => Response 429 "Too Many Requests"
                           | _ => Response 200 "ok"
                           end in
  WHATSAPP_ENABLED default_config = true ∧
  ∃ k text,
    (k < Z.to_nat (WHATSAPP_MAX_RETRIES default_config))%nat ∧
    gw (length (w_posted (start empty_db)) + k)%nat = Response 200 text ∧
    w_posted
      (send_whatsapp_message default_config gw "+91 98765-43210" "Ravi" []
         (mk_date 2024 1 1) (mk_date 2024 1 10) (start empty_db)).2
    = (w_posted (start empty_db)
       ++ replicate (S k)
            (make_payload default_config "+91 98765-43210" "Ravi" []
               (mk_date 2024 1 1) (mk_date 2024 1 10)))%list ∧
    "WhatsApp message sent successfully (attempt 2)"
    = "WhatsApp message sent successfully (attempt "
      +:+ str_of_Z (Z.of_nat k + 1) +:+ ")".
Proof.
  intros gw.
  apply (delivered_only_on_200 default_config gw "+91 98765-43210" "Ravi" []
           (mk_date 2024 1 1) (mk_date 2024 1 10) (start empty_db)).
  vm_compute. reflexivity.
Defined.

(** An instance of X3: 429 on every attempt. *)
Lemma returns_None_instance :
  let w' :=
    (send_whatsapp_message default_config (Sample.gateway_status 429)
       "+91 98765-43210" "Ravi" [] (mk_date 2024 1 1) (mk_date 2024 1 10)
       (start empty_db)).2 in
  WHATSAPP_ENABLED default_config = true ∧
  w_posted w'
  = (w_posted (start empty_db)
     ++ replicate (Z.to_nat (WHATSAPP_MAX_RETRIES default_config))
          (make_payload default_config "+91 98765-43210" "Ravi" []
             (mk_date 2024 1 1) (mk_date 2024 1 10)))%list ∧
  (WHATSAPP_MAX_RETRIES default_config ≤ 0 ∨
   ∃ text,
     Sample.gateway_status 429
       (length (w_posted (start empty_db))
        + Z.to_nat (WHATSAPP_MAX_RETRIES default_config) - 1)%nat
     = Response 429 text).
Proof.
  intros w'.
  apply (returns_None_only_when_rate_limited default_config
           (Sample.gateway_status 429) "+91 98765-43210" "Ravi" []
           (mk_date 2024 1 1) (mk_date 2024 1 10) (start empty_db)).
  vm_compute. reflexivity.
Defined.

(** An instance of X4: three timeouts, sleeps of 2 and 3 seconds. *)
Lemma persistent_timeouts_instance :
  send_whatsapp_message default_config Sample.gateway_timeout
    "+91 98765-43210" "Ravi" [] (mk_date 2024 1 1) (mk_date 2024 1 10)
    (start empty_db)
  = (Ok (Some (false,
               "WhatsApp API timeout after "
               +:+ str_of_Z (WHATSAPP_MAX_RETRIES default_config)
               +:+ " attempts")),
     mk_world empty_db
       ([] ++ replicate 3
                (make_payload default_config "+91 98765-43210" "Ravi" []
                   (mk_date 2024 1 1) (mk_date 2024 1 10)))
       ([] ++ backoff_delays (Q2Qc 2) 2)).
Proof.
  apply (persistent_timeouts_back_off default_config Sample.gateway_timeout
           "+91 98765-43210" "Ravi" [] (mk_date 2024 1 1) (mk_date 2024 1 10)
           (start empty_db) 2); [reflexivity | reflexivity | lia |].
  intros j _. eexists. split; reflexivity.
Defined.

(** An instance of X5: the gateway refuses every connection. *)
Lemma persistent_connection_errors_instance :
  let gw : Gateway :=
    λ _, PostRaises (mk_exn ConnectionError "Connection refused") in
  send_whatsapp_message default_config gw
    "+91 98765-43210" "Ravi" [] (mk_date 2024 1 1) (mk_date 2024 1 10)
    (start empty_db)
  = (Ok (Some (false,
               "WhatsApp API connection failed after "
               +:+ str_of_Z (WHATSAPP_MAX_RETRIES default_config)
               +:+ " attempts")),
     mk_world empty_db
       ([] ++ replicate 3
                (make_payload default_config "+91 98765-43210" "Ravi" []
                   (mk_date 2024 1 1) (mk_date 2024 1 10)))
       ([] ++ replicate 2 (Q2Qc 2))).
Proof.
  intros gw.
  apply (persistent_connection_errors_do_not_back_off default_config gw
           "+91 98765-43210" "Ravi" [] (mk_date 2024 1 1) (mk_date 2024 1 10)
           (start empty_db) 2); [reflexivity | reflexivity |].
  intros j _. eexists. split_and!; reflexivity.
Defined.

(** An instance of X6: 429 on each of the three attempts. *)
Lemma persistent_rate_limit_instance :
  send_whatsapp_message default_config (Sample.gateway_status 429)
    "+91 98765-43210" "Ravi" [] (mk_date 2024 1 1) (mk_date 2024 1 10)
    (start empty_db)
  = (Ok None,
     mk_world empty_db
       ([] ++ replicate 3
                (make_payload default_config "+91 98765-43210" "Ravi" []
                   (mk_date 2024 1 1) (mk_date 2024 1 10)))
       ([] ++ replicate 2 (Q2Qc 2 * 2)%Qc)).
Proof.
  apply (persistent_rate_limit_returns_None default_config
           (Sample.gateway_status 429)
           "+91 98765-43210" "Ravi" [] (mk_date 2024 1 1) (mk_date 2024 1 10)
           (start empty_db) 2); [reflexivity | reflexivity |].
  intros j _. eexists. reflexivity.
Defined.

(** An instance of X7: the number of the sample farmer. *)
Lemma clean_mobile_instance :
  Forall (λ c, is_digit c = true)
    (list_ascii_of_string (clean_mobile "+91 98765-43210")).
Proof.
  refine (proj2 (proj2 (proj2
            (clean_mobile_keeps_the_digits "+91 98765-43210" _)))
            (list_ascii_of_string "91987654321" ++ ["0"%char])%list _ _).
  - unfold ascii_only. simpl. repeat constructor; simpl; lia.
  - reflexivity.
  - vm_compute. intros Hin.
    repeat (apply elem_of_cons in Hin as [Hin|Hin]; [discriminate|]).
    by apply elem_of_nil in Hin.
Defined.

(** An instance of X9: recommendation 3 has no items. *)
Lemma nothing_sent_instance :
  let r := claim_recommendation_route (Sample.request Sample.gateway_ok []) 3
             (start Sample.clinic) in
  w_posted r.2 = w_posted (start Sample.clinic) ∧
  w_slept r.2 = w_slept (start Sample.clinic).
Proof.
  apply (nothing_sent_unless_claimed (Sample.request Sample.gateway_ok []) 3
           (start Sample.clinic)).
  vm_compute. discriminate.
Defined.

(** An instance of X10: shop 42 claims recommendation 1. *)
Lemma success_commits_instance :
  let env := Sample.request Sample.gateway_ok [] in
  let r := claim_recommendation_route env 1 (start Sample.clinic) in
  ∃ shop row result,
    truthy_Z (session_shop_id env) = Some shop ∧
    recommendations (w_db r.2) !! 1 = Some row ∧
    is_claimed row = true ∧
    claimed_by_shop_id row = Some shop ∧
    claimed_at row = Some (now env) ∧
    claim_notes row = Some (request_notes env) ∧
    body r.1 = ResultBody result ∧
    res_recommendation_id result = 1 ∧
    res_shop_id result = shop ∧
    res_claimed_at result = now env.
Proof.
  apply (success_commits_for_the_caller (Sample.request Sample.gateway_ok [])
           1 (start Sample.clinic)).
  vm_compute. reflexivity.
Defined.

(** An instance of X11: shop 99 comes after shop 42. *)
Lemma second_claim_instance :
  let env := Sample.request Sample.gateway_ok [] in
  let env2 :=
    mk_env (Some 99) (Some (mk_json (Some "2024-02-01") None)) 2000
      default_config Sample.gateway_ok [] in
  let r := claim_recommendation_route env 1 (start Sample.clinic) in
  claim_recommendation_route env2 1 r.2
  = (match truthy_Z (session_shop_id env2) with
     | Some _ => error_response 400 "Recommendation already claimed"
     | None => error_response 401 "Shop not logged in"
     end, r.2).
Proof.
  apply (second_claim_is_rejected (Sample.request Sample.gateway_ok [])).
  vm_compute. reflexivity.
Defined.

(** An instance of X14: the gateway accepts the first request. *)
Lemma whatsapp_sent_instance :
  let env := Sample.request Sample.gateway_ok [] in
  let r := claim_recommendation_route env 1 (start Sample.clinic) in
  ∃ recommendation f mobile k text,
    get_recommendation_by_id (w_db (start Sample.clinic)) 1
    = Some recommendation ∧
    get_farmer_by_id (w_db (start Sample.clinic)) (farmer_id recommendation)
    = Some f ∧
    truthy_str (mobile_no f) = Some mobile ∧
    WHATSAPP_ENABLED (config env) = true ∧
    gateway env (length (w_posted (start Sample.clinic)) + k)%nat
    = Response 200 text ∧
    length (w_posted r.2)
    = (length (w_posted (start Sample.clinic)) + S k)%nat.
Proof.
  intros env r.
  refine (whatsapp_sent_means_accepted env 1 (start Sample.clinic) _
            (mk_result "Recommendation claimed successfully" 1 42 1000
               "2024-01-01" "2024-01-10" 10 "collected" true
               "WhatsApp message sent successfully (attempt 1)") _ _);
    vm_compute; reflexivity.
Defined.

(** An instance of X17: the first recommendation of an empty store. *)
Lemma create_recommendation_instance :
  let db' := (create_recommendation 7 3 empty_db).1 in
  let id := (create_recommendation 7 3 empty_db).2 in
  recommendations empty_db !! id = None ∧
  (∃ row, recommendations db' !! id = Some row ∧
          farmer_id row = 7 ∧ doctor_id row = 3 ∧
          is_claimed row = false) ∧
  (∀ j r, recommendations empty_db !! j = Some r →
          recommendations db' !! j = Some r) ∧
  items db' = items empty_db ∧ farmers db' = farmers empty_db ∧
  ids_below_counter db' ∧
  id < (create_recommendation 7 3 db').2.
Proof.
  apply (create_recommendation_is_fresh 7 3 empty_db).
  intros id r Hr. simpl in Hr. by rewrite lookup_empty in Hr.
Defined.

(** An instance of X18: the shops 42, 99 and 7 claim recommendation 1
    of the sample clinic. *)
Lemma first_claim_wins_instance :
  let result :=
    claims_in_turn 1
      [(42, Some "collected", 1000); (99, None, 1001); (7, None, 1002)]
      Sample.clinic in
  result.2 = true :: replicate 2 false ∧
  recommendations result.1 !! 1
  = Some (mk_recommendation 7 3 true (Some 42) (Some 1000)
            (Some "collected") (Some 1000)) ∧
  ∀ j, j ≠ 1 →
       recommendations result.1 !! j = recommendations Sample.clinic !! j.
Proof.
  apply (first_claim_wins 1 42 (Some "collected") 1000
           [(99, None, 1001); (7, None, 1002)] Sample.clinic
           (Sample.unclaimed 7 3)); reflexivity.
Defined.

(** An instance of X20: a creation and a claim from the empty store. *)
Lemma total_claims_never_go_down_instance :
  total_claims empty_db 42
  ≤ total_claims (run_ops [OpCreate 7 3; OpClaim 1 42 None 1000] empty_db) 42.
Proof.
  apply (total_claims_never_go_down empty_db
           [OpCreate 7 3; OpClaim 1 42 None 1000] 42).
  constructor.
Defined.

(** An instance of X21: shop 42 claims recommendation 1. *)
Lemma success_counts_instance :
  let env := Sample.request Sample.gateway_ok [] in
  let r := claim_recommendation_route env 1 (start Sample.clinic) in
  ∃ shop,
    truthy_Z (session_shop_id env) = Some shop ∧
    total_claims (w_db r.2) 42
    = total_claims (run_ops (concurrent env) (w_db (start Sample.clinic))) 42
      + (if bool_decide (42 = shop) then 1 else 0).
Proof.
  apply (success_counts_in_the_statistics
           (Sample.request Sample.gateway_ok []) 1 (start Sample.clinic) 42).
  vm_compute. reflexivity.
Defined.


(** An instance of X23: seven rows on three pages; the query of page
    2 returns them in the opposite order. *)
Lemma pages_make_up_the_result_instance :
  let rows := [1; 2; 3; 4; 5; 6; 7] in
  let result := λ page : Z, if page =? 2 then reverse rows else rows in
  let page_rows := λ page,
    match claimed_recommendations_page (result page) page 3 with
    | Ok (rs, _) => rs
    | Raise _ => []
    end in
  sum_list ((λ i, length (page_rows (Z.of_nat i + 1))) <$> seq 0 3)
  = length rows.
Proof.
  intros rows result page_rows.
  refine (proj1 (proj2 (pages_make_up_the_result rows result 3 _ _ _)));
    [lia | vm_compute; discriminate |].
  intros page. unfold result. destruct (page =? 2); [|done].
  apply reverse_Permutation.
Defined.

(** An instance of X25: recommendation 1 from 1 January 2024; its
    longest item runs for 10 days. *)
Lemma schedule_instance :
  ∃ s e : date,
    calendar_date s = true ∧ calendar_date e = true ∧
    toordinal e = toordinal s + 10 - 1.
Proof.
  destruct (schedule_follows_the_calendar
              (Sample.request Sample.gateway_ok []) 1 (start Sample.clinic))
    as (s & e & result & Hbody & _ & _ & Hs & He & Hord & _);
    [vm_compute; reflexivity|].
  vm_compute in Hbody. injection Hbody as <-.
  exists s, e. by split_and!.
Defined.

(** An instance of X26: the same request. *)
Lemma response_dates_instance :
  ∃ s e : date,
    strptime_ymd "2024-01-01" = Ok s ∧
    strptime_ymd "2024-01-10" = Ok e ∧
    add_days s (10 - 1) = Ok e.
Proof.
  destruct (response_dates_read_back
              (Sample.request Sample.gateway_ok []) 1 (start Sample.clinic))
    as (str & s & e & result & _ & _ & Hbody & Hs & He & Hend);
    [vm_compute; reflexivity|].
  vm_compute in Hbody. injection Hbody as <-.
  exists s, e. by split_and!.
Defined.

(** An instance of X27: the same request; what is posted carries the
    dates of the schedule. *)
Lemma notification_instance :
  let r :=
    claim_recommendation_route (Sample.request Sample.gateway_ok []) 1
      (start Sample.clinic) in
  ∃ s e : date,
    ∀ p, p ∈ w_posted r.2 →
         text5 p = strftime_dmy s ∧ text6 p = strftime_dmy e.
Proof.
  intros r.
  destruct (notification_carries_the_schedule
              (Sample.request Sample.gateway_ok []) 1 (start Sample.clinic))
    as (s & e & result & _ & _ & _ & Hall);
    [vm_compute; reflexivity|].
  exists s, e. intros p Hp.
  destruct (Hall p Hp) as (rc & f & mobile & _ & _ & _ & _ & H5 & H6).
  by split.
Defined.
